(** * Smart AI load balancer: model assignment, scoring and dispatch

    A shallow embedding of [model_manager.py], [performance_evaluator.py]
    and [smart_load_balancer_server.py], followed by the properties of the
    assignment engine, the performance evaluator and the dispatch engine.

    Conventions of the embedding:
    - Python [int] is [Z]; lengths and indices of lists are [nat].
    - Python [float] is [Q]: every finite float is a rational, comparisons
      on finite floats are exact, and the bounds proved below are bounds the
      (monotone) float rounding preserves.  NaN and infinities are outside
      the model.
    - Python [str] is [string] (ASCII).
    - A Python [dict] is an association list in insertion order with unique
      keys maintained by [dict_set].
    - Code that can raise returns a [result]; [try/except] is a match on it. *)

From Stdlib Require Import List ZArith QArith Qround String Ascii Bool Arith.
From Stdlib Require Import Lia Lqa Permutation Sorted DecimalString.
From Stdlib Require Import DecimalPos DecimalZ.
Import ListNotations.

Local Close Scope Q_scope.
Local Open Scope string_scope.
Local Open Scope list_scope.
Local Open Scope nat_scope.

(* ================================================================== *)
(** * Part I: the embedding                                            *)
(* ================================================================== *)

(** ** Python built-ins used by the sources *)
Module Py.

(** Exceptions the modelled code can raise. *)
Inductive exn : Type :=
| IndexError (msg : string)
| AttributeError (msg : string)
| TypeError (msg : string)
| RpcError (msg : string).

Definition str_of_exn (e : exn) : string :=
  match e with
  | IndexError m | AttributeError m | TypeError m | RpcError m => m
  end.

Inductive result (A : Type) : Type :=
| Ok (a : A)
| Raise (e : exn).
Arguments Ok {A} a.
Arguments Raise {A} e.

Definition bind {A B : Type} (r : result A) (k : A -> result B) : result B :=
  match r with
  | Ok a => k a
  | Raise e => Raise e
  end.

Section Dict.
Context {V : Type}.

Definition dict := list (string * V).

Fixpoint dict_get (d : dict) (k : string) : option V :=
  match d with
  | [] => None
  | (k', v) :: r => if String.eqb k' k then Some v else dict_get r k
  end.

(** [d[k] = v]: an existing key keeps its position, a new key goes last. *)
Fixpoint dict_set (d : dict) (k : string) (v : V) : dict :=
  match d with
  | [] => [(k, v)]
  | (k', v') :: r =>
      if String.eqb k' k then (k', v) :: r else (k', v') :: dict_set r k v
  end.

Definition dict_keys (d : dict) : list string := map fst d.

(** [k in d] *)
Definition dict_mem (k : string) (d : dict) : bool :=
  existsb (String.eqb k) (dict_keys d).
End Dict.
Arguments dict V : clear implicits.

(** [k in s] for a list (or set) of strings. *)
Definition str_in (k : string) (s : list string) : bool :=
  existsb (String.eqb k) s.

Section Sorted.
Context {A K : Type} (leb : K -> K -> bool) (key : A -> K).

(** Insertion before the first element whose key is not greater. *)
Fixpoint insert_desc (x : A) (l : list A) : list A :=
  match l with
  | [] => [x]
  | y :: r =>
      if leb (key y) (key x) then x :: y :: r else y :: insert_desc x r
  end.

(** [sorted(l, key=key, reverse=True)]: descending and stable, elements
    with equal keys keep the order they have in [l]. *)
Definition sorted_reverse (l : list A) : list A :=
  fold_right insert_desc [] l.

(** [x] may come before [y] in a descending order. *)
Definition desc (x y : A) : Prop := leb (key y) (key x) = true.
End Sorted.

(** [l[a:b]] for [0 <= a <= b]. *)
Definition slice {A : Type} (l : list A) (a b : nat) : list A :=
  firstn (b - a) (skipn a l).

(** [random.choice(seq)], [draw] being the random number drawn. *)
Definition choice {A : Type} (draw : nat) (seq : list A) : result A :=
  match seq with
  | [] => Raise (IndexError "Cannot choose from an empty sequence")
  | _ :: _ =>
      match nth_error seq (draw mod List.length seq) with
      | Some x => Ok x
      | None => Raise (IndexError "list index out of range")
      end
  end.

(** [seq[i]] *)
Definition getitem {A : Type} (seq : list A) (i : nat) : result A :=
  match nth_error seq i with
  | Some x => Ok x
  | None => Raise (IndexError "list index out of range")
  end.

(** [min(a, b)] on floats: [b] only when [b < a]. *)
Definition min (a b : Q) : Q := if Qle_bool a b then a else b.

(** Rounding of a rational to the nearest integer, ties to even. *)
Definition round_half_even (x : Q) : Z :=
  let f := Qfloor x in
  let r := (x - inject_Z f)%Q in
  if Qle_bool r (1 # 2)
  then if Qeq_bool r (1 # 2) then (if Z.even f then f else f + 1)%Z else f
  else (f + 1)%Z.

(** [round(x, 1)] *)
Definition round1 (x : Q) : Q :=
  (inject_Z (round_half_even (x * 10)) / 10)%Q.

Definition lower_ascii (c : ascii) : ascii :=
  let n := nat_of_ascii c in
  if (65 <=? n)%nat && (n <=? 90)%nat then ascii_of_nat (n + 32) else c.

(** [s.lower()] *)
Fixpoint lower (s : string) : string :=
  match s with
  | EmptyString => EmptyString
  | String c r => String (lower_ascii c) (lower r)
  end.

(** [sub in s] *)
Fixpoint contains (sub s : string) : bool :=
  String.prefix sub s
  || match s with
     | EmptyString => false
     | String _ r => contains sub r
     end.

(** [any(x in s for x in subs)] *)
Definition any_in (subs : list string) (s : string) : bool :=
  existsb (fun x => contains x s) subs.

(** [str(n)] for an integer. *)
Definition str_of_Z (n : Z) : string := NilZero.string_of_int (Z.to_int n).

Section SortedAscending.
Context {A K : Type} (leb : K -> K -> bool) (key : A -> K).

(** Insertion before the first element whose key is not smaller. *)
Fixpoint insert_asc (x : A) (l : list A) : list A :=
  match l with
  | [] => [x]
  | y :: r =>
      if leb (key x) (key y) then x :: y :: r else y :: insert_asc x r
  end.

(** [sorted(l, key=key)] and [l.sort(key=key)]: ascending and stable. *)
Definition sorted_by (l : list A) : list A := fold_right insert_asc [] l.

(** [x] may come before [y] in an ascending order. *)
Definition asc (x y : A) : Prop := leb (key x) (key y) = true.
End SortedAscending.

(** [c.isspace()] on ASCII. *)
Definition is_space (c : ascii) : bool :=
  let n := nat_of_ascii c in
  ((9 <=? n) && (n <=? 13)) || ((28 <=? n) && (n <=? 32)).

(** [c.isdigit()] on ASCII, the class [\d]. *)
Definition is_digit (c : ascii) : bool :=
  let n := nat_of_ascii c in (48 <=? n) && (n <=? 57).

(** [s.lstrip()] *)
Fixpoint lstrip (s : string) : string :=
  match s with
  | EmptyString => EmptyString
  | String c r => if is_space c then lstrip r else s
  end.

(** [s.rstrip()] *)
Fixpoint rstrip (s : string) : string :=
  match s with
  | EmptyString => EmptyString
  | String c r =>
      match rstrip r with
      | EmptyString => if is_space c then EmptyString else String c EmptyString
      | r' => String c r'
      end
  end.

(** [s.strip()] *)
Definition strip (s : string) : string := rstrip (lstrip s).

(** [s.split(sep)] for a one-character separator: never empty. *)
Fixpoint split_on (sep : ascii) (s : string) : list string :=
  match s with
  | EmptyString => [EmptyString]
  | String c r =>
      if Ascii.eqb c sep then EmptyString :: split_on sep r
      else
        match split_on sep r with
        | [] => [String c EmptyString]
        | w :: ws => String c w :: ws
        end
  end.

(** [s.split()]: the maximal runs of non-space characters. *)
Fixpoint split_ws (s : string) : list string :=
  match s with
  | EmptyString => []
  | String c r =>
      if is_space c then split_ws r
      else
        match r with
        | EmptyString => [String c EmptyString]
        | String c' _ =>
            if is_space c' then String c EmptyString :: split_ws r
            else
              match split_ws r with
              | [] => [String c EmptyString]
              | w :: ws => String c w :: ws
              end
        end
  end.

(** [int(s)] for an unsigned decimal literal; [None] is a [ValueError]. *)
Definition int_of_str (s : string) : option Z :=
  option_map Z.of_uint (NilZero.uint_of_string s).

(** The longest prefix of digits and what follows it. *)
Fixpoint span_digits (s : string) : string * string :=
  match s with
  | EmptyString => (EmptyString, EmptyString)
  | String c r =>
      if is_digit c
      then let (ds, rest) := span_digits r in (String c ds, rest)
      else (EmptyString, s)
  end.

(** [s] without the prefix [pre], when it starts with it. *)
Fixpoint strip_prefix (pre s : string) : option string :=
  match pre, s with
  | EmptyString, _ => Some s
  | String a pre', String b s' =>
      if Ascii.eqb a b then strip_prefix pre' s' else None
  | String _ _, EmptyString => None
  end.

End Py.

Notation "x <- c1 ;; c2" := (Py.bind c1 (fun x => c2))
  (at level 61, c1 at next level, right associativity).

(** ** performance_evaluator.py *)
Module PerformanceEvaluator.

(** The [specs] dictionary.  [cpu_cores] is [psutil.cpu_count()], which is
    [None] when the count cannot be determined. *)
Record Specs : Type := {
  cpu_cores : option Z;
  cpu_frequency_ghz : Q;
  ram_gb : Q;
  gpu_info : string;
  gpu_memory_gb : Q;
  os_info : string;
  performance_score : Q
}.

(** The GPU ladder of [_calculate_performance_score], on the lower-cased
    GPU string. *)
Definition gpu_score_of (gpu_info : string) : Z :=
  if Py.contains "nvidia" gpu_info then
    if Py.any_in ["rtx 40"; "a100"; "h100"] gpu_info then 30
    else if Py.any_in ["rtx 30"; "v100"; "a40"] gpu_info then 28
    else if Py.any_in ["rtx 20"; "gtx 16"; "quadro"] gpu_info then 25
    else if Py.contains "rtx" gpu_info then 22
    else if Py.contains "gtx" gpu_info then 18
    else 15
  else if Py.contains "amd" gpu_info || Py.contains "radeon" gpu_info then
    if Py.any_in ["rx 7"; "rx 6"] gpu_info then 25
    else if Py.any_in ["rx 5"; "vega"] gpu_info then 20
    else 15
  else if Py.contains "intel" gpu_info then
    if Py.contains "arc" gpu_info then 20
    else if Py.contains "iris xe" gpu_info || Py.contains "iris" gpu_info
    then 12
    else 8
  else if Py.any_in ["apple"; "m1"; "m2"; "m3"] gpu_info then
    if Py.contains "m3" gpu_info then 28
    else if Py.contains "m2" gpu_info then 25
    else if Py.contains "m1" gpu_info then 22
    else 20
  else 5.

(** The body of the [try] block. *)
Definition calculate_performance_score_body (specs : Specs)
  : Py.result Q :=
  match cpu_cores specs with
  | None =>
      Py.Raise (Py.TypeError
        "unsupported operand type(s) for *: 'NoneType' and 'float'")
  | Some cores =>
      let cpu_base := Py.min 20 (inject_Z cores * (3 # 2)) in
      let cpu_freq := Py.min 20 (cpu_frequency_ghz specs * 6) in
      let cpu_score := (cpu_base + cpu_freq)%Q in
      let ram_score := Py.min 30 (ram_gb specs * (3 # 2)) in
      let gpu_score := gpu_score_of (Py.lower (gpu_info specs)) in
      let total_score := (cpu_score + ram_score + inject_Z gpu_score)%Q in
      Py.Ok (Py.round1 (Py.min 100 total_score))
  end.

Definition _calculate_performance_score (specs : Specs) : Q :=
  match calculate_performance_score_body specs with
  | Py.Ok score => score
  | Py.Raise _ => 50%Q
  end.

End PerformanceEvaluator.

(** ** The worker records kept by the server ([self.clients] values) *)
Module ClientInfo.
Record t : Type := {
  hostname : string;
  ip_address : string;
  specs : PerformanceEvaluator.Specs;
  last_seen : Z;
  assigned_model : option string;
  group : option Z
}.

(** [x['specs']['performance_score']] *)
Definition score (c : t) : Q :=
  PerformanceEvaluator.performance_score (specs c).

(** [c['assigned_model'] = m] *)
Definition set_assigned_model (c : t) (m : string) : t :=
  {| hostname := hostname c; ip_address := ip_address c; specs := specs c;
     last_seen := last_seen c; assigned_model := Some m; group := group c |}.
End ClientInfo.

(** ** model_manager.py *)
Module ModelManager.

(** The [ModelInfo] dataclass.  It declares [name], [parameters],
    [size_gb] and [complexity_score]; the server also reads an attribute
    [supports_vision], which the dataclass does not declare, so the
    attribute is optional here: [None] is an instance without it, as every
    instance built by [ModelInfo_init] is. *)
Record ModelInfo : Type := {
  name : string;
  parameters : Z;
  size_gb : Q;
  complexity_score : Z;
  supports_vision : option bool
}.

(** The [if]/[elif] chain of [__post_init__]. *)
Definition complexity_of_parameters (parameters : Z) : Z :=
  if (parameters >=? 70000000000)%Z then 10
  else if (parameters >=? 30000000000)%Z then 9
  else if (parameters >=? 13000000000)%Z then 8
  else if (parameters >=? 8000000000)%Z then 7
  else if (parameters >=? 7000000000)%Z then 6
  else if (parameters >=? 3000000000)%Z then 5
  else if (parameters >=? 1000000000)%Z then 4
  else if (parameters >=? 500000000)%Z then 3
  else if (parameters >=? 100000000)%Z then 2
  else 1.

Definition __post_init__ (self : ModelInfo) : ModelInfo :=
  if (complexity_score self =? 0)%Z then
    {| name := name self; parameters := parameters self;
       size_gb := size_gb self;
       complexity_score := complexity_of_parameters (parameters self);
       supports_vision := supports_vision self |}
  else self.

(** [ModelInfo(name, parameters, size_gb, complexity_score)] *)
Definition ModelInfo_init (name : string) (parameters : Z) (size_gb : Q)
    (complexity_score : Z) : ModelInfo :=
  __post_init__
    {| name := name; parameters := parameters; size_gb := size_gb;
       complexity_score := complexity_score; supports_vision := None |}.

(** The state of a [SmartModelManager]. *)
Record SmartModelManager : Type := {
  available_models : list ModelInfo;
  model_assignments : Py.dict string
}.

Definition _use_default_models : list ModelInfo :=
  [ ModelInfo_init "llama3.2:1b" 1000000000 2 0;
    ModelInfo_init "llama3.2:3b" 3000000000 6 0;
    ModelInfo_init "llama3.1:8b" 8000000000 16 0 ].

Definition get_model_info (available_models : list ModelInfo)
    (model_name : string) : option ModelInfo :=
  find (fun model => String.eqb (name model) model_name) available_models.

(** The [for group_idx in range(num_groups)] loop of
    [_create_performance_groups], [start_idx] threaded through. *)
Fixpoint create_groups_loop (sorted_clients : list (string * ClientInfo.t))
    (base_size extra_clients : nat) (range : list nat) (start_idx : nat)
  : list (list string) :=
  match range with
  | [] => []
  | group_idx :: range' =>
      let group_size :=
        base_size + (if group_idx <? extra_clients then 1 else 0) in
      let end_idx := start_idx + group_size in
      let group_clients :=
        map fst (Py.slice sorted_clients start_idx end_idx) in
      group_clients
        :: create_groups_loop sorted_clients base_size extra_clients
             range' end_idx
  end.

Definition _create_performance_groups
    (sorted_clients : list (string * ClientInfo.t)) (num_groups : nat)
  : list (list string) :=
  match num_groups, sorted_clients with
  | O, _ | _, [] => []
  | _, _ =>
      let total_clients := List.length sorted_clients in
      if total_clients <=? num_groups then
        map (fun c => [fst c]) sorted_clients
      else
        let base_size := total_clients / num_groups in
        let extra_clients := total_clients mod num_groups in
        create_groups_loop sorted_clients base_size extra_clients
          (seq 0 num_groups) 0
  end.

(** The [for group_idx, client_group in enumerate(groups)] loop of
    [assign_models_to_clients]; [rnd group_idx] is the number drawn by the
    [random.choice] of that iteration. *)
Fixpoint assign_groups (rnd : nat -> nat) (sorted_models : list ModelInfo)
    (groups : list (list string)) (group_idx : nat)
    (assignments : Py.dict string) : Py.result (Py.dict string) :=
  match groups with
  | [] => Py.Ok assignments
  | client_group :: groups' =>
      if group_idx <? List.length sorted_models then
        assigned_model <- Py.getitem sorted_models group_idx ;;
        selected_client <- Py.choice (rnd group_idx) client_group ;;
        assign_groups rnd sorted_models groups' (S group_idx)
          (Py.dict_set assignments selected_client (name assigned_model))
      else
        assign_groups rnd sorted_models groups' (S group_idx) assignments
  end.

(** The round-robin loop over [remaining_clients]. *)
Fixpoint assign_remaining (available_models : list ModelInfo)
    (remaining_clients : list string) (i : nat)
    (assignments : Py.dict string) : Py.result (Py.dict string) :=
  match remaining_clients with
  | [] => Py.Ok assignments
  | client_id :: remaining' =>
      let model_idx := i mod List.length available_models in
      model <- Py.getitem available_models model_idx ;;
      assign_remaining available_models remaining' (S i)
        (Py.dict_set assignments client_id (name model))
  end.

Definition sorted_clients_of (clients : Py.dict ClientInfo.t)
  : list (string * ClientInfo.t) :=
  Py.sorted_reverse Qle_bool (fun x => ClientInfo.score (snd x)) clients.

Definition sorted_models_of (available_models : list ModelInfo)
  : list ModelInfo :=
  Py.sorted_reverse Z.leb complexity_score available_models.

Definition assign_models_to_clients (rnd : nat -> nat)
    (available_models : list ModelInfo) (clients : Py.dict ClientInfo.t)
  : Py.result (Py.dict string) :=
  match clients, available_models with
  | [], _ => Py.Ok []
  | _, [] => Py.Ok []
  | _, _ =>
      let sorted_clients := sorted_clients_of clients in
      let num_models := List.length available_models in
      let groups := _create_performance_groups sorted_clients num_models in
      let sorted_models := sorted_models_of available_models in
      assignments <- assign_groups rnd sorted_models groups 0 [] ;;
      let assigned_clients := Py.dict_keys assignments in
      let remaining_clients :=
        filter (fun cid => negb (Py.str_in cid assigned_clients))
               (map fst sorted_clients) in
      assign_remaining available_models remaining_clients 0 assignments
  end.

(** [self.model_assignments = assignments], the last statement of
    [assign_models_to_clients]: the two early returns leave the stored map
    as it was. *)
Definition store_model_assignments (self : SmartModelManager)
    (clients : Py.dict ClientInfo.t) (assignments : Py.dict string)
  : SmartModelManager :=
  match clients, available_models self with
  | [], _ | _, [] => self
  | _, _ =>
      {| available_models := available_models self;
         model_assignments := assignments |}
  end.

(** [_format_parameters] (the copy of the model manager) *)
Definition _format_parameters (parameters : Z) : string :=
  if (parameters >=? 1000000000)%Z then
    (Py.str_of_Z (parameters / 1000000000) ++ "B")%string
  else if (parameters >=? 1000000)%Z then
    (Py.str_of_Z (parameters / 1000000) ++ "M")%string
  else Py.str_of_Z parameters.

(** [_estimate_model_size]: [round((parameters / 1e9) * 2.0, 1)] *)
Definition _estimate_model_size (parameters : Z) : Q :=
  Py.round1 ((inject_Z parameters / 1000000000) * 2)%Q.

(** The entries of [self.known_models].  [Billions lit] is the regular
    expression [lit(\d+)b] with the extractor [int(group 1) * 10^9];
    [Experts lit] is [lit(\d+)x(\d+)b] with
    [int(group 1) * int(group 2) * 10^9].  [lit] is the literal text the
    expression starts with. *)
Inductive known_pattern : Type :=
| Billions (lit : string)
| Experts (lit : string).

Definition known_models : list known_pattern :=
  [ Billions "llama3.2:"; Billions "llama3.1:"; Billions "llama3:";
    Billions "llama2:"; Billions "mistral:"; Experts "mixtral:";
    Billions "codellama:"; Billions "gemma:"; Billions "phi3:";
    Billions "qwen2:" ].

(** [(\d+)] followed by the character [c], at the start of [s]: the digits
    and the text after [c].  The digits are taken greedily; giving one back
    leaves a digit where [c] is required, so there is no other way to
    match. *)
Definition digits_then (c : ascii) (s : string) : option (string * string) :=
  match Py.span_digits s with
  | (EmptyString, _) => None
  | (ds, String c' rest) => if Ascii.eqb c' c then Some (ds, rest) else None
  | (_, EmptyString) => None
  end.

(** The groups of a match of the pattern at the start of [s]. *)
Definition match_at (p : known_pattern) (s : string) : option (list string) :=
  match p with
  | Billions lit =>
      match Py.strip_prefix lit s with
      | Some s1 =>
          match digits_then "b" s1 with
          | Some (g1, _) => Some [g1]
          | None => None
          end
      | None => None
      end
  | Experts lit =>
      match Py.strip_prefix lit s with
      | Some s1 =>
          match digits_then "x" s1 with
          | Some (g1, s2) =>
              match digits_then "b" s2 with
              | Some (g2, _) => Some [g1; g2]
              | None => None
              end
          | None => None
          end
      | None => None
      end
  end.

(** [re.search(pattern, s)]: the leftmost match. *)
Fixpoint re_search (p : known_pattern) (s : string) : option (list string) :=
  match match_at p s with
  | Some groups => Some groups
  | None =>
      match s with
      | EmptyString => None
      | String _ r => re_search p r
      end
  end.

(** The [param_extractor] of a pattern on the groups of a match. *)
Definition param_extractor (p : known_pattern) (groups : list string)
  : option Z :=
  match p, groups with
  | Billions _, [g1] =>
      option_map (fun n => n * 1000000000)%Z (Py.int_of_str g1)
  | Experts _, [g1; g2] =>
      match Py.int_of_str g1, Py.int_of_str g2 with
      | Some a, Some b => Some (a * b * 1000000000)%Z
      | _, _ => None
      end
  | _, _ => None
  end.

(** The loop over [self.known_models.items()]: the first pattern, in the
    order of the table, that matches somewhere. *)
Fixpoint first_known_match (patterns : list known_pattern) (s : string)
  : option (known_pattern * list string) :=
  match patterns with
  | [] => None
  | p :: patterns' =>
      match re_search p s with
      | Some groups => Some (p, groups)
      | None => first_known_match patterns' s
      end
  end.

(** [_parse_model_info]; an exception in the body gives [None]. *)
Definition _parse_model_info (model_name : string) : option ModelInfo :=
  let lowered := Py.lower model_name in
  match first_known_match known_models lowered with
  | Some (p, groups) =>
      match param_extractor p groups with
      | Some parameters =>
          Some (ModelInfo_init model_name parameters
                  (_estimate_model_size parameters) 0)
      | None => None
      end
  | None =>
      (* numbers = re.findall(r'(\d+)b', ...); numbers[0] *)
      match re_search (Billions "") lowered with
      | Some groups =>
          match param_extractor (Billions "") groups with
          | Some parameters =>
              Some (ModelInfo_init model_name parameters
                      (_estimate_model_size parameters) 0)
          | None => None
          end
      | None => None
      end
  end.

(** What [subprocess.run(['ollama', 'list'], ...)] did: it raised, or it
    completed with a return code and an output. *)
Inductive ollama_list : Type :=
| RunRaised
| Completed (returncode : Z) (stdout : string).

(** The loop over the lines of the output that fills [models_found]. *)
Definition models_found_in (stdout : string) : list ModelInfo :=
  let lines := tl (Py.split_on (ascii_of_nat 10) (Py.strip stdout)) in
  flat_map
    (fun line =>
       match Py.strip line with
       | EmptyString => []
       | _ =>
           match Py.split_ws line with
           | model_name :: _ =>
               match _parse_model_info model_name with
               | Some model_info => [model_info]
               | None => []
               end
           | [] => []
           end
       end)
    lines.

(** [discover_available_models]: the new value of
    [self.available_models]. *)
Definition discover_available_models (run : ollama_list) : list ModelInfo :=
  match run with
  | RunRaised => _use_default_models
  | Completed returncode stdout =>
      if negb (returncode =? 0)%Z then _use_default_models
      else
        match models_found_in stdout with
        | [] => _use_default_models
        | models_found => Py.sorted_by Z.leb parameters models_found
        end
  end.

(** [add_custom_model]: the new value of [self.available_models]. *)
Definition add_custom_model (available_models : list ModelInfo)
    (name : string) (parameters : Z) (size_gb : option Q) : list ModelInfo :=
  let size_gb :=
    match size_gb with
    | Some size => size
    | None => _estimate_model_size parameters
    end in
  let model_info := ModelInfo_init name parameters size_gb 0 in
  Py.sorted_by Z.leb ModelManager.parameters (available_models ++ [model_info]).

(** The dictionary returned by [get_stats]. *)
Record Stats : Type := {
  total_models : nat;
  total_assignments : nat;
  models : list (string * string * Z * Q)
}.

Definition get_stats (self : SmartModelManager) : Stats :=
  {| total_models := List.length (available_models self);
     total_assignments := List.length (model_assignments self);
     models :=
       map (fun model =>
              (name model, _format_parameters (parameters model),
               complexity_score model, size_gb model))
           (available_models self) |}.

End ModelManager.

(** ** smart_load_balancer_server.py *)

(** *** RPC messages (load_balancer_pb2), with the protobuf defaults *)
Module HardwareSpecsPb.
Record t : Type := {
  cpu_cores : Z;
  cpu_frequency_ghz : Q;
  ram_gb : Q;
  gpu_info : string;
  gpu_memory_gb : Q;
  os_info : string;
  performance_score : Q
}.
End HardwareSpecsPb.

Module ClientInfoPb.
Record t : Type := {
  client_id : string;
  hostname : string;
  ip_address : string;
  specs : HardwareSpecsPb.t
}.
End ClientInfoPb.

Module ModelInfoPb.
Record t : Type := {
  name : string;
  parameters : Z;
  size_gb : Q;
  complexity_score : Z;
  supports_vision : bool
}.
Definition default : t :=
  {| name := ""; parameters := 0; size_gb := 0; complexity_score := 0;
     supports_vision := false |}.
End ModelInfoPb.

Module RegistrationResponse.
Record t : Type := {
  success : bool;
  message : string;
  assigned_model : string;
  model_info : ModelInfoPb.t;
  total_clients : nat;
  client_group : Z
}.
End RegistrationResponse.

Module ClientAssignment.
Record t : Type := {
  client_id : string;
  assigned_model : string;
  group_number : Z
}.
End ClientAssignment.

Module ReassignmentResponse.
Record t : Type := {
  success : bool;
  message : string;
  new_assignments : list ClientAssignment.t
}.
End ReassignmentResponse.

Module AIRequest.
Record t : Type := {
  request_id : string;
  prompt : string;
  assigned_model : string;
  timestamp : Z;
  images : list string
}.
End AIRequest.

Module AIResponse.
Record t : Type := {
  request_id : string;
  success : bool;
  response_text : string;
  processing_time : Q;
  client_id : string;
  model_used : string;
  timestamp : Z
}.
End AIResponse.

(** The dictionaries appended to [responses] by the dispatch. *)
Module Collected.
Record t : Type := {
  client_id : string;
  model : option string;
  response : string;
  processing_time : Q;
  performance_score : Q
}.
End Collected.

Module AvailableModelsResponse.
Record t : Type := {
  models : list ModelInfoPb.t;
  total_models : nat
}.
End AvailableModelsResponse.

Module HealthResponse.
Record t : Type := {
  healthy : bool;
  message : string;
  connected_clients : nat;
  active_models : nat
}.
End HealthResponse.

Module Server.
Import ModelManager.

(** The state of a [SmartLoadBalancerServer]. *)
Record t : Type := {
  clients : Py.dict ClientInfo.t;
  model_manager : SmartModelManager
}.

Definition attribute_error : Py.exn :=
  Py.AttributeError "'ModelInfo' object has no attribute 'supports_vision'".

(** [model_info.supports_vision] *)
Definition read_supports_vision (model_info : ModelInfo) : Py.result bool :=
  match supports_vision model_info with
  | Some b => Py.Ok b
  | None => Py.Raise attribute_error
  end.

(** The loop [for cid, model_name in assignments.items()] that stores the
    assignment in the registry. *)
Definition update_client_assignments (clients : Py.dict ClientInfo.t)
    (assignments : Py.dict string) : Py.dict ClientInfo.t :=
  fold_left
    (fun clients a =>
       match Py.dict_get clients (fst a) with
       | Some info =>
           Py.dict_set clients (fst a)
             (ClientInfo.set_assigned_model info (snd a))
       | None => clients
       end)
    assignments clients.

(** The [model_pb] prepared for the registration response. *)
Definition registration_model_pb (model_info : option ModelInfo)
  : Py.result ModelInfoPb.t :=
  match model_info with
  | Some model_info =>
      vision <- read_supports_vision model_info ;;
      Py.Ok {| ModelInfoPb.name := name model_info;
               ModelInfoPb.parameters := parameters model_info;
               ModelInfoPb.size_gb := size_gb model_info;
               ModelInfoPb.complexity_score := complexity_score model_info;
               ModelInfoPb.supports_vision := vision |}
  | None => Py.Ok ModelInfoPb.default
  end.

(** The response of the [except] branch of [RegisterClient]. *)
Definition registration_failed (self : t) (e : Py.exn)
  : RegistrationResponse.t :=
  {| RegistrationResponse.success := false;
     RegistrationResponse.message :=
       ("Registration failed: " ++ Py.str_of_exn e)%string;
     RegistrationResponse.assigned_model := "";
     RegistrationResponse.model_info := ModelInfoPb.default;
     RegistrationResponse.total_clients := List.length (clients self);
     RegistrationResponse.client_group := 0 |}.

(** [RegisterClient]: [rnd] feeds [random.choice], [now] is [time.time()].
    The registry is updated before anything can raise, so the new state is
    returned on both paths. *)
Definition RegisterClient (rnd : nat -> nat) (now : Z) (self : t)
    (request : ClientInfoPb.t) : t * RegistrationResponse.t :=
  let client_id := ClientInfoPb.client_id request in
  let rs := ClientInfoPb.specs request in
  let specs :=
    {| PerformanceEvaluator.cpu_cores := Some (HardwareSpecsPb.cpu_cores rs);
       PerformanceEvaluator.cpu_frequency_ghz :=
         HardwareSpecsPb.cpu_frequency_ghz rs;
       PerformanceEvaluator.ram_gb := HardwareSpecsPb.ram_gb rs;
       PerformanceEvaluator.gpu_info := HardwareSpecsPb.gpu_info rs;
       PerformanceEvaluator.gpu_memory_gb := HardwareSpecsPb.gpu_memory_gb rs;
       PerformanceEvaluator.os_info := HardwareSpecsPb.os_info rs;
       PerformanceEvaluator.performance_score :=
         HardwareSpecsPb.performance_score rs |} in
  let clients1 :=
    Py.dict_set (clients self) client_id
      {| ClientInfo.hostname := ClientInfoPb.hostname request;
         ClientInfo.ip_address := ClientInfoPb.ip_address request;
         ClientInfo.specs := specs;
         ClientInfo.last_seen := now;
         ClientInfo.assigned_model := None;
         ClientInfo.group := None |} in
  let models := available_models (model_manager self) in
  match assign_models_to_clients rnd models clients1 with
  | Py.Raise e =>
      let self1 := {| clients := clients1;
                      model_manager := model_manager self |} in
      (self1, registration_failed self1 e)
  | Py.Ok assignments =>
      let self2 :=
        {| clients := update_client_assignments clients1 assignments;
           model_manager :=
             store_model_assignments (model_manager self) clients1
               assignments |} in
      let assigned_model :=
        match Py.dict_get assignments client_id with
        | Some m => m
        | None => "llama3.2:3b"
        end in
      let model_info := get_model_info models assigned_model in
      match registration_model_pb model_info with
      | Py.Raise e => (self2, registration_failed self2 e)
      | Py.Ok model_pb =>
          (self2,
           {| RegistrationResponse.success := true;
              RegistrationResponse.message :=
                ("Registered successfully. Smart assignment: "
                 ++ assigned_model)%string;
              RegistrationResponse.assigned_model := assigned_model;
              RegistrationResponse.model_info := model_pb;
              RegistrationResponse.total_clients :=
                List.length (clients self2);
              RegistrationResponse.client_group := 1 |})
      end
  end.

(** [ReassignModels]; [discovered] is the catalog that
    [discover_available_models] builds from the local model runtime. *)
Definition ReassignModels (rnd : nat -> nat) (discovered : list ModelInfo)
    (self : t) : t * ReassignmentResponse.t :=
  match clients self with
  | [] =>
      (self,
       {| ReassignmentResponse.success := false;
          ReassignmentResponse.message := "No clients connected";
          ReassignmentResponse.new_assignments := [] |})
  | _ :: _ =>
      let manager :=
        {| available_models := discovered;
           model_assignments := model_assignments (model_manager self) |} in
      match assign_models_to_clients rnd discovered (clients self) with
      | Py.Raise e =>
          ({| clients := clients self; model_manager := manager |},
           {| ReassignmentResponse.success := false;
              ReassignmentResponse.message :=
                ("Reassignment failed: " ++ Py.str_of_exn e)%string;
              ReassignmentResponse.new_assignments := [] |})
      | Py.Ok assignments =>
          ({| clients := update_client_assignments (clients self) assignments;
              model_manager :=
                store_model_assignments manager (clients self) assignments |},
           {| ReassignmentResponse.success := true;
              ReassignmentResponse.message :=
                ("Successfully reassigned models to "
                 ++ Py.str_of_Z (Z.of_nat (List.length assignments))
                 ++ " clients")%string;
              ReassignmentResponse.new_assignments :=
                map (fun a =>
                       {| ClientAssignment.client_id := fst a;
                          ClientAssignment.assigned_model := snd a;
                          ClientAssignment.group_number := 1 |})
                    assignments |})
      end
  end.

(** [_format_parameters] *)
Definition _format_parameters (parameters : Z) : string :=
  if (parameters >=? 1000000000)%Z then
    (Py.str_of_Z (parameters / 1000000000) ++ "B")%string
  else if (parameters >=? 1000000)%Z then
    (Py.str_of_Z (parameters / 1000000) ++ "M")%string
  else Py.str_of_Z parameters.

(** [get_model_info(client_info['assigned_model'])]; a client without an
    assignment ([None]) matches no model name. *)
Definition lookup_assigned (self : t) (assigned : option string)
  : option ModelInfo :=
  match assigned with
  | Some model_name =>
      get_model_info (available_models (model_manager self)) model_name
  | None => None
  end.

Definition NO_CLIENTS_MESSAGE : string :=
  "❌ No clients connected. Please connect clients first.".

Definition NO_SUCCESSFUL_RESPONSES_MESSAGE : string :=
  "❌ No successful responses from clients.".

(** What one dispatch thread did: the request it passed to the stub of its
    worker, if it got that far, and the entry it appended to [responses],
    if the worker answered with [success]. *)
Record ClientRun : Type := {
  run_client_id : string;
  sent : option AIRequest.t;
  collected : option Collected.t
}.

Section Dispatch.
(** The worker's [ProcessAIRequest] behind the channel to an address. *)
Variable stub_ProcessAIRequest :
  string -> AIRequest.t -> Py.result AIResponse.t.
(** [ollama run model prompt]: the stripped output when the command
    succeeds with a non-empty output. *)
Variable ollama_run : string -> string -> option string.
(** [_format_final_response], the layout of the final text. *)
Variable _format_final_response :
  list Collected.t -> string -> string -> string.
(** [str(uuid.uuid4())] and [int(time.time())] of this dispatch. *)
Variable request_id : string.
Variable now : Z.

(** The [AIRequest] built by [process_client_request]. *)
Definition build_ai_request (self : t) (prompt : string)
    (images : list string) (client_info : ClientInfo.t)
  : Py.result AIRequest.t :=
  let model_info :=
    lookup_assigned self (ClientInfo.assigned_model client_info) in
  supports_vision <-
    match model_info with
    | Some model_info => read_supports_vision model_info
    | None => Py.Ok false
    end ;;
  let client_images :=
    if supports_vision && negb (Nat.eqb (List.length images) 0)
    then images else [] in
  Py.Ok {| AIRequest.request_id := request_id;
           AIRequest.prompt := prompt;
           AIRequest.assigned_model :=
             match ClientInfo.assigned_model client_info with
             | Some m => m
             | None => ""
             end;
           AIRequest.timestamp := now;
           AIRequest.images := client_images |}.

(** [process_client_request]: every exception is caught and logged. *)
Definition process_client_request (self : t) (prompt : string)
    (images : list string) (client : string * ClientInfo.t) : ClientRun :=
  let client_id := fst client in
  let client_info := snd client in
  let client_address :=
    (ClientInfo.ip_address client_info ++ ":50052")%string in
  match build_ai_request self prompt images client_info with
  | Py.Raise _ =>
      {| run_client_id := client_id; sent := None; collected := None |}
  | Py.Ok ai_request =>
      match stub_ProcessAIRequest client_address ai_request with
      | Py.Ok response =>
          {| run_client_id := client_id;
             sent := Some ai_request;
             collected :=
               if AIResponse.success response then
                 Some {| Collected.client_id := client_id;
                         Collected.model :=
                           ClientInfo.assigned_model client_info;
                         Collected.response :=
                           AIResponse.response_text response;
                         Collected.processing_time :=
                           AIResponse.processing_time response;
                         Collected.performance_score :=
                           ClientInfo.score client_info |}
               else None |}
      | Py.Raise _ =>
          {| run_client_id := client_id;
             sent := Some ai_request;
             collected := None |}
      end
  end.

(** One thread per client; the monitor waits for all of them. *)
Definition fan_out (self : t) (prompt : string) (images : list string)
  : list ClientRun :=
  map (process_client_request self prompt images) (clients self).

Definition responses_of (runs : list ClientRun) : list Collected.t :=
  flat_map (fun r => match collected r with
                     | Some c => [c]
                     | None => []
                     end) runs.

(** [_get_best_local_model]; [max] keeps the first maximal element. *)
Definition _get_best_local_model (self : t) : string :=
  let summarization_model := "gemma3:1b" in
  let models := available_models (model_manager self) in
  if existsb (fun model => String.eqb (name model) summarization_model)
             models
  then summarization_model
  else
    match models with
    | [] => "gemma3:1b"
    | m :: ms =>
        name (fold_left
                (fun best x =>
                   if (complexity_score best <? complexity_score x)%Z
                   then x else best)
                ms m)
    end.

Definition nl : string := String (ascii_of_nat 10) EmptyString.

(** The text the summary prompt holds for response number [i]. *)
Definition summary_prompt_entry (self : t) (i : nat) (resp : Collected.t)
  : string :=
  let params :=
    match lookup_assigned self (Collected.model resp) with
    | Some model_info => _format_parameters (parameters model_info)
    | None => "Unknown"
    end in
  ("Response " ++ Py.str_of_Z (Z.of_nat i) ++ " (Model: "
   ++ match Collected.model resp with Some m => m | None => "None" end
   ++ " - " ++ params ++ "):" ++ nl ++ Collected.response resp
   ++ nl ++ nl)%string.

Fixpoint summary_prompt_entries (self : t) (i : nat)
    (responses : list Collected.t) : string :=
  match responses with
  | [] => ""
  | resp :: rest =>
      (summary_prompt_entry self i resp
       ++ summary_prompt_entries self (S i) rest)%string
  end.

Definition _create_intelligent_summary (self : t)
    (responses : list Collected.t) : string :=
  let sorted_responses :=
    Py.sorted_reverse Qle_bool Collected.performance_score responses in
  match sorted_responses with
  | [] =>
      _format_final_response responses "Summary generation failed." "Error"
  | best_client :: _ =>
      let summary_prompt :=
        ("Analyze and synthesize the following AI responses into a comprehensive, unified answer:"
         ++ nl ++ nl ++ summary_prompt_entries self 1 responses
         ++ "Create a unified response that combines the best insights from all models. "
         ++ "Focus on accuracy, completeness, and clarity.")%string in
      match ollama_run (_get_best_local_model self) summary_prompt with
      | Some summary =>
          _format_final_response responses summary "Local Ollama"
      | None =>
          _format_final_response responses
            (Collected.response best_client) "Best Client"
      end
  end.

(** [process_distributed_query].  The entries of [responses] are taken in
    registry order; the threads of the source append them in the order
    they finish. *)
Definition process_distributed_query (self : t) (prompt : string)
    (images : list string) : string :=
  match clients self with
  | [] => NO_CLIENTS_MESSAGE
  | _ :: _ =>
      let responses := responses_of (fan_out self prompt images) in
      match responses with
      | [] => NO_SUCCESSFUL_RESPONSES_MESSAGE
      | _ :: _ => _create_intelligent_summary self responses
      end
  end.

(** [ProcessRequest]: [process_distributed_query] raises nothing, so the
    [except] branch is never taken. *)
Definition ProcessRequest (self : t) (request : AIRequest.t)
  : AIResponse.t :=
  let prompt := AIRequest.prompt request in
  let images := AIRequest.images request in
  let response_text := process_distributed_query self prompt images in
  {| AIResponse.request_id := AIRequest.request_id request;
     AIResponse.success := true;
     AIResponse.response_text := response_text;
     AIResponse.processing_time := 0;
     AIResponse.client_id := "server";
     AIResponse.model_used := "distributed";
     AIResponse.timestamp := now |}.
End Dispatch.

(** The loop of [GetAvailableModels] that copies the catalog. *)
Fixpoint available_models_pb (models : list ModelInfo)
  : Py.result (list ModelInfoPb.t) :=
  match models with
  | [] => Py.Ok []
  | model :: models' =>
      vision <- read_supports_vision model ;;
      rest <- available_models_pb models' ;;
      Py.Ok ({| ModelInfoPb.name := name model;
                ModelInfoPb.parameters := parameters model;
                ModelInfoPb.size_gb := size_gb model;
                ModelInfoPb.complexity_score := complexity_score model;
                ModelInfoPb.supports_vision := vision |} :: rest)
  end.

(** [GetAvailableModels] *)
Definition GetAvailableModels (self : t) : AvailableModelsResponse.t :=
  match available_models_pb (available_models (model_manager self)) with
  | Py.Ok models =>
      {| AvailableModelsResponse.models := models;
         AvailableModelsResponse.total_models := List.length models |}
  | Py.Raise _ =>
      {| AvailableModelsResponse.models := [];
         AvailableModelsResponse.total_models := 0 |}
  end.

(** The models that count as active: the assigned models of the clients
    that have one (a value that is neither [None] nor empty). *)
Definition assigned_models (clients : Py.dict ClientInfo.t) : list string :=
  flat_map
    (fun client =>
       match ClientInfo.assigned_model (snd client) with
       | Some EmptyString | None => []
       | Some model => [model]
       end)
    clients.

(** [HealthCheck]; [len(set(...))] counts the distinct models. *)
Definition HealthCheck (self : t) : HealthResponse.t :=
  let active_models :=
    List.length (nodup string_dec (assigned_models (clients self))) in
  {| HealthResponse.healthy := true;
     HealthResponse.message :=
       ("Server healthy. "
        ++ Py.str_of_Z (Z.of_nat (List.length (clients self)))
        ++ " clients, " ++ Py.str_of_Z (Z.of_nat active_models)
        ++ " active models.")%string;
     HealthResponse.connected_clients := List.length (clients self);
     HealthResponse.active_models := active_models |}.

End Server.

(** ** Definitions used to state the properties *)

(** The rank table of the model catalog, as published: the first row whose
    threshold the parameter count reaches gives the rank, 1 otherwise. *)
Definition complexity_table : list (Z * Z) :=
  [ (70000000000, 10); (30000000000, 9); (13000000000, 8); (8000000000, 7);
    (7000000000, 6); (3000000000, 5); (1000000000, 4); (500000000, 3);
    (100000000, 2) ]%Z.

Definition complexity_rank_spec (parameters : Z) : Z :=
  match find (fun row => (fst row <=? parameters)%Z) complexity_table with
  | Some row => snd row
  | None => 1%Z
  end.

(** Hardware quantities that are not negative. *)
Definition nonnegative_specs (specs : PerformanceEvaluator.Specs) : Prop :=
  match PerformanceEvaluator.cpu_cores specs with
  | Some cores => (0 <= cores)%Z
  | None => True
  end
  /\ (0 <= PerformanceEvaluator.cpu_frequency_ghz specs)%Q
  /\ (0 <= PerformanceEvaluator.ram_gb specs)%Q.

(** A registry as a Python dictionary holds each worker ID once. *)
Definition well_formed_registry (clients : Py.dict ClientInfo.t) : Prop :=
  NoDup (Py.dict_keys clients).

(** [ceil(n / g)] *)
Definition ceil_div (n g : nat) : nat := (n + g - 1) / g.

(** The worker answers the dispatch with [success]. *)
Definition worker_succeeds
    (stub_ProcessAIRequest : string -> AIRequest.t -> Py.result AIResponse.t)
    (request_id : string) (now : Z) (self : Server.t) (prompt : string)
    (images : list string) (client : string * ClientInfo.t) : bool :=
  match Server.build_ai_request request_id now self prompt images
          (snd client) with
  | Py.Ok ai_request =>
      match stub_ProcessAIRequest
              (ClientInfo.ip_address (snd client) ++ ":50052")%string
              ai_request with
      | Py.Ok response => AIResponse.success response
      | Py.Raise _ => false
      end
  | Py.Raise _ => false
  end.

(** A worker record with a given score, for the examples. *)
Definition example_client (ip : string) (score : Q) : ClientInfo.t :=
  {| ClientInfo.hostname := "host";
     ClientInfo.ip_address := ip;
     ClientInfo.specs :=
       {| PerformanceEvaluator.cpu_cores := Some 4%Z;
          PerformanceEvaluator.cpu_frequency_ghz := 2;
          PerformanceEvaluator.ram_gb := 8;
          PerformanceEvaluator.gpu_info := "Unknown GPU";
          PerformanceEvaluator.gpu_memory_gb := 0;
          PerformanceEvaluator.os_info := "Linux";
          PerformanceEvaluator.performance_score := score |};
     ClientInfo.last_seen := 0;
     ClientInfo.assigned_model := None;
     ClientInfo.group := None |}.

(** A catalog of two models, the second one the larger. *)
Definition example_catalog : list ModelManager.ModelInfo :=
  [ ModelManager.ModelInfo_init "small:1b" 1000000000 2 0;
    ModelManager.ModelInfo_init "large:8b" 8000000000 16 0 ].

(** Hardware specs for the examples: a GPU workstation, and an input with
    a negative core count. *)
Definition example_specs (cores : Z) (gpu : string)
  : PerformanceEvaluator.Specs :=
  {| PerformanceEvaluator.cpu_cores := Some cores;
     PerformanceEvaluator.cpu_frequency_ghz := 5 # 2;
     PerformanceEvaluator.ram_gb := 8;
     PerformanceEvaluator.gpu_info := gpu;
     PerformanceEvaluator.gpu_memory_gb := 0;
     PerformanceEvaluator.os_info := "Linux";
     PerformanceEvaluator.performance_score := 0 |}.

Definition fallback_like_specs : PerformanceEvaluator.Specs :=
  example_specs 4 "NVIDIA GeForce RTX 4090".

Definition negative_cores_specs : PerformanceEvaluator.Specs :=
  example_specs (-100) "".

(** Two registries holding the same two workers of equal score, registered
    in opposite orders. *)
Definition tied_registry : Py.dict ClientInfo.t :=
  [ ("b", example_client "10.0.0.2" 50); ("a", example_client "10.0.0.1" 50) ].

Definition tied_registry_swapped : Py.dict ClientInfo.t :=
  [ ("a", example_client "10.0.0.1" 50); ("b", example_client "10.0.0.2" 50) ].

(** The workers of a registry whose score is [s], in registry order. *)
Definition with_score (s : Q) (clients : list (string * ClientInfo.t))
  : list (string * ClientInfo.t) :=
  filter (fun x => Qeq_bool s (ClientInfo.score (snd x))) clients.

(** Descending score between two registry entries. *)
Definition score_desc (x y : string * ClientInfo.t) : Prop :=
  (ClientInfo.score (snd y) <= ClientInfo.score (snd x))%Q.

(** The size given to group [j] by the loop. *)
Definition group_size (base_size extra_clients j : nat) : nat :=
  base_size + (if j <? extra_clients then 1 else 0).

Fixpoint sum_sizes (base_size extra_clients : nat) (range : list nat) : nat :=
  match range with
  | [] => 0
  | j :: range' =>
      group_size base_size extra_clients j
      + sum_sizes base_size extra_clients range'
  end.

(** Three workers of scores 90, 80 and 40. *)
Definition example_registry : Py.dict ClientInfo.t :=
  [ ("A", example_client "10.0.0.1" 90); ("B", example_client "10.0.0.2" 80);
    ("C", example_client "10.0.0.3" 40) ].

(** Every model name held by an assignment map names a model of the
    catalog. *)
Definition values_from (catalog : list ModelManager.ModelInfo)
    (assignments : Py.dict string) : Prop :=
  forall k v,
    Py.dict_get assignments k = Some v ->
    exists m, In m catalog /\ ModelManager.name m = v.

(** The draw of [random.choice] in the first performance group selects
    the worker [top]. *)
Definition first_group_selects (rnd : nat -> nat)
    (catalog : list ModelManager.ModelInfo) (clients : Py.dict ClientInfo.t)
    (top : string) : Prop :=
  exists g0,
    hd_error
      (ModelManager._create_performance_groups
         (ModelManager.sorted_clients_of clients) (List.length catalog))
    = Some g0
    /\ Py.choice (rnd 0) g0 = Py.Ok top.

(** A catalog whose descriptors carry the vision attribute: a text model
    and a vision model. *)
Definition vision_catalog : list ModelManager.ModelInfo :=
  [ {| ModelManager.name := "text:3b";
       ModelManager.parameters := 3000000000;
       ModelManager.size_gb := 6;
       ModelManager.complexity_score := 5;
       ModelManager.supports_vision := Some false |};
    {| ModelManager.name := "vision:8b";
       ModelManager.parameters := 8000000000;
       ModelManager.size_gb := 16;
       ModelManager.complexity_score := 7;
       ModelManager.supports_vision := Some true |} ].

Definition server_with (catalog : list ModelManager.ModelInfo)
    (clients : Py.dict ClientInfo.t) : Server.t :=
  {| Server.clients := clients;
     Server.model_manager :=
       {| ModelManager.available_models := catalog;
          ModelManager.model_assignments := [] |} |}.

(** A server without workers, and one with the workers "A" (vision model)
    and "B" (text model). *)
Definition empty_server : Server.t :=
  server_with ModelManager._use_default_models [].

Definition text_worker : ClientInfo.t :=
  ClientInfo.set_assigned_model (example_client "10.0.0.2" 50) "text:3b".

Definition vision_server : Server.t :=
  server_with vision_catalog
    [ ("A", ClientInfo.set_assigned_model (example_client "10.0.0.1" 90)
              "vision:8b");
      ("B", text_worker) ].

(** Workers that all answer with [success], and workers that cannot be
    reached. *)
Definition answering_stub (address : string) (request : AIRequest.t)
  : Py.result AIResponse.t :=
  Py.Ok {| AIResponse.request_id := AIRequest.request_id request;
           AIResponse.success := true;
           AIResponse.response_text := "answer";
           AIResponse.processing_time := 1;
           AIResponse.client_id := address;
           AIResponse.model_used := AIRequest.assigned_model request;
           AIResponse.timestamp := AIRequest.timestamp request |}.

Definition unreachable_stub (address : string) (request : AIRequest.t)
  : Py.result AIResponse.t :=
  Py.Raise (Py.RpcError "failed to connect to all addresses").

Definition no_ollama (model prompt : string) : option string := None.

Definition summary_only (responses : list Collected.t)
    (summary method : string) : string := summary.

Definition example_request : AIRequest.t :=
  {| AIRequest.request_id := "r-1"; AIRequest.prompt := "hello";
     AIRequest.assigned_model := ""; AIRequest.timestamp := 0;
     AIRequest.images := ["aW1hZ2U="] |}.

(** The registration of a worker "B" of score 50. *)
Definition example_registration : ClientInfoPb.t :=
  {| ClientInfoPb.client_id := "B"; ClientInfoPb.hostname := "host-b";
     ClientInfoPb.ip_address := "10.0.0.2";
     ClientInfoPb.specs :=
       {| HardwareSpecsPb.cpu_cores := 4;
          HardwareSpecsPb.cpu_frequency_ghz := 2;
          HardwareSpecsPb.ram_gb := 8;
          HardwareSpecsPb.gpu_info := "Unknown GPU";
          HardwareSpecsPb.gpu_memory_gb := 0;
          HardwareSpecsPb.os_info := "Linux";
          HardwareSpecsPb.performance_score := 50 |} |}.

(** A server that knows the vision catalog and the worker "A" of score
    90. *)
Definition one_worker_server : Server.t :=
  server_with vision_catalog [ ("A", example_client "10.0.0.1" 90) ].

(** The first loop of [assign_models_to_clients], one designated model per
    performance group, and the workers it leaves to the round-robin. *)
Definition group_phase (rnd : nat -> nat)
    (catalog : list ModelManager.ModelInfo) (clients : Py.dict ClientInfo.t)
  : Py.result (Py.dict string) :=
  ModelManager.assign_groups rnd (ModelManager.sorted_models_of catalog)
    (ModelManager._create_performance_groups
       (ModelManager.sorted_clients_of clients) (List.length catalog))
    0 [].

Definition remaining_after (assignments : Py.dict string)
    (clients : Py.dict ClientInfo.t) : list string :=
  filter (fun cid => negb (Py.str_in cid (Py.dict_keys assignments)))
         (map fst (ModelManager.sorted_clients_of clients)).

(** Orders and invariants of a catalog. *)
Definition by_parameters (a b : ModelManager.ModelInfo) : Prop :=
  (ModelManager.parameters a <= ModelManager.parameters b)%Z.

Definition by_complexity (a b : ModelManager.ModelInfo) : Prop :=
  (ModelManager.complexity_score a <= ModelManager.complexity_score b)%Z.

(** The rank of the model is the one its parameter count gives. *)
Definition rank_consistent (m : ModelManager.ModelInfo) : Prop :=
  ModelManager.complexity_score m
  = ModelManager.complexity_of_parameters (ModelManager.parameters m).

(** The string holds a digit immediately followed by the letter b. *)
Definition digit_before_b (s : string) : Prop :=
  exists pre c post,
    s = (pre ++ String c (String "b" post))%string /\ Py.is_digit c = true.

(** Every character is a digit. *)
Fixpoint all_digits (s : string) : bool :=
  match s with
  | EmptyString => true
  | String c r => Py.is_digit c && all_digits r
  end.

(** The model that [add_custom_model] builds. *)
Definition custom_model (name : string) (parameters : Z)
    (size_gb : option Q) : ModelManager.ModelInfo :=
  ModelManager.ModelInfo_init name parameters
    match size_gb with
    | Some size => size
    | None => ModelManager._estimate_model_size parameters
    end 0.

(** The output of [ollama list] for two parsable models and one that is
    not. *)
Definition example_ollama_output : string :=
  ("NAME ID SIZE MODIFIED" ++ String (ascii_of_nat 10)
   ("llama3.1:8b 46e0c10c039e 4.9GB yesterday" ++ String (ascii_of_nat 10)
   ("nomic-embed-text:latest 0a109f422b47 274MB today"
    ++ String (ascii_of_nat 10)
   ("llama3.2:1b baf6a787fdff 1.3GB today" ++ String (ascii_of_nat 10)
    EmptyString))))%string.

(** Two worker records that differ at most in the assigned model. *)
Definition same_worker (a b : ClientInfo.t) : Prop :=
  ClientInfo.hostname a = ClientInfo.hostname b
  /\ ClientInfo.ip_address a = ClientInfo.ip_address b
  /\ ClientInfo.specs a = ClientInfo.specs b
  /\ ClientInfo.last_seen a = ClientInfo.last_seen b
  /\ ClientInfo.group a = ClientInfo.group b.

(** Every worker of the registry holds a model of the catalog. *)
Definition all_assigned (catalog : list ModelManager.ModelInfo)
    (clients : Py.dict ClientInfo.t) : Prop :=
  forall k info,
    Py.dict_get clients k = Some info ->
    exists m,
      ClientInfo.assigned_model info = Some (ModelManager.name m)
      /\ In m catalog.

(** The catalog descriptor of the worker's model says it takes images. *)
Definition vision_capable (self : Server.t) (info : ClientInfo.t) : bool :=
  match Server.lookup_assigned self (ClientInfo.assigned_model info) with
  | Some model_info =>
      match ModelManager.supports_vision model_info with
      | Some true => true
      | _ => false
      end
  | None => false
  end.

(** The record that [RegisterClient] stores for the registering worker,
    before the models are assigned, and the registry that holds it. *)
Definition registered_record (now : Z) (request : ClientInfoPb.t)
  : ClientInfo.t :=
  let rs := ClientInfoPb.specs request in
  {| ClientInfo.hostname := ClientInfoPb.hostname request;
     ClientInfo.ip_address := ClientInfoPb.ip_address request;
     ClientInfo.specs :=
       {| PerformanceEvaluator.cpu_cores := Some (HardwareSpecsPb.cpu_cores rs);
          PerformanceEvaluator.cpu_frequency_ghz :=
            HardwareSpecsPb.cpu_frequency_ghz rs;
          PerformanceEvaluator.ram_gb := HardwareSpecsPb.ram_gb rs;
          PerformanceEvaluator.gpu_info := HardwareSpecsPb.gpu_info rs;
          PerformanceEvaluator.gpu_memory_gb := HardwareSpecsPb.gpu_memory_gb rs;
          PerformanceEvaluator.os_info := HardwareSpecsPb.os_info rs;
          PerformanceEvaluator.performance_score :=
            HardwareSpecsPb.performance_score rs |};
     ClientInfo.last_seen := now;
     ClientInfo.assigned_model := None;
     ClientInfo.group := None |}.

Definition registry_with (now : Z) (self : Server.t)
    (request : ClientInfoPb.t) : Py.dict ClientInfo.t :=
  Py.dict_set (Server.clients self) (ClientInfoPb.client_id request)
    (registered_record now request).

(* ================================================================== *)
(** * Part II: properties                                              *)
(* ================================================================== *)

(** Distinct string literals. *)
Ltac distinct_keys :=
  repeat (constructor; [cbn; intuition discriminate |]); constructor.

(** ** The model catalog *)
Section Catalog.
Import ModelManager.

Lemma complexity_of_parameters_spec (p : Z) :
  complexity_of_parameters p = complexity_rank_spec p.
Proof.
  unfold complexity_of_parameters, complexity_rank_spec, complexity_table.
  cbn [find fst snd].
  repeat match goal with
         | |- context [(?a >=? ?b)%Z] =>
             rewrite (Z.geb_leb a b); destruct (b <=? a)%Z; try reflexivity
         end.
Qed.

Lemma complexity_of_parameters_mono (p1 p2 : Z) :
  (p1 <= p2)%Z ->
  (complexity_of_parameters p1 <= complexity_of_parameters p2)%Z.
Proof.
  intros Hle. unfold complexity_of_parameters.
  repeat match goal with
         | |- context [(?a >=? ?b)%Z] =>
             let E := fresh "E" in
             destruct (Z.geb_spec a b) as [E | E]
         end; lia.
Qed.

(** C8: the complexity rank that [ModelInfo] derives from a parameter
    count is the published step function, and it is monotone
    non-decreasing in the parameter count. *)
Theorem complexity_rank_step_monotone
    (n1 n2 : string) (s1 s2 : Q) (p1 p2 : Z) :
  (p1 <= p2)%Z ->
  complexity_score (ModelInfo_init n1 p1 s1 0) = complexity_rank_spec p1
  /\ complexity_score (ModelInfo_init n2 p2 s2 0) = complexity_rank_spec p2
  /\ (complexity_rank_spec p1 <= complexity_rank_spec p2)%Z.
Proof.
  intros Hle. unfold ModelInfo_init, __post_init__. cbn.
  rewrite <- !complexity_of_parameters_spec.
  repeat split. now apply complexity_of_parameters_mono.
Qed.

Lemma complexity_rank_step_monotone_witness :
  complexity_score (ModelInfo_init "llama3.2:1b" 1000000000 2 0) = 4%Z
  /\ complexity_score (ModelInfo_init "llama3.1:8b" 8000000000 16 0) = 7%Z
  /\ (4 <= 7)%Z.
Proof.
  apply (complexity_rank_step_monotone
           "llama3.2:1b" "llama3.1:8b" 2 16 1000000000 8000000000).
  lia.
Defined.
End Catalog.

(** ** The performance evaluator *)
Section Evaluator.
Import PerformanceEvaluator.
Local Open Scope Q_scope.

Lemma min_le_l (a b : Q) : Py.min a b <= a.
Proof.
  unfold Py.min. destruct (Qle_bool a b) eqn:E.
  - apply Qle_refl.
  - destruct (Qlt_le_dec b a) as [H | H].
    + now apply Qlt_le_weak.
    + apply Qle_bool_iff in H. congruence.
Qed.

Lemma min_nonneg (a b : Q) : 0 <= a -> 0 <= b -> 0 <= Py.min a b.
Proof. intros Ha Hb. unfold Py.min. now destruct (Qle_bool a b). Qed.

Lemma round_half_even_bounds (x : Q) (lo hi : Z) :
  inject_Z lo <= x -> x <= inject_Z hi ->
  (lo <= Py.round_half_even x <= hi)%Z.
Proof.
  intros Hlo Hhi.
  assert (Hf1 : (lo <= Qfloor x)%Z).
  { rewrite <- (Qfloor_Z lo). now apply Qfloor_resp_le. }
  assert (Hf2 : (Qfloor x <= hi)%Z).
  { rewrite <- (Qfloor_Z hi). now apply Qfloor_resp_le. }
  assert (Hfx : inject_Z (Qfloor x) <= x) by apply Qfloor_le.
  unfold Py.round_half_even.
  destruct (Z.eq_dec (Qfloor x) hi) as [Heq | Hne].
  - assert (Hr : x - inject_Z (Qfloor x) <= 0) by (rewrite Heq; lra).
    destruct (Qle_bool (x - inject_Z (Qfloor x)) (1 # 2)) eqn:E1.
    + destruct (Qeq_bool (x - inject_Z (Qfloor x)) (1 # 2)) eqn:E2.
      * apply Qeq_bool_iff in E2. lra.
      * lia.
    + assert (Hc : x - inject_Z (Qfloor x) <= 1 # 2) by lra.
      apply Qle_bool_iff in Hc. congruence.
  - destruct (Qle_bool (x - inject_Z (Qfloor x)) (1 # 2));
      [destruct (Qeq_bool (x - inject_Z (Qfloor x)) (1 # 2));
       [destruct (Z.even (Qfloor x))|]|]; lia.
Qed.

Lemma round1_bounds (x : Q) (lo hi : Z) :
  inject_Z lo <= x -> x <= inject_Z hi ->
  inject_Z lo <= Py.round1 x <= inject_Z hi.
Proof.
  intros Hlo Hhi. unfold Py.round1.
  destruct (round_half_even_bounds (x * 10) (lo * 10) (hi * 10)) as [H1 H2].
  - rewrite inject_Z_mult. change (inject_Z 10) with 10. lra.
  - rewrite inject_Z_mult. change (inject_Z 10) with 10. lra.
  - rewrite Zle_Qle in H1, H2. rewrite inject_Z_mult in H1, H2.
    change (inject_Z 10) with 10 in H1, H2.
    set (r := inject_Z (Py.round_half_even (x * 10))) in *.
    assert (E : r / 10 == r * (1 # 10)) by reflexivity.
    rewrite E. split; lra.
Qed.

Lemma gpu_score_of_range (g : string) : (5 <= gpu_score_of g <= 30)%Z.
Proof.
  unfold gpu_score_of.
  repeat match goal with
         | |- context [if ?c then _ else _] => destruct c
         end; lia.
Qed.

(** The clipping to 100 bounds the score from above on every input. *)
Lemma performance_score_le_100 (specs : Specs) :
  _calculate_performance_score specs <= 100.
Proof.
  unfold _calculate_performance_score, calculate_performance_score_body.
  destruct (cpu_cores specs) as [cores |]; [| lra].
  match goal with
  | |- Py.round1 (Py.min 100 ?t) <= _ =>
      pose proof (min_le_l 100 t) as Hm;
      destruct (Qlt_le_dec (Py.min 100 t) 0) as [Hneg | Hpos]
  end.
  - set (m := Py.min 100 _) in *.
    assert (Hz : exists lo : Z, inject_Z lo <= m).
    { exists (Qfloor m). apply Qfloor_le. }
    destruct Hz as [lo Hlo].
    apply (round1_bounds m lo 100 Hlo Hm).
  - set (m := Py.min 100 _) in *.
    apply (round1_bounds m 0 100 Hpos Hm).
Qed.

Lemma performance_score_nonneg (specs : Specs) :
  nonnegative_specs specs -> 0 <= _calculate_performance_score specs.
Proof.
  intros (Hc & Hf & Hr).
  unfold _calculate_performance_score, calculate_performance_score_body.
  destruct (cpu_cores specs) as [cores |]; [| lra].
  pose proof (gpu_score_of_range (Py.lower (gpu_info specs))) as [Hg _].
  assert (Hg' : 0 <= inject_Z (gpu_score_of (Py.lower (gpu_info specs)))).
  { change 0 with (inject_Z 0). rewrite <- Zle_Qle. lia. }
  assert (Hc' : 0 <= inject_Z cores).
  { change 0 with (inject_Z 0). now rewrite <- Zle_Qle. }
  pose proof (min_nonneg 20 (inject_Z cores * (3 # 2))) as H1.
  pose proof (min_nonneg 20 (cpu_frequency_ghz specs * 6)) as H2.
  pose proof (min_nonneg 30 (ram_gb specs * (3 # 2))) as H3.
  match goal with
  | |- 0 <= Py.round1 (Py.min 100 ?t) =>
      pose proof (min_nonneg 100 t) as H4; pose proof (min_le_l 100 t) as H5
  end.
  apply (round1_bounds _ 0 100).
  - apply H4; lra.
  - exact H5.
Qed.

(** C7, as amended: on every hardware-specs input whose core count,
    frequency and RAM are not negative, whatever the GPU string, the
    performance score lies in the closed interval [0, 100]. *)
Theorem performance_score_in_range (specs : Specs) :
  nonnegative_specs specs ->
  0 <= _calculate_performance_score specs <= 100.
Proof.
  intros H. split.
  - now apply performance_score_nonneg.
  - apply performance_score_le_100.
Qed.

Lemma performance_score_in_range_witness :
  nonnegative_specs fallback_like_specs
  /\ 0 <= _calculate_performance_score fallback_like_specs <= 100.
Proof.
  assert (H : nonnegative_specs fallback_like_specs).
  { unfold nonnegative_specs, fallback_like_specs; simpl.
    repeat split; try lia; unfold Qle; simpl; lia. }
  split; [exact H | exact (performance_score_in_range fallback_like_specs H)].
Defined.

(** C7 as stated fails: a negative core count gives a score below 0. *)
Lemma performance_score_negative_input :
  _calculate_performance_score negative_cores_specs == - (118)
  /\ ~ (0 <= _calculate_performance_score negative_cores_specs <= 100).
Proof.
  split.
  - vm_compute. reflexivity.
  - intros [H _]. vm_compute in H. apply H. reflexivity.
Qed.

End Evaluator.

(** ** [sorted(..., reverse=True)] *)
Section SortedFacts.
Context {A K : Type} (leb : K -> K -> bool) (key : A -> K).
Hypothesis leb_total : forall a b, leb a b = true \/ leb b a = true.
Hypothesis leb_trans :
  forall a b c, leb a b = true -> leb b c = true -> leb a c = true.

Lemma insert_desc_perm (x : A) (l : list A) :
  Permutation (Py.insert_desc leb key x l) (x :: l).
Proof.
  induction l as [| y l IH]; cbn.
  - reflexivity.
  - destruct (leb (key y) (key x)).
    + reflexivity.
    + rewrite IH. apply perm_swap.
Qed.

Lemma sorted_reverse_perm (l : list A) :
  Permutation (Py.sorted_reverse leb key l) l.
Proof.
  induction l as [| x l IH]; cbn.
  - constructor.
  - rewrite insert_desc_perm. now constructor.
Qed.

Lemma insert_desc_sorted (x : A) (l : list A) :
  StronglySorted (Py.desc leb key) l ->
  StronglySorted (Py.desc leb key) (Py.insert_desc leb key x l).
Proof.
  induction 1 as [| y l Hs IH Hall]; cbn.
  - repeat constructor.
  - destruct (leb (key y) (key x)) eqn:E.
    + constructor; [now constructor |].
      constructor; [exact E |].
      eapply Forall_impl; [| exact Hall].
      intros z Hz. unfold Py.desc in *. eauto.
    + constructor; [exact IH |].
      assert (Hxy : Py.desc leb key y x).
      { unfold Py.desc. destruct (leb_total (key x) (key y)); congruence. }
      eapply Permutation_Forall;
        [symmetry; apply insert_desc_perm |].
      now constructor.
Qed.

Lemma sorted_reverse_sorted (l : list A) :
  StronglySorted (Py.desc leb key) (Py.sorted_reverse leb key l).
Proof.
  induction l as [| x l IH]; cbn.
  - constructor.
  - now apply insert_desc_sorted.
Qed.

Lemma insert_desc_filter (p : K -> bool) (x : A) (s : list A) :
  (forall a b, p a = true -> p b = true -> leb b a = true) ->
  filter (fun x => p (key x)) (Py.insert_desc leb key x s)
  = filter (fun x => p (key x)) (x :: s).
Proof.
  intros Hp. induction s as [| y s IHs]; [reflexivity |].
  cbn [Py.insert_desc].
  destruct (leb (key y) (key x)) eqn:E; [reflexivity |].
  cbn [filter] in *. rewrite IHs.
  destruct (p (key x)) eqn:Px; [| reflexivity].
  destruct (p (key y)) eqn:Py; [| reflexivity].
  rewrite (Hp _ _ Px Py) in E. discriminate.
Qed.

(** Stability: restricted to a class of keys that are pairwise below each
    other (equal keys), the sort changes nothing. *)
Lemma sorted_reverse_stable (p : K -> bool) (l : list A) :
  (forall a b, p a = true -> p b = true -> leb b a = true) ->
  filter (fun x => p (key x)) (Py.sorted_reverse leb key l)
  = filter (fun x => p (key x)) l.
Proof.
  intros Hp. induction l as [| x l IH]; [reflexivity |].
  change (Py.sorted_reverse leb key (x :: l))
    with (Py.insert_desc leb key x (Py.sorted_reverse leb key l)).
  rewrite insert_desc_filter by exact Hp.
  cbn [filter]. now rewrite IH.
Qed.

Lemma sorted_reverse_length (l : list A) :
  List.length (Py.sorted_reverse leb key l) = List.length l.
Proof. apply Permutation_length, sorted_reverse_perm. Qed.

Lemma sorted_reverse_In (x : A) (l : list A) :
  In x (Py.sorted_reverse leb key l) <-> In x l.
Proof.
  split; apply Permutation_in;
    [apply sorted_reverse_perm | symmetry; apply sorted_reverse_perm].
Qed.
End SortedFacts.

(** ** The order of the workers in the assignment engine *)
Section SortedClients.
Import ModelManager.

Lemma Qle_bool_total (a b : Q) : Qle_bool a b = true \/ Qle_bool b a = true.
Proof.
  destruct (Qlt_le_dec a b) as [H | H].
  - left. apply Qle_bool_iff. now apply Qlt_le_weak.
  - right. now apply Qle_bool_iff.
Qed.

Lemma Qle_bool_trans (a b c : Q) :
  Qle_bool a b = true -> Qle_bool b c = true -> Qle_bool a c = true.
Proof. rewrite !Qle_bool_iff. apply Qle_trans. Qed.

Lemma Zleb_total (a b : Z) : (a <=? b)%Z = true \/ (b <=? a)%Z = true.
Proof. rewrite !Z.leb_le. lia. Qed.

Lemma Zleb_trans (a b c : Z) :
  (a <=? b)%Z = true -> (b <=? c)%Z = true -> (a <=? c)%Z = true.
Proof. rewrite !Z.leb_le. lia. Qed.

Lemma StronglySorted_weaken {T : Type} (R S : T -> T -> Prop) (l : list T) :
  (forall x y, R x y -> S x y) -> StronglySorted R l -> StronglySorted S l.
Proof.
  intros HRS. induction 1 as [| x l Hs IH Hall]; constructor.
  - exact IH.
  - eapply Forall_impl; [| exact Hall]. intros y. apply HRS.
Qed.

Lemma sorted_clients_sorted (clients : Py.dict ClientInfo.t) :
  StronglySorted score_desc (sorted_clients_of clients).
Proof.
  unfold sorted_clients_of.
  eapply StronglySorted_weaken.
  2: apply sorted_reverse_sorted; [apply Qle_bool_total | apply Qle_bool_trans].
  intros x y H. unfold Py.desc in H. now apply Qle_bool_iff in H.
Qed.

Lemma sorted_clients_perm (clients : Py.dict ClientInfo.t) :
  Permutation (sorted_clients_of clients) clients.
Proof. apply sorted_reverse_perm. Qed.

(** C6, as amended: the assignment engine orders the workers by
    performance score, descending; workers with equal scores keep the order
    in which the registry holds them (their registration order), so the
    order is a function of the registry and nothing else. *)
Theorem sorted_clients_descending_stable (clients : Py.dict ClientInfo.t) :
  Permutation (sorted_clients_of clients) clients
  /\ StronglySorted score_desc (sorted_clients_of clients)
  /\ forall s : Q,
       with_score s (sorted_clients_of clients) = with_score s clients.
Proof.
  split; [apply sorted_clients_perm |].
  split; [apply sorted_clients_sorted |].
  intros s. unfold with_score, sorted_clients_of.
  apply (sorted_reverse_stable Qle_bool
           (fun x : string * ClientInfo.t => ClientInfo.score (snd x))
           (Qeq_bool s)).
  intros a b Ha Hb. apply Qeq_bool_iff in Ha, Hb.
  apply Qle_bool_iff. rewrite <- Ha, <- Hb. apply Qle_refl.
Qed.

(** C6 as stated fails: two workers of equal score come out in
    registration order, here against the order of their IDs, and the other
    registration order gives the other result. *)
Lemma equal_scores_keep_registration_order :
  map fst (sorted_clients_of tied_registry) = ["b"; "a"]
  /\ String.ltb "a" "b" = true
  /\ map fst (sorted_clients_of tied_registry_swapped) = ["a"; "b"].
Proof. repeat split. Qed.
End SortedClients.

(** ** The performance groups *)
Section Groups.
Import ModelManager.

Lemma firstn_add {T : Type} (a b : nat) (l : list T) :
  firstn (a + b) l = firstn a l ++ firstn b (skipn a l).
Proof.
  revert l. induction a as [| a IH]; intros l; [reflexivity |].
  destruct l as [| x l]; cbn.
  - now rewrite firstn_nil.
  - now rewrite IH.
Qed.

Lemma slice_from (T : Type) (l : list T) (start size : nat) :
  Py.slice l start (start + size) = firstn size (skipn start l).
Proof. unfold Py.slice. f_equal. lia. Qed.

Lemma create_groups_loop_length sc base extra range start :
  List.length (create_groups_loop sc base extra range start)
  = List.length range.
Proof.
  revert start. induction range as [| j range IH]; intros start; cbn;
    [reflexivity | now rewrite IH].
Qed.

Lemma create_groups_loop_concat sc base extra range start :
  List.concat (create_groups_loop sc base extra range start)
  = map fst (firstn (sum_sizes base extra range) (skipn start sc)).
Proof.
  revert start. induction range as [| j range IH]; intros start.
  - reflexivity.
  - cbn [create_groups_loop List.concat sum_sizes]. rewrite IH.
    fold (group_size base extra j).
    rewrite slice_from, firstn_add, map_app, skipn_skipn.
    do 2 f_equal. now rewrite Nat.add_comm.
Qed.

Lemma create_groups_loop_sizes sc base extra range start :
  start + sum_sizes base extra range <= List.length sc ->
  Forall2 (fun j g => List.length g = group_size base extra j)
          range (create_groups_loop sc base extra range start).
Proof.
  revert start. induction range as [| j range IH]; intros start Hle.
  - constructor.
  - cbn [create_groups_loop sum_sizes] in *.
    fold (group_size base extra j) in *. constructor.
    + rewrite slice_from, length_map, length_firstn, length_skipn. lia.
    + apply IH. lia.
Qed.

Lemma sum_sizes_seq base extra i k :
  sum_sizes base extra (seq i k)
  = k * base + (Nat.min (i + k) extra - Nat.min i extra).
Proof.
  revert i. induction k as [| k IH]; intros i; cbn [seq sum_sizes].
  - lia.
  - rewrite IH. unfold group_size.
    destruct (Nat.ltb_spec i extra); lia.
Qed.

Lemma sum_sizes_all (total num_groups : nat) :
  0 < num_groups ->
  sum_sizes (total / num_groups) (total mod num_groups) (seq 0 num_groups)
  = total.
Proof.
  intros Hpos. rewrite sum_sizes_seq.
  pose proof (Nat.div_mod_eq total num_groups) as Hdm.
  pose proof (Nat.mod_upper_bound total num_groups) as Hmod.
  assert (Hm : total mod num_groups < num_groups) by (apply Hmod; lia).
  rewrite Nat.min_r by lia. rewrite Nat.min_l by lia. nia.
Qed.

Lemma Forall2_seq_nth_error {T : Type} (P : nat -> T -> Prop)
    (s n : nat) (l : list T) (i : nat) (g : T) :
  Forall2 P (seq s n) l -> nth_error l i = Some g -> P (s + i) g.
Proof.
  revert s l i. induction n as [| n IH]; intros s l i HF Hn; cbn in HF.
  - inversion HF; subst. destruct i; discriminate.
  - inversion HF as [| j g' r l' Hj Hr]; subst.
    destruct i as [| i]; cbn in Hn.
    + injection Hn as <-. now rewrite Nat.add_0_r.
    + replace (s + S i) with (S s + i) by lia. eapply IH; eassumption.
Qed.

Lemma nth_error_Some_lt_length {T : Type} (l : list T) (i : nat) (x : T) :
  nth_error l i = Some x -> i < List.length l.
Proof. intros H. apply nth_error_Some. congruence. Qed.

Lemma concat_singletons {T U : Type} (f : T -> U) (l : list T) :
  List.concat (map (fun c => [f c]) l) = map f l.
Proof. induction l as [| x l IH]; cbn; [reflexivity | now rewrite IH]. Qed.

Lemma ceil_div_small (n g : nat) : 0 < n -> n <= g -> ceil_div n g = 1.
Proof.
  intros Hn Hg. unfold ceil_div.
  symmetry. apply (Nat.div_unique (n + g - 1) g 1 (n - 1)); lia.
Qed.

Lemma ceil_div_remainder (n g : nat) :
  0 < n mod g -> 0 < g -> ceil_div n g = n / g + 1.
Proof.
  intros Hr Hg. unfold ceil_div.
  pose proof (Nat.div_mod_eq n g) as Hdm.
  pose proof (Nat.mod_upper_bound n g ltac:(lia)) as Hm.
  symmetry. apply (Nat.div_unique (n + g - 1) g (n / g + 1) (n mod g - 1)); nia.
Qed.

(** The size the published partition gives to group [i]. *)
Lemma group_size_spec (n g i : nat) :
  0 < g -> g < n ->
  group_size (n / g) (n mod g) i
  = if i <? n mod g then ceil_div n g else n / g.
Proof.
  intros Hg Hn. unfold group_size.
  destruct (Nat.ltb_spec i (n mod g)).
  - rewrite ceil_div_remainder; lia.
  - lia.
Qed.

Lemma groups_length sc num_groups :
  List.length (_create_performance_groups sc num_groups)
  = Nat.min num_groups (List.length sc).
Proof.
  unfold _create_performance_groups.
  destruct num_groups as [| g]; [reflexivity |].
  destruct sc as [| c sc]; [cbn; lia |].
  destruct (Nat.leb_spec (List.length (c :: sc)) (S g)).
  - rewrite length_map. lia.
  - rewrite create_groups_loop_length, length_seq. lia.
Qed.

Lemma groups_concat sc num_groups :
  0 < num_groups ->
  List.concat (_create_performance_groups sc num_groups) = map fst sc.
Proof.
  intros Hpos. unfold _create_performance_groups.
  destruct num_groups as [| g]; [lia |].
  destruct sc as [| c sc]; [reflexivity |].
  destruct (Nat.leb_spec (List.length (c :: sc)) (S g)).
  - apply concat_singletons.
  - rewrite create_groups_loop_concat, sum_sizes_all by lia.
    now rewrite skipn_O, firstn_all.
Qed.

Lemma groups_sizes sc num_groups i g :
  nth_error (_create_performance_groups sc num_groups) i = Some g ->
  List.length g
  = if i <? List.length sc mod num_groups
    then ceil_div (List.length sc) num_groups
    else List.length sc / num_groups.
Proof.
  unfold _create_performance_groups.
  destruct num_groups as [| k]; [destruct i; discriminate |].
  destruct sc as [| c sc]; [destruct i; discriminate |].
  set (n := List.length (c :: sc)). set (G := S k).
  assert (Hn : 0 < n) by (cbn; lia).
  destruct (Nat.leb_spec n G) as [Hle | Hlt]; intros Hnth.
  - assert (Hlen : List.length g = 1).
    { apply nth_error_In, in_map_iff in Hnth.
      now destruct Hnth as (x & <- & _). }
    assert (Hi : i < n).
    { apply nth_error_Some_lt_length in Hnth.
      now rewrite length_map in Hnth. }
    rewrite Hlen.
    destruct (Nat.eq_dec n G) as [-> | Hne].
    + rewrite Nat.Div0.mod_same, Nat.div_same by lia.
      now destruct (Nat.ltb_spec i 0); [lia |].
    + rewrite Nat.mod_small by lia.
      destruct (Nat.ltb_spec i n); [| lia].
      symmetry. apply ceil_div_small; lia.
  - rewrite <- group_size_spec by lia.
    change i with (0 + i).
    refine (Forall2_seq_nth_error
              (fun j g => List.length g = group_size (n / G) (n mod G) j)
              0 G _ i g _ Hnth).
    apply create_groups_loop_sizes. rewrite sum_sizes_all; lia.
Qed.

Lemma groups_nonempty sc num_groups :
  Forall (fun g => g <> []) (_create_performance_groups sc num_groups).
Proof.
  apply Forall_forall. intros g Hin.
  apply In_nth_error in Hin. destruct Hin as [i Hi].
  pose proof (groups_sizes _ _ _ _ Hi) as Hsz.
  assert (Hlt : i < Nat.min num_groups (List.length sc)).
  { rewrite <- groups_length. eapply nth_error_Some_lt_length; eassumption. }
  intros ->. change (List.length (@nil string)) with 0 in Hsz.
  assert (Hg : num_groups <> 0) by lia.
  pose proof (Nat.div_mod_eq (List.length sc) num_groups) as Hdm.
  revert Hsz.
  destruct (Nat.ltb_spec i (List.length sc mod num_groups)) as [Hi' | Hi'];
    intros Hsz; symmetry in Hsz.
  - unfold ceil_div in Hsz. apply Nat.div_small_iff in Hsz; lia.
  - apply Nat.div_small_iff in Hsz; [| lia].
    rewrite Nat.mod_small in Hi' by lia. lia.
Qed.

Lemma concat_two_groups {T : Type} (gs : list (list T)) (i j : nat)
    (gi gj : list T) (a b : T) :
  i < j -> nth_error gs i = Some gi -> nth_error gs j = Some gj ->
  In a gi -> In b gj ->
  exists l1 l2 l3, List.concat gs = l1 ++ a :: l2 ++ b :: l3.
Proof.
  revert i j. induction gs as [| g gs IH]; intros i j Hij Hi Hj Ha Hb.
  - destruct i; discriminate.
  - destruct j as [| j]; [lia |]. cbn in Hj.
    destruct i as [| i]; cbn in Hi.
    + injection Hi as ->.
      apply in_split in Ha. destruct Ha as (p & q & ->).
      assert (Hb' : In b (List.concat gs)).
      { apply in_concat. exists gj. split; [| exact Hb].
        eapply nth_error_In; eassumption. }
      apply in_split in Hb'. destruct Hb' as (p' & q' & Hc).
      exists p, (q ++ p'), q'. cbn. rewrite Hc.
      now rewrite <- !app_assoc.
    + destruct (IH i j ltac:(lia) Hi Hj Ha Hb) as (l1 & l2 & l3 & Hc).
      exists (g ++ l1), l2, l3. cbn. rewrite Hc. now rewrite app_assoc.
Qed.

Lemma StronglySorted_two {T : Type} (R : T -> T -> Prop)
    (l1 l2 l3 : list T) (x y : T) :
  StronglySorted R (l1 ++ x :: l2 ++ y :: l3) -> R x y.
Proof.
  induction l1 as [| z l1 IH]; cbn; intros Hs; inversion Hs; subst.
  - match goal with
    | H : Forall (R x) _ |- _ => rewrite Forall_forall in H; apply H
    end.
    apply in_elt.
  - auto.
Qed.

Lemma dict_value_unique {V : Type} (d : Py.dict V) (k : string) (v v' : V) :
  NoDup (Py.dict_keys d) -> In (k, v) d -> In (k, v') d -> v = v'.
Proof.
  unfold Py.dict_keys.
  induction d as [| [k0 v0] d IH]; cbn; intros Hnd H1 H2; [contradiction |].
  inversion Hnd as [| ? ? Hnotin Hnd']; subst.
  destruct H1 as [H1 | H1], H2 as [H2 | H2].
  - congruence.
  - injection H1 as -> ->. exfalso. apply Hnotin.
    change k with (fst (k, v')). now apply in_map.
  - injection H2 as -> ->. exfalso. apply Hnotin.
    change k with (fst (k, v)). now apply in_map.
  - now apply IH.
Qed.

(** Workers of different groups are in score order. *)
Lemma groups_score_order (clients : Py.dict ClientInfo.t) (num_groups : nat)
    (i j : nat) (gi gj : list string) (a b : string) (ia ib : ClientInfo.t) :
  well_formed_registry clients ->
  let groups :=
    _create_performance_groups (sorted_clients_of clients) num_groups in
  i < j -> nth_error groups i = Some gi -> nth_error groups j = Some gj ->
  In a gi -> In b gj -> In (a, ia) clients -> In (b, ib) clients ->
  (ClientInfo.score ib <= ClientInfo.score ia)%Q.
Proof.
  intros Hwf groups Hij Hi Hj Ha Hb Hia Hib.
  assert (Hpos : 0 < num_groups).
  { destruct num_groups; [| lia]. destruct i; discriminate. }
  destruct (concat_two_groups groups i j gi gj a b Hij Hi Hj Ha Hb)
    as (l1 & l2 & l3 & Hc).
  unfold groups in Hc. rewrite groups_concat in Hc by exact Hpos.
  apply map_eq_app in Hc. destruct Hc as (s1 & t1 & Hs & _ & Ht1).
  apply map_eq_cons in Ht1. destruct Ht1 as ([a' ia'] & t2 & -> & Hfa & Ht2).
  apply map_eq_app in Ht2. destruct Ht2 as (s2 & t3 & -> & _ & Ht3).
  apply map_eq_cons in Ht3. destruct Ht3 as ([b' ib'] & s3 & -> & Hfb & _).
  cbn in Hfa, Hfb. subst a' b'.
  pose proof (sorted_clients_sorted clients) as Hsorted.
  rewrite Hs in Hsorted. apply StronglySorted_two in Hsorted.
  unfold score_desc in Hsorted. cbn in Hsorted.
  assert (Hin : forall x, In x (sorted_clients_of clients) -> In x clients).
  { intros x. apply Permutation_in, sorted_clients_perm. }
  assert (Ea : ia' = ia).
  { apply (dict_value_unique clients a); [exact Hwf | | exact Hia].
    apply Hin. rewrite Hs. apply in_elt. }
  assert (Eb : ib' = ib).
  { apply (dict_value_unique clients b); [exact Hwf | | exact Hib].
    apply Hin. rewrite Hs. rewrite app_comm_cons, app_assoc. apply in_elt. }
  now subst.
Qed.

(** C5: the engine cuts the score-descending list of the [N] workers into
    [min(G, N)] contiguous groups, the first [N mod G] of size [ceil(N/G)]
    and the others of size [floor(N/G)], so that of two workers in different
    groups the one in the lower-numbered group has the greater or equal
    score. *)
Theorem performance_groups_partition
    (clients : Py.dict ClientInfo.t) (catalog : list ModelInfo) :
  well_formed_registry clients ->
  catalog <> [] ->
  let N := List.length clients in
  let G := List.length catalog in
  let sorted_clients := sorted_clients_of clients in
  let groups := _create_performance_groups sorted_clients G in
  StronglySorted score_desc sorted_clients
  /\ List.length groups = Nat.min G N
  /\ List.concat groups = map fst sorted_clients
  /\ (forall i g,
        nth_error groups i = Some g ->
        List.length g = if i <? N mod G then ceil_div N G else N / G)
  /\ (forall i j gi gj a b ia ib,
        i < j ->
        nth_error groups i = Some gi -> nth_error groups j = Some gj ->
        In a gi -> In b gj ->
        In (a, ia) clients -> In (b, ib) clients ->
        (ClientInfo.score ib <= ClientInfo.score ia)%Q).
Proof.
  intros Hwf Hcat N G sorted_clients groups.
  assert (HG : 0 < G) by (unfold G; destruct catalog; [congruence | cbn; lia]).
  assert (HN : List.length sorted_clients = N).
  { apply Permutation_length, sorted_clients_perm. }
  split; [apply sorted_clients_sorted |].
  split; [unfold groups; now rewrite groups_length, HN |].
  split; [now apply groups_concat |].
  split.
  - intros i g Hi. rewrite <- HN. now apply groups_sizes.
  - intros i j gi gj a b ia ib. now apply groups_score_order.
Qed.

Lemma performance_groups_partition_witness :
  well_formed_registry example_registry
  /\ example_catalog <> []
  /\ _create_performance_groups (sorted_clients_of example_registry) 2
     = [["A"; "B"]; ["C"]]
  /\ List.length
       (_create_performance_groups (sorted_clients_of example_registry) 2)
     = Nat.min 2 3
  /\ (ClientInfo.score (example_client "10.0.0.3" 40)
      <= ClientInfo.score (example_client "10.0.0.2" 80))%Q.
Proof.
  assert (Hwf : well_formed_registry example_registry)
    by (unfold well_formed_registry; cbn; distinct_keys).
  assert (Hcat : example_catalog <> []) by discriminate.
  destruct (performance_groups_partition example_registry example_catalog
              Hwf Hcat) as (_ & Hlen & _ & _ & Hord).
  repeat split; try assumption.
  apply (Hord 0 1 ["A"; "B"] ["C"] "B" "C"); cbn; auto; lia.
Defined.
End Groups.

(** ** Dictionaries *)
Section DictFacts.
Context {V : Type}.
Implicit Types (d : Py.dict V) (k : string) (v : V).

Lemma dict_set_keys d k v k' :
  In k' (Py.dict_keys (Py.dict_set d k v)) <-> k' = k \/ In k' (Py.dict_keys d).
Proof.
  unfold Py.dict_keys.
  induction d as [| [k0 v0] d IH]; cbn.
  - intuition congruence.
  - destruct (String.eqb_spec k0 k) as [-> | Hne]; cbn.
    + intuition congruence.
    + rewrite IH. intuition congruence.
Qed.

Lemma dict_set_NoDup d k v :
  NoDup (Py.dict_keys d) -> NoDup (Py.dict_keys (Py.dict_set d k v)).
Proof.
  induction d as [| [k0 v0] d IH]; cbn; intros Hnd.
  - repeat constructor. intros [].
  - inversion Hnd as [| ? ? Hnotin Hnd']; subst.
    destruct (String.eqb_spec k0 k) as [-> | Hne]; cbn.
    + now constructor.
    + constructor; [| now apply IH].
      intros Hin. apply (dict_set_keys d k v k0) in Hin.
      destruct Hin as [-> | Hin]; [congruence | contradiction].
Qed.

Lemma dict_get_set_same d k v : Py.dict_get (Py.dict_set d k v) k = Some v.
Proof.
  induction d as [| [k0 v0] d IH]; cbn.
  - now rewrite String.eqb_refl.
  - destruct (String.eqb_spec k0 k) as [-> | Hne]; cbn.
    + now rewrite String.eqb_refl.
    + destruct (String.eqb_spec k0 k); [contradiction | exact IH].
Qed.

Lemma dict_get_set_other d k v k' :
  k' <> k -> Py.dict_get (Py.dict_set d k v) k' = Py.dict_get d k'.
Proof.
  intros Hne. induction d as [| [k0 v0] d IH]; cbn.
  - destruct (String.eqb_spec k k'); [congruence | reflexivity].
  - destruct (String.eqb_spec k0 k) as [-> | Hne0]; cbn.
    + destruct (String.eqb_spec k k'); [congruence | reflexivity].
    + now rewrite IH.
Qed.

Lemma dict_get_set d k v k' w :
  Py.dict_get (Py.dict_set d k v) k' = Some w ->
  (k' = k /\ w = v) \/ Py.dict_get d k' = Some w.
Proof.
  destruct (string_dec k' k) as [-> | Hne].
  - rewrite dict_get_set_same. intros [= <-]. now left.
  - rewrite dict_get_set_other by exact Hne. now right.
Qed.

Lemma dict_get_In_keys d k :
  In k (Py.dict_keys d) <-> exists v, Py.dict_get d k = Some v.
Proof.
  unfold Py.dict_keys. induction d as [| [k0 v0] d IH]; cbn.
  - split; [intros [] | intros [v Hv]; discriminate].
  - destruct (String.eqb_spec k0 k) as [-> | Hne].
    + split; [intros _; now exists v0 | now left].
    + rewrite <- IH. intuition congruence.
Qed.
End DictFacts.

Lemma str_in_In (k : string) (s : list string) :
  Py.str_in k s = true <-> In k s.
Proof.
  unfold Py.str_in. rewrite existsb_exists. split.
  - intros (x & Hx & E). apply String.eqb_eq in E. now subst.
  - intros H. exists k. split; [exact H | apply String.eqb_refl].
Qed.

Lemma choice_In {T : Type} (draw : nat) (seq : list T) (x : T) :
  Py.choice draw seq = Py.Ok x -> In x seq.
Proof.
  unfold Py.choice. destruct seq as [| y seq]; [discriminate |].
  destruct (nth_error (y :: seq) _) eqn:E; [| discriminate].
  intros [= <-]. eapply nth_error_In; eassumption.
Qed.

Lemma choice_total {T : Type} (draw : nat) (seq : list T) :
  seq <> [] -> exists x, Py.choice draw seq = Py.Ok x.
Proof.
  intros Hne. unfold Py.choice. destruct seq as [| y seq]; [congruence |].
  destruct (nth_error (y :: seq) (draw mod List.length (y :: seq))) eqn:E.
  - eauto.
  - apply nth_error_None in E.
    pose proof (Nat.mod_upper_bound draw (List.length (y :: seq))) as Hm.
    cbn [List.length] in *. lia.
Qed.

Lemma getitem_total {T : Type} (seq : list T) (i : nat) :
  i < List.length seq ->
  exists x, Py.getitem seq i = Py.Ok x /\ In x seq.
Proof.
  intros Hlt. unfold Py.getitem.
  destruct (nth_error seq i) eqn:E.
  - eexists. split; [reflexivity |]. eapply nth_error_In; eassumption.
  - apply nth_error_None in E. lia.
Qed.

(** ** The assignment engine *)
Section Assignment.
Import ModelManager.

Lemma values_from_set catalog a k m :
  values_from catalog a -> In m catalog ->
  values_from catalog (Py.dict_set a k (name m)).
Proof.
  intros Ha Hm k' v Hget. apply dict_get_set in Hget.
  destruct Hget as [[_ ->] | Hget]; [now exists m | eauto].
Qed.

Lemma assign_groups_spec rnd sm groups :
  Forall (fun g => g <> []) groups ->
  forall idx a,
  exists a',
    assign_groups rnd sm groups idx a = Py.Ok a'
    /\ (forall k, In k (Py.dict_keys a) -> In k (Py.dict_keys a'))
    /\ (forall k, In k (Py.dict_keys a') ->
                  In k (Py.dict_keys a) \/ In k (List.concat groups))
    /\ (NoDup (Py.dict_keys a) -> NoDup (Py.dict_keys a'))
    /\ (values_from sm a -> values_from sm a')
    /\ (forall k, ~ In k (List.concat groups) ->
                  Py.dict_get a' k = Py.dict_get a k).
Proof.
  induction 1 as [| g gs Hg Hgs IH]; intros idx a.
  - exists a. cbn. intuition.
  - cbn [assign_groups List.concat].
    destruct (idx <? List.length sm) eqn:Hidx.
    + apply Nat.ltb_lt in Hidx.
      destruct (getitem_total sm idx Hidx) as (m & -> & Hm).
      destruct (choice_total (rnd idx) g Hg) as (x & Hx).
      rewrite Hx. cbn [Py.bind].
      pose proof (choice_In _ _ _ Hx) as Hxin.
      destruct (IH (S idx) (Py.dict_set a x (name m)))
        as (a' & -> & Hsub & Hsup & Hnd & Hval & Hget).
      exists a'. split; [reflexivity |].
      split; [| split; [| split; [| split]]].
      * intros k Hk. apply Hsub, dict_set_keys. now right.
      * intros k Hk. destruct (Hsup k Hk) as [Hk' | Hk'].
        -- apply dict_set_keys in Hk'. destruct Hk' as [-> | Hk'].
           ++ right. apply in_or_app. now left.
           ++ now left.
        -- right. apply in_or_app. now right.
      * intros Ha. now apply Hnd, dict_set_NoDup.
      * intros Ha. now apply Hval, values_from_set.
      * intros k Hk. rewrite Hget.
        -- apply dict_get_set_other. intros ->. apply Hk, in_or_app. now left.
        -- intros Hin. apply Hk, in_or_app. now right.
    + destruct (IH (S idx) a) as (a' & -> & Hsub & Hsup & Hnd & Hval & Hget).
      exists a'. split; [reflexivity |].
      split; [exact Hsub |].
      split; [| split; [exact Hnd | split; [exact Hval |]]].
      * intros k Hk. destruct (Hsup k Hk); [now left |].
        right. apply in_or_app. now right.
      * intros k Hk. apply Hget. intros Hin. apply Hk, in_or_app. now right.
Qed.

Lemma assign_remaining_spec catalog remaining :
  catalog <> [] ->
  forall i a,
  exists a',
    assign_remaining catalog remaining i a = Py.Ok a'
    /\ (forall k, In k (Py.dict_keys a') <->
                  In k (Py.dict_keys a) \/ In k remaining)
    /\ (NoDup (Py.dict_keys a) -> NoDup (Py.dict_keys a'))
    /\ (values_from catalog a -> values_from catalog a')
    /\ (forall k, ~ In k remaining -> Py.dict_get a' k = Py.dict_get a k).
Proof.
  intros Hcat. induction remaining as [| cid remaining IH]; intros i a.
  - exists a. cbn. intuition.
  - cbn [assign_remaining].
    assert (Hlt : i mod List.length catalog < List.length catalog).
    { apply Nat.mod_upper_bound.
      destruct catalog; [congruence | discriminate]. }
    destruct (getitem_total catalog _ Hlt) as (m & -> & Hm).
    cbn [Py.bind].
    destruct (IH (S i) (Py.dict_set a cid (name m)))
      as (a' & -> & Hkeys & Hnd & Hval & Hget).
    exists a'. split; [reflexivity |].
    split; [| split; [| split]].
    + intros k. rewrite Hkeys, dict_set_keys. cbn. intuition congruence.
    + intros Ha. now apply Hnd, dict_set_NoDup.
    + intros Ha. now apply Hval, values_from_set.
    + intros k Hk. rewrite Hget.
      * apply dict_get_set_other. intros ->. apply Hk. now left.
      * intros Hin. apply Hk. now right.
Qed.

Lemma assign_models_to_clients_unfold rnd catalog clients :
  clients <> [] -> catalog <> [] ->
  assign_models_to_clients rnd catalog clients
  = (assignments <-
       assign_groups rnd (sorted_models_of catalog)
         (_create_performance_groups (sorted_clients_of clients)
            (List.length catalog)) 0 [] ;;
     assign_remaining catalog
       (filter (fun cid => negb (Py.str_in cid (Py.dict_keys assignments)))
               (map fst (sorted_clients_of clients)))
       0 assignments).
Proof.
  intros Hc Hm. destruct clients; [congruence |].
  destruct catalog; [congruence | reflexivity].
Qed.

Lemma sorted_clients_keys (clients : Py.dict ClientInfo.t) (k : string) :
  In k (map fst (sorted_clients_of clients)) <-> In k (Py.dict_keys clients).
Proof.
  unfold Py.dict_keys.
  split; apply Permutation_in, Permutation_map;
    [| symmetry]; apply sorted_clients_perm.
Qed.

Lemma values_from_sorted catalog a :
  values_from (sorted_models_of catalog) a -> values_from catalog a.
Proof.
  intros H k v Hget. destruct (H k v Hget) as (m & Hm & E).
  exists m. split; [| exact E].
  unfold sorted_models_of in Hm. now apply sorted_reverse_In in Hm.
Qed.

(** C4: on a registry with at least one worker and a catalog with at least
    one model, [assign_models_to_clients] returns, whatever the random
    draws, a map whose keys are exactly the worker IDs of the registry, each
    once, every worker holding one model of the catalog. *)
Theorem assignment_domain_is_registry
    (rnd : nat -> nat) (catalog : list ModelInfo)
    (clients : Py.dict ClientInfo.t) :
  clients <> [] ->
  catalog <> [] ->
  exists assignments,
    assign_models_to_clients rnd catalog clients = Py.Ok assignments
    /\ (forall cid,
          In cid (Py.dict_keys assignments) <-> In cid (Py.dict_keys clients))
    /\ NoDup (Py.dict_keys assignments)
    /\ (forall cid,
          In cid (Py.dict_keys clients) ->
          exists m,
            Py.dict_get assignments cid = Some (name m) /\ In m catalog).
Proof.
  intros Hc Hm. rewrite assign_models_to_clients_unfold by assumption.
  set (groups := _create_performance_groups _ _).
  assert (HG : 0 < List.length catalog)
    by (destruct catalog; [congruence | cbn; lia]).
  destruct (assign_groups_spec rnd (sorted_models_of catalog) groups
              (groups_nonempty _ _) 0 [])
    as (a1 & -> & _ & Hsup1 & Hnd1 & Hval1 & _).
  cbn [Py.bind].
  set (remaining := filter _ _).
  destruct (assign_remaining_spec catalog remaining Hm 0 a1)
    as (a2 & -> & Hkeys2 & Hnd2 & Hval2 & _).
  assert (Hdom : forall cid,
             In cid (Py.dict_keys a2) <-> In cid (Py.dict_keys clients)).
  { intros cid. rewrite Hkeys2. unfold remaining.
    rewrite filter_In, negb_true_iff, sorted_clients_keys. split.
    - intros [Hin | [Hin _]]; [| exact Hin].
      destruct (Hsup1 cid Hin) as [[] | Hg].
      unfold groups in Hg. rewrite groups_concat in Hg by exact HG.
      now apply sorted_clients_keys.
    - intros Hin.
      destruct (Py.str_in cid (Py.dict_keys a1)) eqn:E.
      + left. now apply str_in_In.
      + right. now split. }
  exists a2. split; [reflexivity |]. split; [exact Hdom |].
  split; [apply Hnd2, Hnd1; constructor |].
  intros cid Hin. apply Hdom, dict_get_In_keys in Hin.
  destruct Hin as [v Hv].
  assert (Hvf : values_from catalog a2).
  { apply Hval2, values_from_sorted, Hval1. intros k w Hk. discriminate. }
  destruct (Hvf cid v Hv) as (m & Hmin & <-). now exists m.
Qed.

Lemma assignment_domain_is_registry_witness :
  example_registry <> [] /\ example_catalog <> []
  /\ exists assignments,
       assign_models_to_clients (fun _ => 1) example_catalog example_registry
       = Py.Ok assignments
       /\ (forall cid,
             In cid (Py.dict_keys assignments)
             <-> In cid (Py.dict_keys example_registry))
       /\ NoDup (Py.dict_keys assignments)
       /\ (forall cid,
             In cid (Py.dict_keys example_registry) ->
             exists m,
               Py.dict_get assignments cid = Some (name m)
               /\ In m example_catalog).
Proof.
  assert (H1 : example_registry <> []) by discriminate.
  assert (H2 : example_catalog <> []) by discriminate.
  split; [exact H1 |]. split; [exact H2 |].
  exact (assignment_domain_is_registry (fun _ => 1) example_catalog
           example_registry H1 H2).
Defined.

Lemma NoDup_app_not_in {T : Type} (l1 l2 : list T) (x : T) :
  NoDup (l1 ++ l2) -> In x l1 -> ~ In x l2.
Proof.
  induction l1 as [| y l1 IH]; cbn; intros Hnd Hin; [contradiction |].
  inversion Hnd as [| ? ? Hnotin Hnd']; subst.
  destruct Hin as [-> | Hin]; [| now apply IH].
  intros Hx. apply Hnotin, in_or_app. now right.
Qed.

(** The head of a descending order is a maximum. *)
Lemma sorted_head_max {T : Type} (R : T -> T -> Prop) (x : T) (l : list T) :
  (forall y, R y y) -> StronglySorted R (x :: l) ->
  forall y, In y (x :: l) -> R x y.
Proof.
  intros Hrefl Hs y [<- | Hin]; [apply Hrefl |].
  inversion Hs as [| ? ? _ Hall]; subst.
  rewrite Forall_forall in Hall. now apply Hall.
Qed.

Lemma sorted_models_head_max catalog m0 sm :
  sorted_models_of catalog = m0 :: sm ->
  In m0 catalog
  /\ forall m', In m' catalog ->
                (complexity_score m' <= complexity_score m0)%Z.
Proof.
  intros Hs. unfold sorted_models_of in Hs. split.
  - apply (sorted_reverse_In Z.leb complexity_score). rewrite Hs. now left.
  - intros m' Hin. apply Z.leb_le.
    apply (sorted_head_max (Py.desc Z.leb complexity_score) m0 sm).
    + intros y. apply Z.leb_refl.
    + rewrite <- Hs. apply sorted_reverse_sorted;
        [apply Zleb_total | apply Zleb_trans].
    + rewrite <- Hs. now apply sorted_reverse_In.
Qed.

(** With no more workers than models the first group holds the first
    worker alone, and every draw selects it. *)
Lemma first_group_singleton rnd top info rest num_groups :
  List.length ((top, info) :: rest) <= num_groups ->
  exists gs,
    _create_performance_groups ((top, info) :: rest) num_groups
    = [top] :: gs
    /\ Py.choice (rnd 0) [top] = Py.Ok top.
Proof.
  intros Hle. unfold _create_performance_groups.
  destruct num_groups as [| k]; [cbn in Hle; lia |].
  destruct (Nat.leb_spec (List.length ((top, info) :: rest)) (S k)); [| lia].
  eexists. split; [reflexivity |].
  unfold Py.choice. cbn [List.length]. now rewrite Nat.mod_1_r.
Qed.

Lemma selected_first_keeps_top_model rnd catalog clients top g0 gs :
  well_formed_registry clients ->
  clients <> [] -> catalog <> [] ->
  _create_performance_groups (sorted_clients_of clients) (List.length catalog)
  = g0 :: gs ->
  Py.choice (rnd 0) g0 = Py.Ok top ->
  exists assignments m,
    assign_models_to_clients rnd catalog clients = Py.Ok assignments
    /\ Py.dict_get assignments top = Some (name m)
    /\ In m catalog
    /\ forall m', In m' catalog ->
                  (complexity_score m' <= complexity_score m)%Z.
Proof.
  intros Hwf Hc Hm Hgroups Hchoice.
  assert (HG : 0 < List.length catalog)
    by (destruct catalog; [congruence | cbn; lia]).
  rewrite assign_models_to_clients_unfold by assumption.
  pose proof (groups_nonempty (sorted_clients_of clients)
                (List.length catalog)) as Hne.
  pose proof (groups_concat (sorted_clients_of clients)
                (List.length catalog) HG) as Hcat.
  rewrite Hgroups in Hne, Hcat |- *.
  inversion Hne as [| ? ? _ Hne']; subst.
  destruct (sorted_models_of catalog) as [| m0 sm] eqn:Hsm.
  { apply (f_equal (@List.length _)) in Hsm. unfold sorted_models_of in Hsm.
    rewrite sorted_reverse_length in Hsm. cbn in Hsm. lia. }
  destruct (sorted_models_head_max _ _ _ Hsm) as [Hm0 Hmax].
  cbn [assign_groups List.length Nat.ltb Nat.leb Py.getitem nth_error Py.bind].
  rewrite Hchoice. cbn [Py.bind].
  destruct (assign_groups_spec rnd (m0 :: sm) gs Hne' 1
              (Py.dict_set [] top (name m0)))
    as (a1 & -> & Hsub1 & _ & _ & _ & Hget1).
  cbn [Py.bind].
  set (remaining := filter _ _).
  destruct (assign_remaining_spec catalog remaining Hm 0 a1)
    as (a2 & -> & _ & _ & _ & Hget2).
  assert (Htop : ~ In top (List.concat gs)).
  { apply (NoDup_app_not_in g0).
    - change (NoDup (List.concat (g0 :: gs))). rewrite Hcat.
      eapply Permutation_NoDup; [| exact Hwf].
      symmetry. apply Permutation_map, sorted_clients_perm.
    - eapply choice_In; eassumption. }
  exists a2, m0. split; [reflexivity |]. split; [| now split].
  rewrite Hget2.
  - rewrite Hget1 by exact Htop. apply dict_get_set_same.
  - unfold remaining. rewrite filter_In, negb_true_iff. intros [_ Hfalse].
    assert (Hin : In top (Py.dict_keys a1)).
    { apply Hsub1, dict_set_keys. now left. }
    apply str_in_In in Hin. congruence.
Qed.

(** C1, as amended: on a non-empty registry and a non-empty catalog, the
    first worker of the score-descending order (a worker of highest score)
    is assigned a model whose complexity rank is the maximum over the
    catalog, for every random draw when the registry holds no more workers
    than the catalog holds models, and otherwise whenever the draw in the
    first group selects that worker. *)
Theorem top_worker_gets_top_model
    (rnd : nat -> nat) (catalog : list ModelInfo)
    (clients : Py.dict ClientInfo.t) (top : string) (info : ClientInfo.t) :
  well_formed_registry clients ->
  catalog <> [] ->
  hd_error (sorted_clients_of clients) = Some (top, info) ->
  List.length clients <= List.length catalog
  \/ first_group_selects rnd catalog clients top ->
  (forall c, In c clients ->
             (ClientInfo.score (snd c) <= ClientInfo.score info)%Q)
  /\ exists assignments m,
       assign_models_to_clients rnd catalog clients = Py.Ok assignments
       /\ Py.dict_get assignments top = Some (name m)
       /\ In m catalog
       /\ forall m', In m' catalog ->
                     (complexity_score m' <= complexity_score m)%Z.
Proof.
  intros Hwf Hm Hhd Hsel.
  destruct (sorted_clients_of clients) as [| c rest] eqn:Hsorted;
    [discriminate |].
  cbn in Hhd. injection Hhd as ->.
  assert (Hc : clients <> []).
  { intros ->. discriminate. }
  split.
  - intros c Hin.
    apply (sorted_head_max score_desc (top, info) rest).
    + intros y. apply Qle_refl.
    + rewrite <- Hsorted. apply sorted_clients_sorted.
    + rewrite <- Hsorted.
      eapply Permutation_in; [symmetry; apply sorted_clients_perm | exact Hin].
  - assert (Hfirst : exists g0 gs,
               _create_performance_groups (sorted_clients_of clients)
                 (List.length catalog) = g0 :: gs
               /\ Py.choice (rnd 0) g0 = Py.Ok top).
    { destruct Hsel as [Hle | (g0 & Hg0 & Hch)].
      - rewrite Hsorted.
        destruct (first_group_singleton rnd top info rest
                    (List.length catalog)) as (gs & -> & Hch).
        + rewrite <- Hsorted.
          now rewrite (Permutation_length (sorted_clients_perm clients)).
        + now exists [top], gs.
      - rewrite Hsorted in Hg0.
        destruct (_create_performance_groups _ _) as [| g gs] eqn:Hgr;
          [discriminate |].
        injection Hg0 as ->. rewrite Hsorted, Hgr. now exists g0, gs. }
    destruct Hfirst as (g0 & gs & Hgr & Hch).
    now apply (selected_first_keeps_top_model rnd catalog clients top g0 gs).
Qed.

Lemma top_worker_gets_top_model_witness :
  well_formed_registry example_registry
  /\ first_group_selects (fun _ => 0) example_catalog example_registry "A"
  /\ exists assignments m,
       assign_models_to_clients (fun _ => 0) example_catalog example_registry
       = Py.Ok assignments
       /\ Py.dict_get assignments "A" = Some (name m)
       /\ In m example_catalog
       /\ forall m', In m' example_catalog ->
                     (complexity_score m' <= complexity_score m)%Z.
Proof.
  assert (Hwf : well_formed_registry example_registry)
    by (unfold well_formed_registry; cbn; distinct_keys).
  assert (Hsel : first_group_selects (fun _ => 0) example_catalog
                   example_registry "A").
  { exists ["A"; "B"]. split; reflexivity. }
  split; [exact Hwf |]. split; [exact Hsel |].
  refine (proj2 (top_worker_gets_top_model (fun _ => 0) example_catalog
                   example_registry "A" (example_client "10.0.0.1" 90)
                   Hwf _ _ (or_intror Hsel))).
  - discriminate.
  - reflexivity.
Defined.

(** C1 as stated fails: with three workers and two models, the draw that
    selects the second worker of the first group leaves the highest-scoring
    worker "A" to the round-robin, which gives it the smallest model
    (rank 4) while the catalog holds a model of rank 7. *)
Lemma highest_scorer_can_miss_top_model :
  assign_models_to_clients (fun _ => 1) example_catalog example_registry
  = Py.Ok [("B", "large:8b"); ("C", "small:1b"); ("A", "small:1b")]
  /\ (forall c, In c example_registry ->
                (ClientInfo.score (snd c)
                 <= ClientInfo.score (example_client "10.0.0.1" 90))%Q)
  /\ option_map complexity_score (get_model_info example_catalog "small:1b")
     = Some 4%Z
  /\ option_map complexity_score (get_model_info example_catalog "large:8b")
     = Some 7%Z.
Proof.
  split; [reflexivity |]. split; [| split; reflexivity].
  intros c [<- | [<- | [<- | []]]]; cbn; unfold Qle; cbn; lia.
Qed.
End Assignment.

(** ** The dispatch engine *)
Section DispatchFacts.
Import ModelManager.
Variable stub : string -> AIRequest.t -> Py.result AIResponse.t.
Variable ollama_run : string -> string -> option string.
Variable format_final : list Collected.t -> string -> string -> string.
Variable request_id : string.
Variable now : Z.

Local Abbreviation dispatch :=
  (Server.process_distributed_query stub ollama_run format_final
     request_id now).
Local Abbreviation runs_of := (Server.fan_out stub request_id now).
Local Abbreviation run_of :=
  (Server.process_client_request stub request_id now).
Local Abbreviation succeeds := (worker_succeeds stub request_id now).

(** C2, as amended: invoked on an empty registry, the dispatch contacts no
    worker and returns the constant no-workers message as its text, and
    [ProcessRequest] hands that message to the caller in a response whose
    [success] flag is true. *)
Theorem dispatch_without_workers
    (self : Server.t) (prompt : string) (images : list string)
    (request : AIRequest.t) :
  Server.clients self = [] ->
  runs_of self prompt images = []
  /\ dispatch self prompt images = Server.NO_CLIENTS_MESSAGE
  /\ Server.ProcessRequest stub ollama_run format_final request_id now
       self request
     = {| AIResponse.request_id := AIRequest.request_id request;
          AIResponse.success := true;
          AIResponse.response_text := Server.NO_CLIENTS_MESSAGE;
          AIResponse.processing_time := 0;
          AIResponse.client_id := "server";
          AIResponse.model_used := "distributed";
          AIResponse.timestamp := now |}.
Proof.
  intros Hempty.
  unfold Server.ProcessRequest, Server.process_distributed_query,
    Server.fan_out.
  rewrite Hempty. repeat split.
Qed.

Lemma collected_iff_succeeds self prompt images client :
  Server.collected (run_of self prompt images client) <> None
  <-> succeeds self prompt images client = true.
Proof.
  unfold Server.process_client_request, worker_succeeds.
  destruct (Server.build_ai_request _ _ _ _ _ _) as [req |]; cbn;
    [| split; congruence].
  destruct (stub _ req) as [resp |]; cbn; [| split; congruence].
  destruct (AIResponse.success resp); split; congruence.
Qed.

Lemma responses_of_nil (runs : list Server.ClientRun) :
  Server.responses_of runs = []
  <-> Forall (fun r => Server.collected r = None) runs.
Proof.
  unfold Server.responses_of. induction runs as [| r runs IH]; cbn.
  - split; [constructor | reflexivity].
  - destruct (Server.collected r) eqn:E; cbn.
    + split; [discriminate |]. intros H. inversion H. congruence.
    + rewrite IH. split; [now constructor |]. intros H. now inversion H.
Qed.


Lemma build_ai_request_non_vision self prompt images info model_info :
  Server.lookup_assigned self (ClientInfo.assigned_model info)
  = Some model_info ->
  supports_vision model_info = Some false ->
  exists req,
    Server.build_ai_request request_id now self prompt images info = Py.Ok req
    /\ AIRequest.images req = [].
Proof.
  intros Hlookup Hvision. unfold Server.build_ai_request.
  rewrite Hlookup. unfold Server.read_supports_vision. rewrite Hvision.
  cbn. eexists. split; reflexivity.
Qed.


(** Images reach a worker only when its descriptor says [true]. *)
Lemma sent_images_need_vision self prompt images client req :
  Server.sent (run_of self prompt images client) = Some req ->
  AIRequest.images req <> [] ->
  exists model_info,
    Server.lookup_assigned self (ClientInfo.assigned_model (snd client))
    = Some model_info
    /\ supports_vision model_info = Some true
    /\ AIRequest.images req = images.
Proof.
  unfold Server.process_client_request, Server.build_ai_request.
  destruct (Server.lookup_assigned self _) as [model_info |]; cbn.
  - unfold Server.read_supports_vision.
    destruct (supports_vision model_info) as [[|] |] eqn:Ev; cbn.
    + destruct images as [| image images]; cbn;
        destruct (stub _ _); cbn; intros [= <-]; cbn; intros Hne;
        try congruence; exists model_info; repeat split; exact Ev.
    + destruct (stub _ _); cbn; intros [= <-]; cbn; congruence.
    + discriminate.
  - destruct (stub _ _); cbn; intros [= <-]; cbn; congruence.
Qed.
End DispatchFacts.

Lemma dispatch_without_workers_witness :
  Server.clients empty_server = []
  /\ Server.process_distributed_query answering_stub no_ollama summary_only
       "r-1" 0 empty_server "hello" ["aW1hZ2U="]
     = Server.NO_CLIENTS_MESSAGE.
Proof.
  split; [reflexivity |].
  exact (proj1 (proj2 (dispatch_without_workers answering_stub no_ollama
                         summary_only "r-1" 0 empty_server "hello"
                         ["aW1hZ2U="] example_request eq_refl))).
Defined.

(** C2 as stated fails: on an empty registry [ProcessRequest] reports
    success, the no-workers message being the response text. *)
Lemma no_workers_response_reports_success :
  AIResponse.success
    (Server.ProcessRequest unreachable_stub no_ollama summary_only "r-1" 0
       empty_server example_request) = true
  /\ AIResponse.response_text
       (Server.ProcessRequest unreachable_stub no_ollama summary_only "r-1" 0
          empty_server example_request) = Server.NO_CLIENTS_MESSAGE.
Proof. split; reflexivity. Qed.


(** One answering worker is enough for the dispatch to reach the summary. *)
Example dispatch_partial_success :
  Server.process_distributed_query
    (fun address request =>
       if String.eqb address "10.0.0.1:50052"
       then answering_stub address request
       else unreachable_stub address request)
    no_ollama summary_only "r-1" 0 vision_server "hello" []
  = "answer".
Proof. reflexivity. Qed.


(** The vision worker of the same dispatch receives the image. *)
Example vision_worker_gets_images :
  option_map AIRequest.images
    (Server.sent
       (Server.process_client_request answering_stub "r-1" 0 vision_server
          "hello" ["aW1hZ2U="]
          (nth 0 (Server.clients vision_server) ("", text_worker))))
  = Some ["aW1hZ2U="].
Proof. reflexivity. Qed.

(** ** Registration *)
Section Registration.
Import ModelManager.


(** The rebalancing response numbers every group 1 as well. *)
Lemma reassignment_reports_group_one
    (rnd : nat -> nat) (discovered : list ModelInfo) (self : Server.t) :
  Forall (fun a => ClientAssignment.group_number a = 1%Z)
    (ReassignmentResponse.new_assignments
       (snd (Server.ReassignModels rnd discovered self))).
Proof.
  unfold Server.ReassignModels.
  destruct (Server.clients self); [constructor |].
  destruct (assign_models_to_clients rnd discovered _); cbn; [| constructor].
  apply Forall_map, Forall_forall. reflexivity.
Qed.


(** A catalog built by [ModelInfo_init] has no [supports_vision] attribute:
    the registration stores the worker and its assignment, then fails on
    the read of the attribute. *)
Example registration_without_vision_attribute :
  let r := Server.RegisterClient (fun _ => 0) 0
             (server_with _use_default_models []) example_registration in
  RegistrationResponse.success (snd r) = false
  /\ RegistrationResponse.client_group (snd r) = 0%Z
  /\ map fst (Server.clients (fst r)) = ["B"].
Proof. repeat split. Qed.
End Registration.

(* ================================================================== *)
(** * Part III: further properties of the code                         *)
(* ================================================================== *)

(** ** The two phases of the assignment *)
Section AssignmentPhases.
Import ModelManager.

Lemma assign_phases rnd catalog clients :
  clients <> [] -> catalog <> [] ->
  exists a1 a,
    group_phase rnd catalog clients = Py.Ok a1
    /\ assign_remaining catalog (remaining_after a1 clients) 0 a1 = Py.Ok a
    /\ assign_models_to_clients rnd catalog clients = Py.Ok a.
Proof.
  intros Hc Hm. rewrite assign_models_to_clients_unfold by assumption.
  unfold group_phase.
  destruct (assign_groups_spec rnd (sorted_models_of catalog)
              (_create_performance_groups (sorted_clients_of clients)
                 (List.length catalog))
              (groups_nonempty _ _) 0 []) as (a1 & E1 & _).
  destruct (assign_remaining_spec catalog (remaining_after a1 clients) Hm 0 a1)
    as (a & E2 & _).
  exists a1, a. rewrite E1. cbn [Py.bind]. now split.
Qed.

Lemma groups_NoDup clients num_groups :
  well_formed_registry clients -> 0 < num_groups ->
  NoDup (List.concat
           (_create_performance_groups (sorted_clients_of clients) num_groups)).
Proof.
  intros Hwf Hpos. rewrite groups_concat by exact Hpos.
  eapply Permutation_NoDup; [| exact Hwf].
  symmetry. apply Permutation_map, sorted_clients_perm.
Qed.

Lemma remaining_excludes a1 clients w :
  In w (Py.dict_keys a1) -> ~ In w (remaining_after a1 clients).
Proof.
  intros Hin. unfold remaining_after.
  rewrite filter_In, negb_true_iff. intros [_ Hfalse].
  apply str_in_In in Hin. congruence.
Qed.

Lemma getitem_nth_error {T : Type} (seq : list T) (i : nat) (x : T) :
  Py.getitem seq i = Py.Ok x <-> nth_error seq i = Some x.
Proof.
  unfold Py.getitem. destruct (nth_error seq i); split; congruence.
Qed.

(** After the first loop, every group has a member that holds the model
    designated for the group. *)
Lemma assign_groups_selected rnd sm groups :
  Forall (fun g => g <> []) groups ->
  NoDup (List.concat groups) ->
  forall idx a a',
    idx + List.length groups <= List.length sm ->
    assign_groups rnd sm groups idx a = Py.Ok a' ->
    forall j g,
      nth_error groups j = Some g ->
      exists w m,
        In w g /\ nth_error sm (idx + j) = Some m
        /\ Py.dict_get a' w = Some (name m).
Proof.
  induction 1 as [| g0 gs Hg0 Hgs IH]; intros Hnd idx a a' Hlen Hrun j g Hj.
  - destruct j; discriminate.
  - cbn [List.length] in Hlen. cbn [assign_groups] in Hrun.
    assert (Hidx : idx < List.length sm) by lia.
    destruct (Nat.ltb_spec idx (List.length sm)) as [_ | ?]; [| lia].
    destruct (getitem_total sm idx Hidx) as (m & Em & _).
    rewrite Em in Hrun. cbn [Py.bind] in Hrun.
    destruct (choice_total (rnd idx) g0 Hg0) as (x & Ex).
    rewrite Ex in Hrun. cbn [Py.bind] in Hrun.
    cbn [List.concat] in Hnd.
    destruct j as [| j]; cbn [nth_error] in Hj.
    + injection Hj as <-.
      exists x, m. split; [eapply choice_In; eassumption |].
      split; [rewrite Nat.add_0_r; now apply getitem_nth_error |].
      destruct (assign_groups_spec rnd sm gs Hgs (S idx)
                  (Py.dict_set a x (name m)))
        as (a'' & E & _ & _ & _ & _ & Hget).
      rewrite E in Hrun. injection Hrun as <-.
      rewrite Hget.
      * apply dict_get_set_same.
      * apply (NoDup_app_not_in g0); [exact Hnd |].
        eapply choice_In; eassumption.
    + replace (idx + S j) with (S idx + j) by lia.
      apply (IH (NoDup_app_remove_l _ _ Hnd) (S idx)
                (Py.dict_set a x (name m)) a' ltac:(lia) Hrun j g Hj).
Qed.

(** X1: the assignment never raises, and it returns the empty map exactly
    when the registry or the catalog is empty. *)
Theorem assignment_total_empty_iff
    (rnd : nat -> nat) (catalog : list ModelInfo)
    (clients : Py.dict ClientInfo.t) :
  exists assignments,
    assign_models_to_clients rnd catalog clients = Py.Ok assignments
    /\ (assignments = [] <-> clients = [] \/ catalog = []).
Proof.
  destruct clients as [| c cs].
  { exists []. split; [reflexivity | intuition]. }
  destruct catalog as [| m ms].
  { exists []. split; [reflexivity | intuition]. }
  destruct (assign_phases rnd (m :: ms) (c :: cs)) as (a1 & a & _ & E2 & E);
    try discriminate.
  exists a. split; [exact E |].
  split; [| intros [H | H]; discriminate].
  intros ->.
  destruct (assign_remaining_spec (m :: ms) (remaining_after a1 (c :: cs))
              ltac:(discriminate) 0 a1) as (a' & E' & Hkeys & _).
  rewrite E2 in E'. injection E' as <-.
  exfalso.
  assert (Hin : In (fst c) (map fst (sorted_clients_of (c :: cs)))).
  { apply sorted_clients_keys. now left. }
  destruct (Py.str_in (fst c) (Py.dict_keys a1)) eqn:Es.
  - apply (proj2 (Hkeys (fst c))). left. now apply str_in_In.
  - apply (proj2 (Hkeys (fst c))). right. unfold remaining_after.
    rewrite filter_In, negb_true_iff. now split.
Qed.

(** X2: every performance group has a member that holds the model
    designated for the group, the model of the same rank in the
    complexity-descending order of the catalog, whatever the draws. *)
Theorem groups_hold_their_models
    (rnd : nat -> nat) (catalog : list ModelInfo)
    (clients : Py.dict ClientInfo.t) :
  well_formed_registry clients ->
  clients <> [] ->
  catalog <> [] ->
  exists assignments,
    assign_models_to_clients rnd catalog clients = Py.Ok assignments
    /\ forall i g,
         nth_error
           (_create_performance_groups (sorted_clients_of clients)
              (List.length catalog)) i = Some g ->
         exists w m,
           In w g
           /\ nth_error (sorted_models_of catalog) i = Some m
           /\ Py.dict_get assignments w = Some (name m).
Proof.
  intros Hwf Hc Hm.
  assert (HG : 0 < List.length catalog)
    by (destruct catalog; [congruence | cbn; lia]).
  destruct (assign_phases rnd catalog clients Hc Hm) as (a1 & a & E1 & E2 & E).
  exists a. split; [exact E |]. intros i g Hi.
  destruct (assign_groups_selected rnd (sorted_models_of catalog) _
              (groups_nonempty _ _) (groups_NoDup clients _ Hwf HG)
              0 [] a1) with (j := i) (g := g) as (w & m & Hw & Hnth & Hget).
  - rewrite groups_length. unfold sorted_models_of.
    rewrite sorted_reverse_length. lia.
  - exact E1.
  - exact Hi.
  - exists w, m. split; [exact Hw |]. split; [exact Hnth |].
    destruct (assign_remaining_spec catalog (remaining_after a1 clients)
                Hm 0 a1) as (a' & E' & _ & _ & _ & Hkeep).
    rewrite E2 in E'. injection E' as <-.
    rewrite Hkeep; [exact Hget |].
    apply remaining_excludes, dict_get_In_keys. eauto.
Qed.

Lemma groups_hold_their_models_witness :
  well_formed_registry example_registry
  /\ exists assignments,
       assign_models_to_clients (fun _ => 1) example_catalog example_registry
       = Py.Ok assignments
       /\ exists w m,
            In w ["A"; "B"]
            /\ nth_error (sorted_models_of example_catalog) 0 = Some m
            /\ Py.dict_get assignments w = Some (name m).
Proof.
  assert (Hwf : well_formed_registry example_registry)
    by (unfold well_formed_registry; cbn; distinct_keys).
  split; [exact Hwf |].
  destruct (groups_hold_their_models (fun _ => 1) example_catalog
              example_registry Hwf ltac:(discriminate) ltac:(discriminate))
    as (a & E & H).
  exists a. split; [exact E |]. exact (H 0 ["A"; "B"] eq_refl).
Defined.

Lemma assign_remaining_round_robin catalog remaining :
  catalog <> [] ->
  NoDup remaining ->
  forall i a a',
    assign_remaining catalog remaining i a = Py.Ok a' ->
    forall k w,
      nth_error remaining k = Some w ->
      exists m,
        nth_error catalog ((i + k) mod List.length catalog) = Some m
        /\ Py.dict_get a' w = Some (name m).
Proof.
  intros Hcat. induction 1 as [| cid remaining Hnotin Hnd IH];
    intros i a a' Hrun k w Hk.
  - destruct k; discriminate.
  - cbn [assign_remaining] in Hrun.
    assert (Hlt : i mod List.length catalog < List.length catalog).
    { apply Nat.mod_upper_bound.
      destruct catalog; [congruence | discriminate]. }
    destruct (getitem_total catalog _ Hlt) as (m & Em & _).
    rewrite Em in Hrun. cbn [Py.bind] in Hrun.
    destruct k as [| k]; cbn [nth_error] in Hk.
    + injection Hk as <-. exists m.
      split; [rewrite Nat.add_0_r; now apply getitem_nth_error |].
      destruct (assign_remaining_spec catalog remaining Hcat (S i)
                  (Py.dict_set a cid (name m)))
        as (a'' & E & _ & _ & _ & Hkeep).
      rewrite E in Hrun. injection Hrun as <-.
      rewrite Hkeep by exact Hnotin. apply dict_get_set_same.
    + replace (i + S k) with (S i + k) by lia.
      eapply IH; eassumption.
Qed.

(** X3: the workers that the first loop selected keep their designated
    model, and the others, taken in score order, receive the models of the
    catalog in catalog order, round-robin: the [k]-th of them holds
    [available_models[k mod G]]. *)
Theorem unselected_workers_round_robin
    (rnd : nat -> nat) (catalog : list ModelInfo)
    (clients : Py.dict ClientInfo.t) (selected : Py.dict string) :
  well_formed_registry clients ->
  clients <> [] ->
  catalog <> [] ->
  group_phase rnd catalog clients = Py.Ok selected ->
  exists assignments,
    assign_models_to_clients rnd catalog clients = Py.Ok assignments
    /\ (forall w, In w (Py.dict_keys selected) ->
                  Py.dict_get assignments w = Py.dict_get selected w)
    /\ (forall k w,
          nth_error (remaining_after selected clients) k = Some w ->
          exists m,
            nth_error catalog (k mod List.length catalog) = Some m
            /\ Py.dict_get assignments w = Some (name m)).
Proof.
  intros Hwf Hc Hm Hsel.
  destruct (assign_phases rnd catalog clients Hc Hm) as (a1 & a & E1 & E2 & E).
  rewrite Hsel in E1. injection E1 as <-.
  exists a. split; [exact E |]. split.
  - intros w Hw.
    destruct (assign_remaining_spec catalog (remaining_after selected clients)
                Hm 0 selected) as (a' & E' & _ & _ & _ & Hkeep).
    rewrite E2 in E'. injection E' as <-.
    apply Hkeep. now apply remaining_excludes.
  - intros k w Hk.
    apply (assign_remaining_round_robin catalog
             (remaining_after selected clients) Hm) with (i := 0) (a := selected)
             (k := k); [| exact E2 | exact Hk].
    unfold remaining_after. apply NoDup_filter.
    eapply Permutation_NoDup; [| exact Hwf].
    symmetry. apply Permutation_map, sorted_clients_perm.
Qed.

Lemma unselected_workers_round_robin_witness :
  well_formed_registry example_registry
  /\ group_phase (fun _ => 1) example_catalog example_registry
     = Py.Ok [("B", "large:8b"); ("C", "small:1b")]
  /\ remaining_after [("B", "large:8b"); ("C", "small:1b")] example_registry
     = ["A"]
  /\ exists assignments,
       assign_models_to_clients (fun _ => 1) example_catalog example_registry
       = Py.Ok assignments
       /\ exists m,
            nth_error example_catalog (0 mod 2) = Some m
            /\ Py.dict_get assignments "A" = Some (name m).
Proof.
  assert (Hwf : well_formed_registry example_registry)
    by (unfold well_formed_registry; cbn; distinct_keys).
  split; [exact Hwf |]. split; [reflexivity |]. split; [reflexivity |].
  destruct (unselected_workers_round_robin (fun _ => 1) example_catalog
              example_registry [("B", "large:8b"); ("C", "small:1b")]
              Hwf ltac:(discriminate) ltac:(discriminate) eq_refl)
    as (a & E & _ & H).
  exists a. split; [exact E |]. exact (H 0 "A" eq_refl).
Defined.

Lemma dict_set_fresh {V : Type} (d : Py.dict V) (k : string) (v : V) :
  ~ In k (Py.dict_keys d) -> Py.dict_set d k v = d ++ [(k, v)].
Proof.
  unfold Py.dict_keys. induction d as [| [k0 v0] d IH]; cbn; intros Hk.
  - reflexivity.
  - destruct (String.eqb_spec k0 k) as [-> | Hne]; [tauto |].
    rewrite IH; [reflexivity | tauto].
Qed.

Lemma skipn_nth_error {T : Type} (l : list T) (i : nat) (x : T) :
  nth_error l i = Some x -> skipn i l = x :: skipn (S i) l.
Proof.
  revert i. induction l as [| y l IH]; intros [| i] H; try discriminate.
  - now injection H as ->.
  - cbn in H. cbn [skipn]. rewrite (IH i H). reflexivity.
Qed.

Lemma combine_keys {T U : Type} (l1 : list T) (l2 : list U) :
  List.length l1 <= List.length l2 -> map fst (combine l1 l2) = l1.
Proof.
  revert l2. induction l1 as [| x l1 IH]; intros [| y l2] Hlen; cbn in *;
    try reflexivity; try lia.
  rewrite IH; [reflexivity | lia].
Qed.

(** Groups of one worker each: the loop pairs the workers with the models
    in order, and no draw matters. *)
Lemma assign_groups_singletons rnd sm ids :
  NoDup ids ->
  forall idx a,
    (forall k, In k ids -> ~ In k (Py.dict_keys a)) ->
    idx + List.length ids <= List.length sm ->
    assign_groups rnd sm (map (fun k => [k]) ids) idx a
    = Py.Ok (a ++ combine ids (map name (skipn idx sm))).
Proof.
  induction 1 as [| k ids Hnotin Hnd IH]; intros idx a Hfresh Hlen.
  - cbn. now rewrite app_nil_r.
  - cbn [List.length] in Hlen. cbn [map assign_groups].
    assert (Hidx : idx < List.length sm) by lia.
    destruct (Nat.ltb_spec idx (List.length sm)) as [_ | ?]; [| lia].
    destruct (getitem_total sm idx Hidx) as (m & Em & _).
    rewrite Em. cbn [Py.bind].
    assert (Ech : Py.choice (rnd idx) [k] = Py.Ok k).
    { unfold Py.choice. cbn [List.length]. now rewrite Nat.mod_1_r. }
    rewrite Ech. cbn [Py.bind].
    rewrite dict_set_fresh by (apply Hfresh; now left).
    rewrite IH.
    + apply getitem_nth_error in Em.
      rewrite (skipn_nth_error sm idx m Em). cbn [map combine].
      now rewrite <- app_assoc.
    + intros k' Hk' Hin. unfold Py.dict_keys in Hin.
      rewrite map_app in Hin. apply in_app_or in Hin.
      destruct Hin as [Hin | [<- | []]].
      * apply (Hfresh k'); [now right | exact Hin].
      * contradiction.
    + lia.
Qed.

Lemma filter_known_empty (known l : list string) :
  (forall x, In x l -> In x known) ->
  filter (fun cid => negb (Py.str_in cid known)) l = [].
Proof.
  induction l as [| x l IH]; intros Hsub; [reflexivity |].
  cbn [filter].
  assert (Hx : Py.str_in x known = true).
  { apply str_in_In, Hsub. now left. }
  rewrite Hx. cbn. apply IH. intros y Hy. apply Hsub. now right.
Qed.

(** X4: when the registry holds no more workers than the catalog holds
    models, the assignment pairs the workers in score-descending order with
    the models in complexity-descending order, one each, and no random draw
    changes it. *)
Theorem assignment_one_model_each
    (rnd : nat -> nat) (catalog : list ModelInfo)
    (clients : Py.dict ClientInfo.t) :
  well_formed_registry clients ->
  List.length clients <= List.length catalog ->
  assign_models_to_clients rnd catalog clients
  = Py.Ok (combine (map fst (sorted_clients_of clients))
             (map name (sorted_models_of catalog))).
Proof.
  intros Hwf Hlen.
  destruct clients as [| c cs]; [reflexivity |].
  destruct catalog as [| m ms]; [cbn in Hlen; lia |].
  remember (c :: cs) as clients eqn:Hcl.
  remember (m :: ms) as catalog eqn:Hcat.
  assert (Hc : clients <> []) by (subst; discriminate).
  assert (Hm : catalog <> []) by (subst; discriminate).
  clear Hcl Hcat c cs m ms.
  rewrite assign_models_to_clients_unfold by assumption.
  assert (HN : List.length (sorted_clients_of clients) = List.length clients)
    by apply Permutation_length, sorted_clients_perm.
  assert (HG : List.length (sorted_models_of catalog) = List.length catalog)
    by apply sorted_reverse_length.
  assert (Hgroups :
            _create_performance_groups (sorted_clients_of clients)
              (List.length catalog)
            = map (fun k => [k]) (map fst (sorted_clients_of clients))).
  { unfold _create_performance_groups.
    destruct (List.length catalog) as [| g] eqn:Eg;
      [destruct catalog; [congruence | discriminate] |].
    destruct (sorted_clients_of clients) as [| s ss] eqn:Es;
      [destruct clients; [congruence | discriminate] |].
    destruct (Nat.leb_spec (List.length (s :: ss)) (S g)) as [_ | Hgt].
    - now rewrite map_map.
    - lia. }
  rewrite Hgroups.
  rewrite assign_groups_singletons.
  - cbn [Py.bind app skipn].
    rewrite filter_known_empty; [reflexivity |].
    intros x Hx. unfold Py.dict_keys.
    rewrite combine_keys; [exact Hx |].
    rewrite !length_map. lia.
  - eapply Permutation_NoDup; [| exact Hwf].
    symmetry. apply Permutation_map, sorted_clients_perm.
  - intros k _ [].
  - rewrite length_map. lia.
Qed.

Lemma assignment_one_model_each_witness :
  well_formed_registry example_registry
  /\ List.length example_registry
     <= List.length _use_default_models
  /\ assign_models_to_clients (fun _ => 7) _use_default_models
       example_registry
     = Py.Ok [("A", "llama3.1:8b"); ("B", "llama3.2:3b");
              ("C", "llama3.2:1b")].
Proof.
  assert (Hwf : well_formed_registry example_registry)
    by (unfold well_formed_registry; cbn; distinct_keys).
  assert (Hlen : List.length example_registry
                 <= List.length _use_default_models) by (cbn; lia).
  split; [exact Hwf |]. split; [exact Hlen |].
  exact (assignment_one_model_each (fun _ => 7) _use_default_models
           example_registry Hwf Hlen).
Defined.

(** The keys and the values of a completed assignment. *)
Lemma assignment_keys rnd catalog clients a :
  clients <> [] -> catalog <> [] ->
  assign_models_to_clients rnd catalog clients = Py.Ok a ->
  (forall k, In k (Py.dict_keys a) <-> In k (Py.dict_keys clients))
  /\ NoDup (Py.dict_keys a)
  /\ values_from catalog a.
Proof.
  intros Hc Hm Ha.
  assert (HG : 0 < List.length catalog)
    by (destruct catalog; [congruence | cbn; lia]).
  destruct (assign_phases rnd catalog clients Hc Hm) as (a1 & a' & E1 & E2 & E).
  rewrite Ha in E. injection E as <-.
  unfold group_phase in E1.
  destruct (assign_groups_spec rnd (sorted_models_of catalog) _
              (groups_nonempty (sorted_clients_of clients)
                 (List.length catalog)) 0 [])
    as (b1 & F1 & _ & Hsup1 & Hnd1 & Hval1 & _).
  rewrite E1 in F1. injection F1 as <-.
  destruct (assign_remaining_spec catalog (remaining_after a1 clients) Hm 0 a1)
    as (b & F2 & Hkeys2 & Hnd2 & Hval2 & _).
  rewrite E2 in F2. injection F2 as <-.
  split; [| split].
  - intros k. rewrite Hkeys2. unfold remaining_after.
    rewrite filter_In, negb_true_iff, sorted_clients_keys. split.
    + intros [Hin | [Hin _]]; [| exact Hin].
      destruct (Hsup1 k Hin) as [[] | Hg].
      rewrite groups_concat in Hg by exact HG.
      now apply sorted_clients_keys.
    + intros Hin. destruct (Py.str_in k (Py.dict_keys a1)) eqn:Es.
      * left. now apply str_in_In.
      * right. now split.
  - apply Hnd2, Hnd1. constructor.
  - apply Hval2, values_from_sorted, Hval1. intros k w Hk. discriminate.
Qed.

(** X5: after an assignment on a non-empty registry and catalog, the
    manager stores one entry per worker: [get_stats] reports as many
    assignments as the registry has workers. *)
Theorem stats_count_every_worker
    (rnd : nat -> nat) (self : SmartModelManager)
    (clients : Py.dict ClientInfo.t) (assignments : Py.dict string) :
  well_formed_registry clients ->
  clients <> [] ->
  available_models self <> [] ->
  assign_models_to_clients rnd (available_models self) clients
  = Py.Ok assignments ->
  total_assignments
    (get_stats (store_model_assignments self clients assignments))
  = List.length clients
  /\ total_models
       (get_stats (store_model_assignments self clients assignments))
     = List.length (available_models self).
Proof.
  intros Hwf Hc Hm Ha.
  destruct (assignment_keys rnd _ _ _ Hc Hm Ha) as (Hkeys & Hnd & _).
  unfold store_model_assignments.
  destruct clients as [| c cs]; [congruence |].
  destruct (available_models self) as [| m ms] eqn:Em; [congruence |].
  cbn [get_stats total_assignments total_models model_assignments
       available_models].
  split; [| reflexivity].
  rewrite <- (length_map fst assignments), <- (length_map fst (c :: cs)).
  apply Permutation_length, NoDup_Permutation; assumption.
Qed.

Lemma stats_count_every_worker_witness :
  well_formed_registry example_registry
  /\ total_assignments
       (get_stats
          (store_model_assignments
             {| available_models := example_catalog; model_assignments := [] |}
             example_registry
             [("B", "large:8b"); ("C", "small:1b"); ("A", "small:1b")]))
     = 3.
Proof.
  assert (Hwf : well_formed_registry example_registry)
    by (unfold well_formed_registry; cbn; distinct_keys).
  split; [exact Hwf |].
  exact (proj1 (stats_count_every_worker (fun _ => 1)
                  {| available_models := example_catalog;
                     model_assignments := [] |}
                  example_registry
                  [("B", "large:8b"); ("C", "small:1b"); ("A", "small:1b")]
                  Hwf ltac:(discriminate) ltac:(discriminate) eq_refl)).
Defined.
End AssignmentPhases.

(** ** [sorted(..., key=...)] and [list.sort] *)
Section SortedAscendingFacts.
Context {A K : Type} (leb : K -> K -> bool) (key : A -> K).
Hypothesis leb_total : forall a b, leb a b = true \/ leb b a = true.
Hypothesis leb_trans :
  forall a b c, leb a b = true -> leb b c = true -> leb a c = true.

Lemma insert_asc_perm (x : A) (l : list A) :
  Permutation (Py.insert_asc leb key x l) (x :: l).
Proof.
  induction l as [| y l IH]; cbn.
  - reflexivity.
  - destruct (leb (key x) (key y)).
    + reflexivity.
    + rewrite IH. apply perm_swap.
Qed.

Lemma sorted_by_perm (l : list A) : Permutation (Py.sorted_by leb key l) l.
Proof.
  induction l as [| x l IH]; cbn.
  - constructor.
  - rewrite insert_asc_perm. now constructor.
Qed.

Lemma insert_asc_sorted (x : A) (l : list A) :
  StronglySorted (Py.asc leb key) l ->
  StronglySorted (Py.asc leb key) (Py.insert_asc leb key x l).
Proof.
  induction 1 as [| y l Hs IH Hall]; cbn.
  - repeat constructor.
  - destruct (leb (key x) (key y)) eqn:E.
    + constructor; [now constructor |].
      constructor; [exact E |].
      eapply Forall_impl; [| exact Hall].
      intros z Hz. unfold Py.asc in *. eauto.
    + constructor; [exact IH |].
      assert (Hyx : Py.asc leb key y x).
      { unfold Py.asc. destruct (leb_total (key x) (key y)); congruence. }
      eapply Permutation_Forall; [symmetry; apply insert_asc_perm |].
      now constructor.
Qed.

Lemma sorted_by_sorted (l : list A) :
  StronglySorted (Py.asc leb key) (Py.sorted_by leb key l).
Proof.
  induction l as [| x l IH]; cbn.
  - constructor.
  - now apply insert_asc_sorted.
Qed.

Lemma sorted_by_In (x : A) (l : list A) :
  In x (Py.sorted_by leb key l) <-> In x l.
Proof.
  split; apply Permutation_in;
    [apply sorted_by_perm | symmetry; apply sorted_by_perm].
Qed.

Lemma sorted_by_Forall (P : A -> Prop) (l : list A) :
  Forall P l -> Forall P (Py.sorted_by leb key l).
Proof. apply Permutation_Forall. symmetry. apply sorted_by_perm. Qed.
End SortedAscendingFacts.

(** ** The model catalog: parsing identifiers *)
Section Parsing.
Import ModelManager.

Lemma span_digits_spec (s ds rest : string) :
  Py.span_digits s = (ds, rest) ->
  s = (ds ++ rest)%string /\ all_digits ds = true.
Proof.
  revert ds rest. induction s as [| c s IH]; cbn; intros ds rest H.
  - injection H as <- <-. now split.
  - destruct (Py.is_digit c) eqn:Ec.
    + destruct (Py.span_digits s) as [ds' rest'].
      injection H as <- <-.
      destruct (IH ds' rest' eq_refl) as [-> Hd].
      cbn. rewrite Ec. now split.
    + injection H as <- <-. now split.
Qed.

Lemma uint_of_digit (c : ascii) (d : Decimal.uint) :
  Py.is_digit c = true -> exists d', uint_of_char c (Some d) = Some d'.
Proof.
  destruct c as [[|] [|] [|] [|] [|] [|] [|] [|]]; cbn;
    try discriminate; eauto.
Qed.

Lemma uint_of_digits (ds : string) :
  all_digits ds = true -> exists d, NilEmpty.uint_of_string ds = Some d.
Proof.
  induction ds as [| c ds IH]; cbn; intros H.
  - eauto.
  - apply andb_true_iff in H. destruct H as [Hc Hds].
    destruct (IH Hds) as [d ->]. now apply uint_of_digit.
Qed.

Lemma Z_of_uint_nonneg (d : Decimal.uint) : (0 <= Z.of_uint d)%Z.
Proof. unfold Z.of_uint. apply N2Z.is_nonneg. Qed.

(** [int] succeeds on a non-empty run of digits. *)
Lemma int_of_digits (ds : string) :
  all_digits ds = true -> ds <> EmptyString ->
  exists n, Py.int_of_str ds = Some n /\ (0 <= n)%Z.
Proof.
  intros Hd Hne. unfold Py.int_of_str, NilZero.uint_of_string.
  destruct ds as [| c ds]; [congruence |].
  destruct (uint_of_digits _ Hd) as [d ->]. cbn.
  eexists. split; [reflexivity | apply Z_of_uint_nonneg].
Qed.

Lemma digits_then_spec (c : ascii) (s ds rest : string) :
  digits_then c s = Some (ds, rest) ->
  s = (ds ++ String c rest)%string
  /\ all_digits ds = true /\ ds <> EmptyString.
Proof.
  unfold digits_then.
  destruct (Py.span_digits s) as [ds' rest'] eqn:E.
  apply span_digits_spec in E. destruct E as [-> Hd].
  destruct ds' as [| d ds']; [discriminate |].
  destruct rest' as [| c' rest']; [discriminate |].
  destruct (Ascii.eqb_spec c' c) as [-> | ?]; [| discriminate].
  intros [= <- <-]. repeat split; [exact Hd | discriminate].
Qed.

(** The extractor of a pattern never fails on the groups of its match, and
    gives a whole, non-negative number of billions. *)
Lemma extractor_on_match (p : known_pattern) (s : string) (groups : list string) :
  match_at p s = Some groups ->
  exists k, (0 <= k)%Z
            /\ param_extractor p groups = Some (k * 1000000000)%Z.
Proof.
  destruct p as [lit | lit]; cbn.
  - destruct (Py.strip_prefix lit s) as [s1 |]; [| discriminate].
    destruct (digits_then "b" s1) as [[g1 r1] |] eqn:E1; [| discriminate].
    intros [= <-]. apply digits_then_spec in E1.
    destruct E1 as (_ & Hd & Hne).
    destruct (int_of_digits g1 Hd Hne) as (n & -> & Hn).
    exists n. now split.
  - destruct (Py.strip_prefix lit s) as [s1 |]; [| discriminate].
    destruct (digits_then "x" s1) as [[g1 s2] |] eqn:E1; [| discriminate].
    destruct (digits_then "b" s2) as [[g2 r2] |] eqn:E2; [| discriminate].
    intros [= <-]. apply digits_then_spec in E1, E2.
    destruct E1 as (_ & Hd1 & Hne1). destruct E2 as (_ & Hd2 & Hne2).
    destruct (int_of_digits g1 Hd1 Hne1) as (a & -> & Ha).
    destruct (int_of_digits g2 Hd2 Hne2) as (b & -> & Hb).
    exists (a * b)%Z. split; [nia | reflexivity].
Qed.

Lemma re_search_match (p : known_pattern) (s : string) (groups : list string) :
  re_search p s = Some groups ->
  exists pre t, s = (pre ++ t)%string /\ match_at p t = Some groups.
Proof.
  induction s as [| c s IH]; cbn [re_search].
  - destruct (match_at p "") eqn:E; [| discriminate].
    intros [= <-]. now exists "", "".
  - destruct (match_at p (String c s)) eqn:E.
    + intros [= <-]. now exists "", (String c s).
    + intros H. destruct (IH H) as (pre & t & -> & Ht).
      now exists (String c pre), t.
Qed.

Lemma first_known_match_spec patterns s p groups :
  first_known_match patterns s = Some (p, groups) ->
  re_search p s = Some groups.
Proof.
  induction patterns as [| q patterns IH]; cbn; [discriminate |].
  destruct (re_search q s) eqn:E; [| exact IH].
  now intros [= <- <-].
Qed.

Lemma complexity_of_parameters_range (p : Z) :
  (1 <= complexity_of_parameters p <= 10)%Z.
Proof.
  unfold complexity_of_parameters.
  repeat match goal with
         | |- context [if ?c then _ else _] => destruct c
         end; lia.
Qed.

(** A model built with [complexity_score = 0] gets the rank of its
    parameter count. *)
Lemma ModelInfo_init_auto (n : string) (p : Z) (s : Q) :
  ModelInfo_init n p s 0
  = {| name := n; parameters := p; size_gb := s;
       complexity_score := complexity_of_parameters p;
       supports_vision := None |}.
Proof. reflexivity. Qed.

Lemma parse_result model_name m :
  _parse_model_info model_name = Some m ->
  exists k,
    (0 <= k)%Z
    /\ m = ModelInfo_init model_name (k * 1000000000)
             (_estimate_model_size (k * 1000000000)) 0.
Proof.
  unfold _parse_model_info.
  destruct (first_known_match known_models (Py.lower model_name))
    as [[p groups] |] eqn:E.
  - apply first_known_match_spec, re_search_match in E.
    destruct E as (pre & t & _ & Ht).
    destruct (extractor_on_match p t groups Ht) as (k & Hk & ->).
    intros [= <-]. now exists k.
  - destruct (re_search (Billions "") (Py.lower model_name)) as [groups |] eqn:E2;
      [| discriminate].
    apply re_search_match in E2. destruct E2 as (pre & t & _ & Ht).
    destruct (extractor_on_match _ t groups Ht) as (k & Hk & ->).
    intros [= <-]. now exists k.
Qed.

(** X6: a model that [_parse_model_info] returns carries the identifier
    unchanged, a whole non-negative number of billions of parameters, the
    rank that this count gives (between 1 and 10, never below 4 unless the
    count is 0), and the estimated size of that count. *)
Theorem parsed_model_shape (model_name : string) (m : ModelInfo) :
  _parse_model_info model_name = Some m ->
  name m = model_name
  /\ (exists k, (0 <= k)%Z /\ parameters m = (k * 1000000000)%Z)
  /\ rank_consistent m
  /\ (1 <= complexity_score m <= 10)%Z
  /\ (parameters m = 0%Z \/ 4 <= complexity_score m)%Z
  /\ size_gb m = _estimate_model_size (parameters m).
Proof.
  intros H. destruct (parse_result _ _ H) as (k & Hk & ->).
  rewrite ModelInfo_init_auto. cbn [name parameters complexity_score size_gb].
  split; [reflexivity |]. split; [now exists k |].
  split; [reflexivity |]. split; [apply complexity_of_parameters_range |].
  split; [| reflexivity].
  destruct (Z.eq_dec k 0) as [-> | Hne]; [now left | right].
  unfold complexity_of_parameters.
  repeat match goal with
         | |- context [(?a >=? ?b)%Z] => destruct (Z.geb_spec a b)
         end; lia.
Qed.

Lemma parsed_model_shape_witness :
  _parse_model_info "Mixtral:8x7b"
  = Some (ModelInfo_init "Mixtral:8x7b" 56000000000
            (_estimate_model_size 56000000000) 0)
  /\ (1 <= complexity_score
             (ModelInfo_init "Mixtral:8x7b" 56000000000
                (_estimate_model_size 56000000000) 0) <= 10)%Z.
Proof.
  split; [reflexivity |].
  exact (proj1 (proj2 (proj2 (proj2
           (parsed_model_shape "Mixtral:8x7b"
              (ModelInfo_init "Mixtral:8x7b" 56000000000
                 (_estimate_model_size 56000000000) 0) eq_refl))))).
Defined.

Lemma string_app_assoc (a b c : string) :
  ((a ++ b) ++ c)%string = (a ++ (b ++ c))%string.
Proof. induction a as [| x a IH]; cbn; [reflexivity | now rewrite IH]. Qed.

Lemma strip_prefix_spec (pre s rest : string) :
  Py.strip_prefix pre s = Some rest <-> s = (pre ++ rest)%string.
Proof.
  revert s. induction pre as [| a pre IH]; intros s; cbn.
  - split; [now intros [= ->] | now intros ->].
  - destruct s as [| b s]; [split; discriminate |].
    destruct (Ascii.eqb_spec a b) as [-> | Hne].
    + rewrite IH. split; [now intros -> | now intros [= ->]].
    + split; [discriminate | intros [= -> _]; congruence].
Qed.

Lemma re_search_complete (p : known_pattern) (pre t : string)
    (groups : list string) :
  match_at p t = Some groups ->
  exists groups', re_search p (pre ++ t)%string = Some groups'.
Proof.
  intros Ht. induction pre as [| c pre IH].
  - cbn [append]. destruct t; cbn [re_search]; rewrite Ht; eauto.
  - cbn [append re_search].
    destruct (match_at p (String c (pre ++ t))); eauto.
Qed.

(** A match of a known pattern contains a match of the fallback
    expression. *)
Lemma known_match_has_digit_b (p : known_pattern) (t : string)
    (groups : list string) :
  match_at p t = Some groups ->
  exists pre t' groups',
    t = (pre ++ t')%string /\ match_at (Billions "") t' = Some groups'.
Proof.
  destruct p as [lit | lit]; cbn.
  - destruct (Py.strip_prefix lit t) as [s1 |] eqn:E; [| discriminate].
    apply strip_prefix_spec in E. subst t.
    destruct (digits_then "b" s1) as [[g1 r1] |] eqn:E1; [| discriminate].
    intros _. exists lit, s1, [g1]. split; [reflexivity |].
    cbn. now rewrite E1.
  - destruct (Py.strip_prefix lit t) as [s1 |] eqn:E; [| discriminate].
    apply strip_prefix_spec in E. subst t.
    destruct (digits_then "x" s1) as [[g1 s2] |] eqn:E1; [| discriminate].
    destruct (digits_then "b" s2) as [[g2 r2] |] eqn:E2; [| discriminate].
    intros _. apply digits_then_spec in E1. destruct E1 as (-> & _).
    exists (lit ++ g1 ++ "x")%string, s2, [g2]. split.
    + rewrite !string_app_assoc. reflexivity.
    + cbn. now rewrite E2.
Qed.

Lemma parse_none_iff_search model_name :
  _parse_model_info model_name = None
  <-> re_search (Billions "") (Py.lower model_name) = None.
Proof.
  unfold _parse_model_info.
  destruct (first_known_match known_models (Py.lower model_name))
    as [[p groups] |] eqn:E.
  - apply first_known_match_spec, re_search_match in E.
    destruct E as (pre & t & Hs & Ht).
    destruct (extractor_on_match p t groups Ht) as (k & _ & ->).
    split; [discriminate |]. intros Hnone. exfalso.
    destruct (known_match_has_digit_b p t groups Ht)
      as (pre' & t' & groups' & -> & Ht').
    destruct (re_search_complete (Billions "") (pre ++ pre') t' groups' Ht')
      as (g & Hg).
    rewrite string_app_assoc, <- Hs in Hg. congruence.
  - destruct (re_search (Billions "") (Py.lower model_name)) as [groups |] eqn:E2;
      [| tauto].
    apply re_search_match in E2. destruct E2 as (pre & t & _ & Ht).
    destruct (extractor_on_match _ t groups Ht) as (k & _ & ->).
    split; discriminate.
Qed.

Lemma last_digit (ds : string) :
  all_digits ds = true -> ds <> EmptyString ->
  exists ds' c,
    ds = (ds' ++ String c EmptyString)%string /\ Py.is_digit c = true.
Proof.
  induction ds as [| d ds IH]; [congruence |].
  cbn [all_digits]. intros H _. apply andb_true_iff in H.
  destruct H as [Hd Hds].
  destruct ds as [| d' ds].
  - now exists EmptyString, d.
  - destruct (IH Hds ltac:(discriminate)) as (ds' & c & E & Hc).
    exists (String d ds'), c. cbn [append]. now rewrite <- E.
Qed.

Lemma search_finds_digit_b (s : string) :
  re_search (Billions "") s <> None <-> digit_before_b s.
Proof.
  split.
  - destruct (re_search (Billions "") s) as [groups |] eqn:E; [| congruence].
    intros _. apply re_search_match in E.
    destruct E as (pre & t & -> & Ht). cbn in Ht.
    destruct (digits_then "b" t) as [[ds rest] |] eqn:Ed; [| discriminate].
    apply digits_then_spec in Ed. destruct Ed as (-> & Hd & Hne).
    destruct (last_digit ds Hd Hne) as (ds' & c & -> & Hc).
    exists (pre ++ ds')%string, c, rest. split; [| exact Hc].
    now rewrite !string_app_assoc.
  - intros (pre & c & post & -> & Hc).
    assert (Hm : match_at (Billions "") (String c (String "b" post))
                 = Some [String c EmptyString]).
    { cbn [match_at Py.strip_prefix]. unfold digits_then.
      cbn [Py.span_digits]. rewrite Hc.
      change (Py.is_digit "b") with false. cbn. reflexivity. }
    destruct (re_search_complete (Billions "") pre _ _ Hm) as (g & ->).
    discriminate.
Qed.


(** Two identifiers of the same run: one is kept, one is ignored. *)
Example parse_examples :
  option_map parameters (_parse_model_info "deepseek-r1:14b")
  = Some 14000000000%Z
  /\ _parse_model_info "nomic-embed-text:latest" = None.
Proof. split; reflexivity. Qed.

Lemma string_of_uint_digits (d : Decimal.uint) :
  all_digits (NilEmpty.string_of_uint d) = true.
Proof. induction d; cbn; auto. Qed.

(** The decimal text of a non-negative integer: digits only, at least
    one, and [int] reads the integer back. *)
Lemma str_of_Z_digits (n : Z) :
  (0 <= n)%Z ->
  all_digits (Py.str_of_Z n) = true
  /\ Py.str_of_Z n <> EmptyString
  /\ Py.int_of_str (Py.str_of_Z n) = Some n.
Proof.
  intros Hn. destruct n as [| p | p]; [| | lia].
  - repeat split. discriminate.
  - unfold Py.str_of_Z, Z.to_int, NilZero.string_of_int.
    pose proof (DecimalPos.Unsigned.to_uint_nonnil p) as Hnil.
    assert (E : NilZero.string_of_uint (Pos.to_uint p)
                = NilEmpty.string_of_uint (Pos.to_uint p)).
    { unfold NilZero.string_of_uint.
      destruct (Pos.to_uint p); [congruence | reflexivity ..]. }
    split; [rewrite E; apply string_of_uint_digits |].
    split.
    + rewrite E. destruct (Pos.to_uint p); [congruence | discriminate ..].
    + unfold Py.int_of_str. rewrite NilZero.usu by exact Hnil. cbn.
      f_equal. unfold Z.of_uint.
      now rewrite DecimalPos.Unsigned.of_to.
Qed.

Lemma span_digits_app (ds : string) (c : ascii) (rest : string) :
  all_digits ds = true -> Py.is_digit c = false ->
  Py.span_digits (ds ++ String c rest)%string = (ds, String c rest).
Proof.
  intros Hd Hc. induction ds as [| d ds IH]; cbn.
  - now rewrite Hc.
  - cbn in Hd. apply andb_true_iff in Hd. destruct Hd as [Hd Hds].
    rewrite Hd, (IH Hds). reflexivity.
Qed.


End Parsing.

(** ** The model catalog: discovery and custom models *)
Section CatalogInvariants.
Import ModelManager.

Lemma sorted_by_parameters (l : list ModelInfo) :
  StronglySorted by_parameters (Py.sorted_by Z.leb parameters l).
Proof.
  eapply StronglySorted_weaken;
    [| apply sorted_by_sorted; [apply Zleb_total | apply Zleb_trans]].
  intros x y H. unfold Py.asc in H. now apply Z.leb_le in H.
Qed.

(** Along a catalog ordered by parameter count, the ranks do not
    decrease. *)
Lemma parameters_order_is_rank_order (l : list ModelInfo) :
  StronglySorted by_parameters l -> Forall rank_consistent l ->
  StronglySorted by_complexity l.
Proof.
  induction 1 as [| m l Hs IH Hall]; intros Hc; [constructor |].
  inversion Hc as [| ? ? Hm Hl]; subst.
  constructor; [now apply IH |].
  rewrite Forall_forall in *. intros m' Hin.
  unfold by_complexity. rewrite Hm, (Hl m' Hin).
  apply complexity_of_parameters_mono. now apply Hall.
Qed.

Lemma models_found_parsed (stdout : string) :
  Forall (fun m => exists model_name, _parse_model_info model_name = Some m)
         (models_found_in stdout).
Proof.
  unfold models_found_in. apply Forall_flat_map, Forall_forall.
  intros line _.
  destruct (Py.strip line); [constructor |].
  destruct (Py.split_ws line) as [| model_name ws]; [constructor |].
  destruct (_parse_model_info model_name) eqn:E; [| constructor].
  constructor; [eauto | constructor].
Qed.

Lemma parsed_rank_consistent (l : list ModelInfo) :
  Forall (fun m => exists model_name, _parse_model_info model_name = Some m) l ->
  Forall (fun m => rank_consistent m /\ supports_vision m = None) l.
Proof.
  apply Forall_impl. intros m (model_name & H).
  destruct (parse_result _ _ H) as (k & _ & ->).
  rewrite ModelInfo_init_auto. now split.
Qed.

(** X9: whatever [ollama list] does, [discover_available_models] leaves a
    catalog that is not empty, is ordered by ascending parameter count, and
    gives each model the rank of its parameter count, so that the ranks do
    not decrease along the catalog; no model of it has the
    [supports_vision] attribute. *)
Theorem discovered_catalog_invariant (run : ollama_list) :
  let catalog := discover_available_models run in
  catalog <> []
  /\ StronglySorted by_parameters catalog
  /\ Forall rank_consistent catalog
  /\ StronglySorted by_complexity catalog
  /\ Forall (fun m => supports_vision m = None) catalog.
Proof.
  assert (Hdefault :
            _use_default_models <> []
            /\ StronglySorted by_parameters _use_default_models
            /\ Forall rank_consistent _use_default_models
            /\ StronglySorted by_complexity _use_default_models
            /\ Forall (fun m => supports_vision m = None) _use_default_models).
  { split; [discriminate |].
    assert (Hs : StronglySorted by_parameters _use_default_models).
    { repeat constructor; unfold by_parameters; cbn; lia. }
    assert (Hc : Forall rank_consistent _use_default_models)
      by (repeat constructor).
    split; [exact Hs |]. split; [exact Hc |].
    split; [now apply parameters_order_is_rank_order | repeat constructor]. }
  cbv zeta. unfold discover_available_models.
  destruct run as [| returncode stdout]; [exact Hdefault |].
  destruct (negb (returncode =? 0)%Z); [exact Hdefault |].
  pose proof (parsed_rank_consistent _ (models_found_parsed stdout)) as Hp.
  destruct (models_found_in stdout) as [| m ms] eqn:E; [exact Hdefault |].
  set (found := m :: ms) in *.
  assert (Hs : StronglySorted by_parameters (Py.sorted_by Z.leb parameters found))
    by apply sorted_by_parameters.
  assert (Hc : Forall rank_consistent (Py.sorted_by Z.leb parameters found)).
  { apply sorted_by_Forall. eapply Forall_impl; [| exact Hp]. now intros ? []. }
  split.
  - intros Hnil. apply (f_equal (@List.length _)) in Hnil.
    rewrite (Permutation_length (sorted_by_perm Z.leb parameters found)) in Hnil.
    discriminate.
  - split; [exact Hs |]. split; [exact Hc |].
    split; [now apply parameters_order_is_rank_order |].
    apply sorted_by_Forall. eapply Forall_impl; [| exact Hp]. now intros ? [].
Qed.

(** A run that lists two parsable models and one that is not. *)
Example discovery_of_example_output :
  map name (discover_available_models (Completed 0 example_ollama_output))
  = ["llama3.2:1b"; "llama3.1:8b"]
  /\ map name (discover_available_models (Completed 1 example_ollama_output))
     = ["llama3.2:1b"; "llama3.2:3b"; "llama3.1:8b"].
Proof. split; reflexivity. Qed.

Lemma add_custom_model_perm
    (catalog : list ModelInfo) (model_name : string) (p : Z)
    (size : option Q) :
  Permutation (add_custom_model catalog model_name p size)
              (custom_model model_name p size :: catalog).
Proof.
  unfold add_custom_model. fold (custom_model model_name p size).
  rewrite sorted_by_perm. symmetry. apply Permutation_cons_append.
Qed.


Lemma get_model_info_unique (catalog : list ModelInfo) (m : ModelInfo) :
  NoDup (map name catalog) -> In m catalog ->
  get_model_info catalog (name m) = Some m.
Proof.
  unfold get_model_info.
  induction catalog as [| m0 catalog IH]; cbn; intros Hnd Hin; [contradiction |].
  inversion Hnd as [| ? ? Hnotin Hnd']; subst.
  destruct (String.eqb_spec (name m0) (name m)) as [E | Hne].
  - destruct Hin as [-> | Hin]; [reflexivity |].
    exfalso. apply Hnotin. rewrite E. now apply in_map.
  - destruct Hin as [-> | Hin]; [congruence | now apply IH].
Qed.

Lemma get_model_info_none (catalog : list ModelInfo) (n : string) :
  ~ In n (map name catalog) -> get_model_info catalog n = None.
Proof.
  unfold get_model_info.
  induction catalog as [| m0 catalog IH]; cbn; intros Hn; [reflexivity |].
  destruct (String.eqb_spec (name m0) n) as [E | Hne]; [tauto |].
  apply IH. tauto.
Qed.

Lemma get_model_info_some (catalog : list ModelInfo) (n : string) (m : ModelInfo) :
  get_model_info catalog n = Some m -> In m catalog /\ name m = n.
Proof.
  unfold get_model_info. intros H. apply find_some in H.
  destruct H as [Hin E]. now apply String.eqb_eq in E.
Qed.

(** With unique names, the lookup does not depend on the order of the
    catalog. *)
Lemma get_model_info_perm (l l' : list ModelInfo) (n : string) :
  Permutation l l' -> NoDup (map name l) ->
  get_model_info l' n = get_model_info l n.
Proof.
  intros Hperm Hnd.
  assert (Hnd' : NoDup (map name l')).
  { eapply Permutation_NoDup; [apply Permutation_map; exact Hperm | exact Hnd]. }
  destruct (get_model_info l n) as [m |] eqn:E.
  - apply get_model_info_some in E. destruct E as [Hin <-].
    apply get_model_info_unique; [exact Hnd' |].
    eapply Permutation_in; eassumption.
  - destruct (get_model_info l' n) as [m' |] eqn:E'; [| reflexivity].
    apply get_model_info_some in E'. destruct E' as [Hin <-].
    assert (Hin' : In m' l)
      by (eapply Permutation_in; [symmetry; exact Hperm | exact Hin]).
    rewrite (get_model_info_unique l m' Hnd Hin') in E. discriminate.
Qed.


End CatalogInvariants.

(** ** The performance evaluator: order and bounds *)
Section EvaluatorOrder.
Import PerformanceEvaluator.
Local Open Scope Q_scope.

Lemma min_mono_r (a x y : Q) : x <= y -> Py.min a x <= Py.min a y.
Proof.
  intros Hxy. unfold Py.min.
  destruct (Qle_bool a x) eqn:Ex; destruct (Qle_bool a y) eqn:Ey.
  - apply Qle_refl.
  - apply Qle_bool_iff in Ex.
    assert (Hc : a <= y) by (eapply Qle_trans; eassumption).
    apply Qle_bool_iff in Hc. congruence.
  - apply Qle_bool_iff in Ey.
    destruct (Qlt_le_dec x a) as [H | H].
    + now apply Qlt_le_weak.
    + apply Qle_bool_iff in H. congruence.
  - exact Hxy.
Qed.

Lemma min_glb (c a b : Q) : c <= a -> c <= b -> c <= Py.min a b.
Proof. intros Ha Hb. unfold Py.min. now destruct (Qle_bool a b). Qed.

Lemma round_half_even_range (x : Q) :
  (Qfloor x <= Py.round_half_even x <= Qfloor x + 1)%Z.
Proof.
  unfold Py.round_half_even.
  destruct (Qle_bool _ _); [destruct (Qeq_bool _ _);
                            [destruct (Z.even _) |] |]; lia.
Qed.

Lemma Qle_bool_false (a b : Q) : Qle_bool a b = false -> b < a.
Proof.
  intros H. destruct (Qlt_le_dec b a) as [Hlt | Hle]; [exact Hlt |].
  apply Qle_bool_iff in Hle. congruence.
Qed.

Lemma round_half_even_mono (x y : Q) :
  x <= y -> (Py.round_half_even x <= Py.round_half_even y)%Z.
Proof.
  intros Hxy.
  pose proof (Qfloor_resp_le x y Hxy) as Hf.
  destruct (Z.eq_dec (Qfloor x) (Qfloor y)) as [E | Hne].
  - unfold Py.round_half_even. rewrite <- E.
    set (f := Qfloor x). set (rx := x - inject_Z f). set (ry := y - inject_Z f).
    assert (Hr : rx <= ry) by (unfold rx, ry; lra).
    destruct (Qle_bool rx (1 # 2)) eqn:A.
    + apply Qle_bool_iff in A.
      destruct (Qle_bool ry (1 # 2)) eqn:C.
      * apply Qle_bool_iff in C.
        destruct (Qeq_bool rx (1 # 2)) eqn:B.
        -- apply Qeq_bool_iff in B.
           assert (D : ry == 1 # 2) by (apply Qle_antisym; lra).
           apply Qeq_bool_iff in D. rewrite D. lia.
        -- destruct (Qeq_bool ry (1 # 2)); [destruct (Z.even f) |]; lia.
      * destruct (Qeq_bool rx (1 # 2)); [destruct (Z.even f) |]; lia.
    + apply Qle_bool_false in A.
      destruct (Qle_bool ry (1 # 2)) eqn:C; [| lia].
      apply Qle_bool_iff in C. lra.
  - pose proof (round_half_even_range x). pose proof (round_half_even_range y).
    lia.
Qed.

Lemma round1_mono (x y : Q) : x <= y -> Py.round1 x <= Py.round1 y.
Proof.
  intros Hxy. unfold Py.round1.
  assert (H : (Py.round_half_even (x * 10) <= Py.round_half_even (y * 10))%Z)
    by (apply round_half_even_mono; lra).
  rewrite Zle_Qle in H.
  set (a := inject_Z (Py.round_half_even (x * 10))) in *.
  set (b := inject_Z (Py.round_half_even (y * 10))) in *.
  assert (Ea : a / 10 == a * (1 # 10)) by reflexivity.
  assert (Eb : b / 10 == b * (1 # 10)) by reflexivity.
  rewrite Ea, Eb. lra.
Qed.



(** X13: the score never exceeds 100, whatever the input, and on hardware
    quantities that are not negative it is at least 5, the score of an
    unknown GPU. *)
Theorem performance_score_floor_and_ceiling (specs : Specs) :
  _calculate_performance_score specs <= 100
  /\ (nonnegative_specs specs -> 5 <= _calculate_performance_score specs).
Proof.
  split; [apply performance_score_le_100 |].
  intros (Hc & Hf & Hr).
  unfold _calculate_performance_score, calculate_performance_score_body.
  destruct (cpu_cores specs) as [cores |]; [| lra].
  pose proof (gpu_score_of_range (Py.lower (gpu_info specs))) as [Hg _].
  assert (Hg' : 5 <= inject_Z (gpu_score_of (Py.lower (gpu_info specs)))).
  { change 5 with (inject_Z 5). rewrite <- Zle_Qle. lia. }
  assert (Hc' : 0 <= inject_Z cores).
  { change 0 with (inject_Z 0). now rewrite <- Zle_Qle. }
  pose proof (min_nonneg 20 (inject_Z cores * (3 # 2))) as H1.
  pose proof (min_nonneg 20 (cpu_frequency_ghz specs * 6)) as H2.
  pose proof (min_nonneg 30 (ram_gb specs * (3 # 2))) as H3.
  match goal with
  | |- 5 <= Py.round1 (Py.min 100 ?t) =>
      assert (Ht : 5 <= t) by (pose proof (H1 ltac:(lra) ltac:(lra));
                               pose proof (H2 ltac:(lra) ltac:(lra));
                               pose proof (H3 ltac:(lra) ltac:(lra)); lra);
      pose proof (min_le_l 100 t) as H5;
      assert (H4 : 5 <= Py.min 100 t) by (apply min_glb; lra)
  end.
  apply (round1_bounds _ 5 100); assumption.
Qed.

Lemma performance_score_floor_and_ceiling_witness :
  nonnegative_specs fallback_like_specs
  /\ 5 <= _calculate_performance_score fallback_like_specs.
Proof.
  assert (H : nonnegative_specs fallback_like_specs).
  { unfold nonnegative_specs, fallback_like_specs; simpl.
    repeat split; try lia; unfold Qle; simpl; lia. }
  split; [exact H |].
  exact (proj2 (performance_score_floor_and_ceiling fallback_like_specs) H).
Defined.
End EvaluatorOrder.

(** ** The registry after a registration *)
Section RegistryFacts.
Import ModelManager.

Lemma dict_set_existing_keys {V : Type} (d : Py.dict V) (k : string) (v v0 : V) :
  Py.dict_get d k = Some v0 -> Py.dict_keys (Py.dict_set d k v) = Py.dict_keys d.
Proof.
  unfold Py.dict_keys. induction d as [| [k1 v1] d IH]; cbn; [discriminate |].
  destruct (String.eqb_spec k1 k) as [-> | Hne]; cbn.
  - reflexivity.
  - intros H. now rewrite IH.
Qed.

Lemma update_client_assignments_keys clients assignments :
  Py.dict_keys (Server.update_client_assignments clients assignments)
  = Py.dict_keys clients.
Proof.
  unfold Server.update_client_assignments. revert clients.
  induction assignments as [| [k m] assignments IH]; intros clients;
    [reflexivity |].
  cbn [fold_left fst snd]. rewrite IH.
  destruct (Py.dict_get clients k) eqn:E; [| reflexivity].
  eapply dict_set_existing_keys; eassumption.
Qed.

(** What the update loop leaves under each worker ID. *)
Lemma update_client_assignments_get clients assignments k :
  NoDup (Py.dict_keys assignments) ->
  Py.dict_get (Server.update_client_assignments clients assignments) k
  = match Py.dict_get clients k with
    | Some info =>
        match Py.dict_get assignments k with
        | Some m => Some (ClientInfo.set_assigned_model info m)
        | None => Some info
        end
    | None => None
    end.
Proof.
  unfold Server.update_client_assignments. revert clients.
  induction assignments as [| [k0 m0] assignments IH]; intros clients Hnd.
  - cbn. now destruct (Py.dict_get clients k).
  - cbn [Py.dict_keys map fst] in Hnd.
    inversion Hnd as [| ? ? Hnotin Hnd']; subst.
    cbn [fold_left fst snd]. rewrite (IH _ Hnd'). cbn [Py.dict_get].
    destruct (String.eqb_spec k0 k) as [-> | Hne].
    + assert (Hnone : Py.dict_get assignments k = None).
      { destruct (Py.dict_get assignments k) eqn:E; [| reflexivity].
        exfalso. apply Hnotin, dict_get_In_keys. eauto. }
      rewrite Hnone.
      destruct (Py.dict_get clients k) as [info |] eqn:Ec.
      * now rewrite dict_get_set_same.
      * now rewrite Ec.
    + destruct (Py.dict_get clients k0) as [info0 |] eqn:Ec.
      * rewrite dict_get_set_other by congruence. reflexivity.
      * reflexivity.
Qed.

Lemma assign_total rnd catalog clients :
  exists a,
    assign_models_to_clients rnd catalog clients = Py.Ok a
    /\ NoDup (Py.dict_keys a)
    /\ values_from catalog a
    /\ (catalog <> [] ->
        forall k, In k (Py.dict_keys a) <-> In k (Py.dict_keys clients)).
Proof.
  assert (Hnone : values_from catalog []) by (intros k v H; discriminate).
  destruct catalog as [| m ms].
  { exists []. split; [now destruct clients |].
    split; [constructor |]. split; [exact Hnone | congruence]. }
  destruct clients as [| c cs].
  { exists []. split; [reflexivity |].
    split; [constructor |]. split; [exact Hnone | tauto]. }
  destruct (assign_phases rnd (m :: ms) (c :: cs)) as (a1 & a & _ & _ & E);
    try discriminate.
  destruct (assignment_keys rnd (m :: ms) (c :: cs) a ltac:(discriminate)
              ltac:(discriminate) E) as (Hk & Hnd & Hv).
  exists a. repeat split; try assumption; now apply Hk.
Qed.

(** The registry that [RegisterClient] leaves, on both of its paths. *)
Lemma register_client_registry rnd now self request :
  exists a,
    assign_models_to_clients rnd (available_models (Server.model_manager self))
      (registry_with now self request) = Py.Ok a
    /\ Server.clients (fst (Server.RegisterClient rnd now self request))
       = Server.update_client_assignments (registry_with now self request) a
    /\ available_models
         (Server.model_manager (fst (Server.RegisterClient rnd now self request)))
       = available_models (Server.model_manager self).
Proof.
  destruct (assign_total rnd (available_models (Server.model_manager self))
              (registry_with now self request)) as (a & E & _).
  exists a. split; [exact E |].
  unfold Server.RegisterClient. cbv zeta.
  fold (registered_record now request). fold (registry_with now self request).
  rewrite E.
  assert (Hstore : available_models
                     (store_model_assignments (Server.model_manager self)
                        (registry_with now self request) a)
                   = available_models (Server.model_manager self)).
  { unfold store_model_assignments.
    destruct (registry_with now self request); [reflexivity |].
    destruct (available_models (Server.model_manager self)) eqn:Em;
      [exact Em | reflexivity]. }
  destruct (Server.registration_model_pb _); cbn [fst Server.clients
    Server.model_manager]; split; (reflexivity || exact Hstore).
Qed.

Lemma registry_with_keys now self request k :
  In k (Py.dict_keys (registry_with now self request))
  <-> k = ClientInfoPb.client_id request
      \/ In k (Py.dict_keys (Server.clients self)).
Proof. apply dict_set_keys. Qed.

Lemma dict_set_length {V : Type} (d : Py.dict V) (k : string) (v : V) :
  List.length (Py.dict_set d k v)
  = if Py.dict_mem k d then List.length d else S (List.length d).
Proof.
  unfold Py.dict_mem, Py.dict_keys.
  induction d as [| [k0 v0] d IH]; cbn; [reflexivity |].
  rewrite (String.eqb_sym k k0).
  destruct (String.eqb_spec k0 k) as [-> | Hne]; cbn; [reflexivity |].
  rewrite IH. now destruct (existsb (String.eqb k) (map fst d)).
Qed.

Lemma get_model_info_found (catalog : list ModelInfo) (n : string) :
  In n (map name catalog) ->
  exists m, get_model_info catalog n = Some m /\ In m catalog /\ name m = n.
Proof.
  intros Hin. destruct (get_model_info catalog n) as [m |] eqn:E.
  - exists m. split; [reflexivity |]. now apply get_model_info_some.
  - exfalso. unfold get_model_info in E.
    apply in_map_iff in Hin. destruct Hin as (m & Hn & Hm).
    apply (find_none _ _ E) in Hm. rewrite Hn, String.eqb_refl in Hm.
    discriminate.
Qed.

(** The model that the registering worker is given, and the response that
    [RegisterClient] builds from its catalog descriptor. *)
Lemma register_client_response rnd now self request :
  available_models (Server.model_manager self) <> [] ->
  let catalog := available_models (Server.model_manager self) in
  let r := Server.RegisterClient rnd now self request in
  exists a model_name m,
    assign_models_to_clients rnd catalog (registry_with now self request)
    = Py.Ok a
    /\ NoDup (Py.dict_keys a)
    /\ Py.dict_get a (ClientInfoPb.client_id request) = Some model_name
    /\ get_model_info catalog model_name = Some m
    /\ In m catalog
    /\ name m = model_name
    /\ (supports_vision m = None ->
        snd r = Server.registration_failed (fst r) Server.attribute_error)
    /\ (forall b, supports_vision m = Some b ->
          RegistrationResponse.success (snd r) = true
          /\ RegistrationResponse.assigned_model (snd r) = model_name
          /\ RegistrationResponse.model_info (snd r)
             = {| ModelInfoPb.name := name m;
                  ModelInfoPb.parameters := parameters m;
                  ModelInfoPb.size_gb := size_gb m;
                  ModelInfoPb.complexity_score := complexity_score m;
                  ModelInfoPb.supports_vision := b |}).
Proof.
  intros Hcat catalog r.
  destruct (assign_total rnd catalog (registry_with now self request))
    as (a & E & Hnd & Hval & Hkeys).
  assert (Hin : In (ClientInfoPb.client_id request) (Py.dict_keys a)).
  { apply (Hkeys Hcat), registry_with_keys. now left. }
  apply dict_get_In_keys in Hin. destruct Hin as [model_name Hget].
  destruct (Hval _ _ Hget) as (m0 & Hm0 & Hn0).
  destruct (get_model_info_found catalog model_name) as (m & Hm & Hmin & Hname).
  { rewrite <- Hn0. now apply in_map. }
  exists a, model_name, m.
  repeat (split; [assumption |]).
  unfold r, Server.RegisterClient. cbv zeta.
  fold (registered_record now request). fold (registry_with now self request).
  fold catalog. rewrite E, Hget, Hm.
  unfold Server.registration_model_pb, Server.read_supports_vision.
  split.
  - intros Hv. rewrite Hv. reflexivity.
  - intros b Hv. rewrite Hv. cbn. repeat split.
Qed.

(** X14: [RegisterClient] keeps every registered worker and holds the
    registering one afterwards, on both of its paths: the registry grows by
    one worker for a new ID and keeps its size for a known one, and
    [total_clients] is the size of the registry it leaves. *)
Theorem registration_keeps_registry
    (rnd : nat -> nat) (now : Z) (self : Server.t) (request : ClientInfoPb.t) :
  let r := Server.RegisterClient rnd now self request in
  let cid := ClientInfoPb.client_id request in
  (forall k, In k (Py.dict_keys (Server.clients (fst r)))
             <-> k = cid \/ In k (Py.dict_keys (Server.clients self)))
  /\ List.length (Server.clients (fst r))
     = (if Py.dict_mem cid (Server.clients self)
        then List.length (Server.clients self)
        else S (List.length (Server.clients self)))
  /\ RegistrationResponse.total_clients (snd r)
     = List.length (Server.clients (fst r))
  /\ (well_formed_registry (Server.clients self) ->
      well_formed_registry (Server.clients (fst r))).
Proof.
  intros r cid.
  destruct (register_client_registry rnd now self request) as (a & E & Hcl & _).
  fold r in Hcl.
  assert (Hkeys : Py.dict_keys (Server.clients (fst r))
                  = Py.dict_keys (registry_with now self request)).
  { rewrite Hcl. apply update_client_assignments_keys. }
  split; [| split; [| split]].
  - intros k. rewrite Hkeys. apply registry_with_keys.
  - rewrite <- (length_map fst (Server.clients (fst r))).
    change (map fst (Server.clients (fst r)))
      with (Py.dict_keys (Server.clients (fst r))).
    rewrite Hkeys. unfold Py.dict_keys. rewrite length_map.
    apply dict_set_length.
  - unfold r, Server.RegisterClient. cbv zeta.
    fold (registered_record now request).
    fold (registry_with now self request). rewrite E.
    destruct (Server.registration_model_pb _); reflexivity.
  - unfold well_formed_registry. rewrite Hkeys. apply dict_set_NoDup.
Qed.

Lemma registration_keeps_registry_witness :
  well_formed_registry (Server.clients one_worker_server)
  /\ well_formed_registry
       (Server.clients
          (fst (Server.RegisterClient (fun _ => 0) 0 one_worker_server
                  example_registration))).
Proof.
  assert (H : well_formed_registry (Server.clients one_worker_server))
    by (unfold well_formed_registry; cbn; distinct_keys).
  split; [exact H |].
  exact (proj2 (proj2 (proj2
           (registration_keeps_registry (fun _ => 0) 0 one_worker_server
              example_registration))) H).
Defined.

(** X15: after [RegisterClient] on a non-empty catalog, every worker of
    the registry holds a model of the catalog, also when the response
    reports a failure. *)
Theorem registration_assigns_every_worker
    (rnd : nat -> nat) (now : Z) (self : Server.t) (request : ClientInfoPb.t) :
  available_models (Server.model_manager self) <> [] ->
  let self' := fst (Server.RegisterClient rnd now self request) in
  all_assigned (available_models (Server.model_manager self'))
    (Server.clients self').
Proof.
  intros Hcat self'.
  destruct (register_client_registry rnd now self request)
    as (a & E & Hcl & Hmodels).
  fold self' in Hcl, Hmodels. rewrite Hmodels, Hcl.
  destruct (assign_total rnd (available_models (Server.model_manager self))
              (registry_with now self request))
    as (a' & E' & Hnd & Hval & Hkeys).
  rewrite E in E'. injection E' as <-.
  intros k info Hget.
  rewrite (update_client_assignments_get _ _ k Hnd) in Hget.
  destruct (Py.dict_get (registry_with now self request) k) as [info0 |] eqn:E0;
    [| discriminate].
  assert (Hin : In k (Py.dict_keys a)).
  { apply (Hkeys Hcat), dict_get_In_keys. eauto. }
  apply dict_get_In_keys in Hin. destruct Hin as [model_name Hm].
  rewrite Hm in Hget. injection Hget as <-.
  destruct (Hval _ _ Hm) as (m & Hmin & <-).
  exists m. now split.
Qed.

Lemma registration_assigns_every_worker_witness :
  available_models (Server.model_manager one_worker_server) <> []
  /\ all_assigned vision_catalog
       (Server.clients
          (fst (Server.RegisterClient (fun _ => 0) 0 one_worker_server
                  example_registration))).
Proof.
  assert (H : available_models (Server.model_manager one_worker_server) <> [])
    by discriminate.
  split; [exact H |].
  exact (registration_assigns_every_worker (fun _ => 0) 0 one_worker_server
           example_registration H).
Defined.



(** X17: [RegisterClient] stores the host name, the address, the specs and
    the time of the request under the worker's ID, and changes nothing but
    the assigned model in the records of the other workers. *)
Theorem registration_stores_worker
    (rnd : nat -> nat) (now : Z) (self : Server.t) (request : ClientInfoPb.t) :
  let self' := fst (Server.RegisterClient rnd now self request) in
  let cid := ClientInfoPb.client_id request in
  (exists info,
     Py.dict_get (Server.clients self') cid = Some info
     /\ same_worker info (registered_record now request))
  /\ forall k info0,
       k <> cid ->
       Py.dict_get (Server.clients self) k = Some info0 ->
       exists info,
         Py.dict_get (Server.clients self') k = Some info
         /\ same_worker info info0.
Proof.
  intros self' cid.
  destruct (register_client_registry rnd now self request) as (a & E & Hcl & _).
  fold self' in Hcl.
  destruct (assign_total rnd (available_models (Server.model_manager self))
              (registry_with now self request)) as (a' & E' & Hnd & _).
  rewrite E in E'. injection E' as <-.
  assert (Hsame : forall info m,
             same_worker (ClientInfo.set_assigned_model info m) info)
    by (intros; repeat split).
  assert (Hrefl : forall info, same_worker info info) by (intros; repeat split).
  split.
  - rewrite Hcl, (update_client_assignments_get _ _ _ Hnd).
    unfold registry_with. fold cid. rewrite dict_get_set_same.
    destruct (Py.dict_get a cid); eauto.
  - intros k info0 Hk Hget.
    rewrite Hcl, (update_client_assignments_get _ _ _ Hnd).
    unfold registry_with. fold cid.
    rewrite dict_get_set_other by exact Hk. rewrite Hget.
    destruct (Py.dict_get a k); eauto.
Qed.

Lemma registration_stores_worker_witness :
  "A" <> "B"
  /\ exists info,
       Py.dict_get
         (Server.clients
            (fst (Server.RegisterClient (fun _ => 0) 0 one_worker_server
                    example_registration))) "A" = Some info
       /\ same_worker info (example_client "10.0.0.1" 90).
Proof.
  assert (Hne : "A" <> "B") by discriminate.
  split; [exact Hne |].
  exact (proj2 (registration_stores_worker (fun _ => 0) 0 one_worker_server
                  example_registration)
           "A" (example_client "10.0.0.1" 90) Hne eq_refl).
Defined.

Lemma discovered_without_vision (run : ollama_list) :
  discover_available_models run <> []
  /\ Forall (fun m => supports_vision m = None) (discover_available_models run).
Proof.
  assert (Hdefault :
            _use_default_models <> []
            /\ Forall (fun m => supports_vision m = None) _use_default_models)
    by (split; [discriminate | repeat constructor]).
  unfold discover_available_models.
  destruct run as [| returncode stdout]; [exact Hdefault |].
  destruct (negb (returncode =? 0)%Z); [exact Hdefault |].
  pose proof (parsed_rank_consistent _ (models_found_parsed stdout)) as Hp.
  destruct (models_found_in stdout) as [| m ms] eqn:E; [exact Hdefault |].
  split.
  - intros Hnil. apply (f_equal (@List.length _)) in Hnil.
    rewrite (Permutation_length (sorted_by_perm Z.leb parameters (m :: ms)))
      in Hnil.
    discriminate.
  - apply sorted_by_Forall. eapply Forall_impl; [| exact Hp]. now intros ? [].
Qed.


End RegistryFacts.

(** ** Rebalancing, health and the model list *)
Section ServiceFacts.
Import ModelManager.

Lemma dict_get_of_In {V : Type} (d : Py.dict V) (k : string) (v : V) :
  NoDup (Py.dict_keys d) -> In (k, v) d -> Py.dict_get d k = Some v.
Proof.
  intros Hnd Hin.
  assert (Hk : In k (Py.dict_keys d)).
  { unfold Py.dict_keys. change k with (fst (k, v)). now apply in_map. }
  apply dict_get_In_keys in Hk. destruct Hk as [v' Hv'].
  rewrite Hv'. f_equal.
  apply (dict_value_unique d k v' v Hnd); [| exact Hin].
  clear Hnd Hin. induction d as [| [k0 v0] d IH]; cbn in *; [discriminate |].
  destruct (String.eqb_spec k0 k) as [-> | Hne].
  - injection Hv' as ->. now left.
  - right. now apply IH.
Qed.

(** X19: on a registry with workers and a rediscovered catalog with
    models, [ReassignModels] succeeds, installs the rediscovered catalog,
    lists every worker of the registry exactly once, and stores for each
    worker the model it lists, a model of that catalog. *)
Theorem reassignment_lists_every_worker
    (rnd : nat -> nat) (discovered : list ModelInfo) (self : Server.t) :
  well_formed_registry (Server.clients self) ->
  Server.clients self <> [] ->
  discovered <> [] ->
  let r := Server.ReassignModels rnd discovered self in
  ReassignmentResponse.success (snd r) = true
  /\ available_models (Server.model_manager (fst r)) = discovered
  /\ Permutation
       (map ClientAssignment.client_id
            (ReassignmentResponse.new_assignments (snd r)))
       (Py.dict_keys (Server.clients self))
  /\ Py.dict_keys (Server.clients (fst r)) = Py.dict_keys (Server.clients self)
  /\ forall e,
       In e (ReassignmentResponse.new_assignments (snd r)) ->
       exists info m,
         Py.dict_get (Server.clients (fst r)) (ClientAssignment.client_id e)
         = Some info
         /\ ClientInfo.assigned_model info
            = Some (ClientAssignment.assigned_model e)
         /\ In m discovered
         /\ name m = ClientAssignment.assigned_model e.
Proof.
  intros Hwf Hc Hd r.
  destruct (assign_total rnd discovered (Server.clients self))
    as (a & E & Hnd & Hval & Hkeys).
  specialize (Hkeys Hd).
  unfold r, Server.ReassignModels. cbv zeta.
  destruct (Server.clients self) as [| c cs] eqn:Hcl; [congruence |].
  rewrite E. cbn [fst snd ReassignmentResponse.success
                  ReassignmentResponse.new_assignments Server.clients
                  Server.model_manager].
  split; [reflexivity |].
  split; [unfold store_model_assignments; now destruct discovered |].
  split.
  - rewrite map_map. cbn [ClientAssignment.client_id].
    apply NoDup_Permutation; [exact Hnd | exact Hwf | exact Hkeys].
  - split; [apply update_client_assignments_keys |].
    intros e He. apply in_map_iff in He.
    destruct He as ([k model_name] & <- & Hin).
    cbn [ClientAssignment.client_id ClientAssignment.assigned_model fst snd].
    pose proof (dict_get_of_In a k model_name Hnd Hin) as Hget.
    assert (Hk : In k (Py.dict_keys (c :: cs))).
    { apply Hkeys, dict_get_In_keys. eauto. }
    apply dict_get_In_keys in Hk. destruct Hk as [info0 H0].
    destruct (Hval _ _ Hget) as (m & Hm & Hn).
    exists (ClientInfo.set_assigned_model info0 model_name), m.
    rewrite (update_client_assignments_get _ _ k Hnd), H0, Hget.
    repeat split; assumption.
Qed.

Lemma reassignment_lists_every_worker_witness :
  well_formed_registry (Server.clients vision_server)
  /\ ReassignmentResponse.success
       (snd (Server.ReassignModels (fun _ => 0) _use_default_models
               vision_server)) = true
  /\ map ClientAssignment.client_id
       (ReassignmentResponse.new_assignments
          (snd (Server.ReassignModels (fun _ => 0) _use_default_models
                  vision_server)))
     = ["A"; "B"].
Proof.
  assert (Hwf : well_formed_registry (Server.clients vision_server))
    by (unfold well_formed_registry; cbn; distinct_keys).
  split; [exact Hwf |].
  split; [| reflexivity].
  exact (proj1 (reassignment_lists_every_worker (fun _ => 0)
                  _use_default_models vision_server Hwf
                  ltac:(discriminate) ltac:(discriminate))).
Defined.

Lemma assigned_models_length (clients : Py.dict ClientInfo.t) :
  List.length (Server.assigned_models clients) <= List.length clients.
Proof.
  unfold Server.assigned_models.
  induction clients as [| c clients IH]; cbn [flat_map List.length]; [lia |].
  rewrite length_app.
  destruct (ClientInfo.assigned_model (snd c)) as [[| ? ?] |]; cbn; lia.
Qed.

Lemma assigned_models_In (clients : Py.dict ClientInfo.t) (n : string) :
  In n (Server.assigned_models clients) ->
  exists c, In c clients /\ ClientInfo.assigned_model (snd c) = Some n.
Proof.
  unfold Server.assigned_models. rewrite in_flat_map.
  intros (c & Hc & Hn). exists c. split; [exact Hc |].
  destruct (ClientInfo.assigned_model (snd c)) as [[| a s] |];
    cbn in Hn; try contradiction.
  destruct Hn as [<- | []]. reflexivity.
Qed.

(** X20: [HealthCheck] always reports a healthy server, counts the
    registry, and never reports more active models than connected clients;
    when the assigned models are models of the catalog, it reports no more
    active models than the catalog holds. *)
Theorem health_check_counts (self : Server.t) :
  let h := Server.HealthCheck self in
  HealthResponse.healthy h = true
  /\ HealthResponse.connected_clients h = List.length (Server.clients self)
  /\ HealthResponse.active_models h <= HealthResponse.connected_clients h
  /\ ((forall c n,
         In c (Server.clients self) ->
         ClientInfo.assigned_model (snd c) = Some n ->
         In n (map name (available_models (Server.model_manager self)))) ->
      HealthResponse.active_models h
      <= List.length (available_models (Server.model_manager self))).
Proof.
  cbv zeta. unfold Server.HealthCheck.
  cbn [HealthResponse.healthy HealthResponse.connected_clients
       HealthResponse.active_models].
  set (l := Server.assigned_models (Server.clients self)).
  assert (Hle : List.length (nodup string_dec l) <= List.length l).
  { apply NoDup_incl_length; [apply NoDup_nodup |].
    intros x Hx. now apply nodup_In in Hx. }
  split; [reflexivity |]. split; [reflexivity |]. split.
  - pose proof (assigned_models_length (Server.clients self)). fold l in H. lia.
  - intros Hall.
    rewrite <- (length_map name (available_models (Server.model_manager self))).
    apply NoDup_incl_length; [apply NoDup_nodup |].
    intros x Hx. apply nodup_In in Hx.
    apply assigned_models_In in Hx. destruct Hx as (c & Hc & Hn).
    eapply Hall; eassumption.
Qed.

Lemma health_check_counts_witness :
  HealthResponse.active_models (Server.HealthCheck vision_server) = 2
  /\ HealthResponse.active_models (Server.HealthCheck vision_server)
     <= List.length (available_models (Server.model_manager vision_server)).
Proof.
  split; [reflexivity |].
  apply (proj2 (proj2 (proj2 (health_check_counts vision_server)))).
  intros c n [<- | [<- | []]] [= <-]; cbn; auto.
Defined.

Lemma available_models_pb_ok (models : list ModelInfo) :
  Forall (fun m => supports_vision m <> None) models ->
  exists pbs,
    Server.available_models_pb models = Py.Ok pbs
    /\ map ModelInfoPb.name pbs = map name models
    /\ map ModelInfoPb.complexity_score pbs = map complexity_score models.
Proof.
  induction 1 as [| m models Hm _ IH]; cbn.
  - now exists [].
  - unfold Server.read_supports_vision.
    destruct (supports_vision m) as [b |]; [| congruence].
    destruct IH as (pbs & -> & Hn & Hc). cbn.
    eexists. split; [reflexivity |]. cbn. now rewrite Hn, Hc.
Qed.

Lemma available_models_pb_raise (models : list ModelInfo) :
  Exists (fun m => supports_vision m = None) models ->
  Server.available_models_pb models = Py.Raise Server.attribute_error.
Proof.
  induction 1 as [m models Hm | m models _ IH]; cbn.
  - unfold Server.read_supports_vision. now rewrite Hm.
  - unfold Server.read_supports_vision.
    destruct (supports_vision m); [| reflexivity].
    cbn. now rewrite IH.
Qed.


End ServiceFacts.

(** ** The dispatch: what is sent, what is collected, what is returned *)
Section DispatchMore.
Import ModelManager.
Variable stub : string -> AIRequest.t -> Py.result AIResponse.t.
Variable ollama_run : string -> string -> option string.
Variable format_final : list Collected.t -> string -> string -> string.
Variable request_id : string.
Variable now : Z.

Local Abbreviation runs_of := (Server.fan_out stub request_id now).
Local Abbreviation run_of :=
  (Server.process_client_request stub request_id now).
Local Abbreviation succeeds := (worker_succeeds stub request_id now).


(** X23: a request that the dispatch sends to a worker carries the request
    ID, the prompt and the time of the dispatch, and its image list is the
    caller's list when the catalog descriptor of the worker's model has
    [supports_vision = true], and empty otherwise. *)
Theorem sent_request_contents
    (self : Server.t) (prompt : string) (images : list string)
    (client : string * ClientInfo.t) (req : AIRequest.t) :
  Server.sent (run_of self prompt images client) = Some req ->
  AIRequest.request_id req = request_id
  /\ AIRequest.prompt req = prompt
  /\ AIRequest.timestamp req = now
  /\ AIRequest.images req
     = if vision_capable self (snd client) then images else [].
Proof.
  unfold Server.process_client_request, Server.build_ai_request,
    vision_capable.
  destruct (Server.lookup_assigned self _) as [model_info |]; cbn.
  - unfold Server.read_supports_vision.
    destruct (supports_vision model_info) as [[|] |]; cbn.
    + destruct images as [| image images]; cbn;
        destruct (stub _ _); cbn; intros [= <-]; now repeat split.
    + destruct (stub _ _); cbn; intros [= <-]; now repeat split.
    + discriminate.
  - destruct (stub _ _); cbn; intros [= <-]; now repeat split.
Qed.


Lemma fold_left_max (ms : list ModelInfo) (m : ModelInfo) :
  let best :=
    fold_left
      (fun best x =>
         if (complexity_score best <? complexity_score x)%Z then x else best)
      ms m in
  In best (m :: ms)
  /\ forall x, In x (m :: ms) ->
               (complexity_score x <= complexity_score best)%Z.
Proof.
  revert m. induction ms as [| y ms IH]; intros m; cbn [fold_left].
  - split; [now left |]. intros x [<- | []]. lia.
  - destruct (Z.ltb_spec (complexity_score m) (complexity_score y)) as [Hlt | Hge].
    + destruct (IH y) as [Hin Hmax]. split.
      * right. exact Hin.
      * intros x [<- | Hx]; [| now apply Hmax].
        specialize (Hmax y (or_introl eq_refl)). lia.
    + destruct (IH m) as [Hin Hmax]. split.
      * destruct Hin as [<- | Hin]; [now left | right; now right].
      * intros x [<- | [<- | Hx]].
        -- apply Hmax. now left.
        -- specialize (Hmax m (or_introl eq_refl)). lia.
        -- apply Hmax. now right.
Qed.

(** X25: the summarization model is [gemma3:1b] when the catalog holds a
    model of that name or holds nothing, and otherwise a model of the
    catalog of highest complexity rank. *)
Theorem best_local_model_choice (self : Server.t) :
  let catalog := available_models (Server.model_manager self) in
  let chosen := Server._get_best_local_model self in
  (In "gemma3:1b" (map name catalog) \/ catalog = [] -> chosen = "gemma3:1b")
  /\ (~ In "gemma3:1b" (map name catalog) -> catalog <> [] ->
      exists m,
        In m catalog /\ name m = chosen
        /\ forall m', In m' catalog ->
                      (complexity_score m' <= complexity_score m)%Z).
Proof.
  cbv zeta. unfold Server._get_best_local_model. cbv zeta.
  set (catalog := available_models (Server.model_manager self)).
  destruct (existsb (fun model => String.eqb (name model) "gemma3:1b") catalog)
    eqn:Ex.
  - split; [reflexivity |]. intros Hnot _. exfalso. apply Hnot.
    apply existsb_exists in Ex. destruct Ex as (m & Hm & E).
    apply String.eqb_eq in E. rewrite <- E. now apply in_map.
  - split.
    + intros [Hin | Hnil].
      * exfalso. apply in_map_iff in Hin. destruct Hin as (m & E & Hm).
        assert (Ht : existsb (fun model => String.eqb (name model) "gemma3:1b")
                       catalog = true).
        { apply existsb_exists. exists m. split; [exact Hm |].
          now apply String.eqb_eq. }
        congruence.
      * now rewrite Hnil.
    + intros _ Hne. destruct catalog as [| m ms]; [congruence |].
      destruct (fold_left_max ms m) as [Hin Hmax].
      eexists. split; [exact Hin |]. split; [reflexivity | exact Hmax].
Qed.
End DispatchMore.

Lemma sent_request_contents_witness :
  Server.sent
    (Server.process_client_request answering_stub "r-1" 0 vision_server
       "hello" ["aW1hZ2U="] ("B", text_worker))
  = Some {| AIRequest.request_id := "r-1"; AIRequest.prompt := "hello";
            AIRequest.assigned_model := "text:3b"; AIRequest.timestamp := 0;
            AIRequest.images := [] |}
  /\ @nil string
     = if vision_capable vision_server text_worker then ["aW1hZ2U="] else [].
Proof.
  split; [reflexivity |].
  exact (proj2 (proj2 (proj2
           (sent_request_contents answering_stub "r-1" 0 vision_server "hello"
              ["aW1hZ2U="] ("B", text_worker) _ eq_refl)))).
Defined.


Lemma best_local_model_choice_witness :
  ~ In "gemma3:1b"
      (map ModelManager.name
           (ModelManager.available_models (Server.model_manager vision_server)))
  /\ exists m,
       In m (ModelManager.available_models (Server.model_manager vision_server))
       /\ ModelManager.name m = Server._get_best_local_model vision_server
       /\ forall m',
            In m' (ModelManager.available_models
                     (Server.model_manager vision_server)) ->
            (ModelManager.complexity_score m'
             <= ModelManager.complexity_score m)%Z.
Proof.
  assert (Hnot : ~ In "gemma3:1b"
                     (map ModelManager.name
                          (ModelManager.available_models
                             (Server.model_manager vision_server))))
    by (cbn; intuition discriminate).
  split; [exact Hnot |].
  exact (proj2 (best_local_model_choice vision_server) Hnot
           ltac:(discriminate)).
Defined.

Lemma assignment_total_empty_iff_witness :
  exists assignments,
    ModelManager.assign_models_to_clients (fun _ => 0) [] example_registry
    = Py.Ok assignments
    /\ assignments = [].
Proof.
  destruct (assignment_total_empty_iff (fun _ => 0) [] example_registry)
    as (a & E & Hiff).
  exists a. split; [exact E |]. apply Hiff. now right.
Defined.


